(** * ThumbnailTool: a shallow embedding of the viewport-to-thumbnail pipeline

    The development follows the JavaScript sources:
    - [viewer.js]  : class [Viewer] (asset loading, framing, display state);
    - [app.js]     : the stand-alone application (capture, composite canvas,
                     drag and wheel gestures, bake);
    - [main.js]    : the application built on [Viewer] (same composite canvas,
                     capture and model loading through [Viewer]).

    Numbers come in two forms: [JS], rationals with the infinities and NaN,
    for what does not depend on rounding, and [B64], binary64, for what
    does.

    Part I holds the definitions, Part II the lemmas and theorems. *)

From Stdlib Require Import ZArith QArith Qminmax Lqa Lia List Bool String Ascii.
From Stdlib Require PrimFloat FloatAxioms SpecFloat FloatOps.
From stdpp Require Import base option gmap strings.
Import ListNotations.

Set Warnings "-inexact-float,-register-all".

(* ===================================================================== *)
(** * Part I: definitions                                                 *)
(* ===================================================================== *)

(** ** JavaScript numbers

    A JavaScript number is modelled as an exact rational or one of the three
    special values of IEEE arithmetic.  Finite arithmetic is exact (binary64
    rounding is not modelled) and the two zeros are not told apart: a zero
    divisor behaves as [+0].  What depends on rounding is stated over [B64]
    below. *)
Module JS.

Inductive num : Type :=
| Fin (q : Q)
| PInf
| NInf
| NaN.

Definition Qlt_bool (a b : Q) : bool := negb (Qle_bool b a).

Definition inf_of_sign (positive : bool) : num :=
  if positive then PInf else NInf.

Definition neg (a : num) : num :=
  match a with
  | Fin q => Fin (- q)
  | PInf => NInf
  | NInf => PInf
  | NaN => NaN
  end.

Definition add (a b : num) : num :=
  match a, b with
  | NaN, _ | _, NaN => NaN
  | Fin x, Fin y => Fin (x + y)
  | PInf, NInf | NInf, PInf => NaN
  | PInf, _ | _, PInf => PInf
  | NInf, _ | _, NInf => NInf
  end.

Definition sub (a b : num) : num :=
  match a, b with
  | NaN, _ | _, NaN => NaN
  | Fin x, Fin y => Fin (x - y)
  | PInf, PInf | NInf, NInf => NaN
  | PInf, _ | _, NInf => PInf
  | NInf, _ | _, PInf => NInf
  end.

Definition mul (a b : num) : num :=
  match a, b with
  | NaN, _ | _, NaN => NaN
  | Fin x, Fin y => Fin (x * y)
  | Fin x, PInf | PInf, Fin x =>
      if Qeq_bool x 0 then NaN else inf_of_sign (Qlt_bool 0 x)
  | Fin x, NInf | NInf, Fin x =>
      if Qeq_bool x 0 then NaN else inf_of_sign (Qlt_bool x 0)
  | PInf, PInf | NInf, NInf => PInf
  | PInf, NInf | NInf, PInf => NInf
  end.

(** [x / 0] is an infinity carrying the sign of [x], and [0 / 0] is [NaN];
    no exception is raised. *)
Definition div (a b : num) : num :=
  match a, b with
  | NaN, _ | _, NaN => NaN
  | Fin x, Fin y =>
      if Qeq_bool y 0
      then (if Qeq_bool x 0 then NaN else inf_of_sign (Qlt_bool 0 x))
      else Fin (x / y)
  | Fin _, PInf | Fin _, NInf => Fin 0
  | PInf, Fin y => inf_of_sign (Qle_bool 0 y)
  | NInf, Fin y => inf_of_sign (Qlt_bool y 0)
  | _, _ => NaN
  end.

(** [a < b]; every comparison with [NaN] is false. *)
Definition ltb (a b : num) : bool :=
  match a, b with
  | NaN, _ | _, NaN => false
  | Fin x, Fin y => Qlt_bool x y
  | NInf, NInf | PInf, _ | _, NInf => false
  | NInf, _ | _, PInf => true
  end.

(** [a === b] on numbers. *)
Definition eqb (a b : num) : bool :=
  match a, b with
  | Fin x, Fin y => Qeq_bool x y
  | PInf, PInf | NInf, NInf => true
  | _, _ => false
  end.

(** [a !== b]. *)
Definition neqb (a b : num) : bool := negb (eqb a b).

(** [Math.min(a, b)] and [Math.max(a, b)]: [NaN] as soon as one argument
    is [NaN]. *)
Definition min (a b : num) : num :=
  match a, b with
  | NaN, _ | _, NaN => NaN
  | Fin x, Fin y => Fin (if Qle_bool x y then x else y)
  | NInf, _ | _, NInf => NInf
  | PInf, c | c, PInf => c
  end.

Definition max (a b : num) : num :=
  match a, b with
  | NaN, _ | _, NaN => NaN
  | Fin x, Fin y => Fin (if Qle_bool x y then y else x)
  | PInf, _ | _, PInf => PInf
  | NInf, c | c, NInf => c
  end.

(** [Math.max(a, b, c)]. *)
Definition max3 (a b c : num) : num := max (max a b) c.

(** [Number.isFinite]. *)
Definition is_finite (a : num) : bool :=
  match a with Fin _ => true | _ => false end.

(** Two numbers denote the same value. *)
Definition same (a b : num) : Prop :=
  match a, b with
  | Fin x, Fin y => x == y
  | PInf, PInf | NInf, NInf | NaN, NaN => True
  | _, _ => False
  end.

End JS.

Declare Scope js_scope.
Delimit Scope js_scope with js.
Bind Scope js_scope with JS.num.
Infix "+" := JS.add : js_scope.
Infix "-" := JS.sub : js_scope.
Infix "*" := JS.mul : js_scope.
Infix "/" := JS.div : js_scope.
Notation "a =j= b" := (JS.same a b) (at level 70, no associativity).
Abbreviation Fin := JS.Fin.
Abbreviation PInf := JS.PInf.
Abbreviation NInf := JS.NInf.
Abbreviation NaN := JS.NaN.

(** ** The parts of three.js the sources rely on

    [Vector3], [Quaternion], [Matrix4], [Box3] and [Object3D] follow the
    library, with the operations in the order it writes them.  This module
    computes with the numbers of [JS]; [Three64] below is the same text
    over binary64. *)
Module Three.
Local Open Scope js_scope.

Record Vector3 : Type := mkVector3 { x : JS.num; y : JS.num; z : JS.num }.

Definition addVectors (a b : Vector3) : Vector3 :=
  mkVector3 (x a + x b) (y a + y b) (z a + z b).
Definition subVectors (a b : Vector3) : Vector3 :=
  mkVector3 (x a - x b) (y a - y b) (z a - z b).
Definition multiplyScalar (a : Vector3) (s : JS.num) : Vector3 :=
  mkVector3 (x a * s) (y a * s) (z a * s).
Definition vmin (a b : Vector3) : Vector3 :=
  mkVector3 (JS.min (x a) (x b)) (JS.min (y a) (y b)) (JS.min (z a) (z b)).
Definition vmax (a b : Vector3) : Vector3 :=
  mkVector3 (JS.max (x a) (x b)) (JS.max (y a) (y b)) (JS.max (z a) (z b)).

Record Quaternion : Type :=
  mkQuaternion { _x : JS.num; _y : JS.num; _z : JS.num; _w : JS.num }.

(** [Matrix4.elements], column-major: [te4] is [elements[4]]. *)
Record Matrix4 : Type := mkMatrix4 {
  te0 : JS.num; te1 : JS.num; te2 : JS.num; te3 : JS.num;
  te4 : JS.num; te5 : JS.num; te6 : JS.num; te7 : JS.num;
  te8 : JS.num; te9 : JS.num; te10 : JS.num; te11 : JS.num;
  te12 : JS.num; te13 : JS.num; te14 : JS.num; te15 : JS.num
}.

(** [Matrix4.compose(position, quaternion, scale)]. *)
Definition compose (position : Vector3) (quaternion : Quaternion) (scale : Vector3)
    : Matrix4 :=
  let x := _x quaternion in let y := _y quaternion in
  let z := _z quaternion in let w := _w quaternion in
  let x2 := x + x in let y2 := y + y in let z2 := z + z in
  let xx := x * x2 in let xy := x * y2 in let xz := x * z2 in
  let yy := y * y2 in let yz := y * z2 in let zz := z * z2 in
  let wx := w * x2 in let wy := w * y2 in let wz := w * z2 in
  let sx := Three.x scale in let sy := Three.y scale in let sz := Three.z scale in
  mkMatrix4
    ((Fin 1 - (yy + zz)) * sx) ((xy + wz) * sx) ((xz - wy) * sx) (Fin 0)
    ((xy - wz) * sy) ((Fin 1 - (xx + zz)) * sy) ((yz + wx) * sy) (Fin 0)
    ((xz + wy) * sz) ((yz - wx) * sz) ((Fin 1 - (xx + yy)) * sz) (Fin 0)
    (Three.x position) (Three.y position) (Three.z position) (Fin 1).

(** [Matrix4.multiplyMatrices(a, b)]. *)
Definition multiplyMatrices (a b : Matrix4) : Matrix4 :=
  let a11 := te0 a in let a12 := te4 a in let a13 := te8 a in let a14 := te12 a in
  let a21 := te1 a in let a22 := te5 a in let a23 := te9 a in let a24 := te13 a in
  let a31 := te2 a in let a32 := te6 a in let a33 := te10 a in let a34 := te14 a in
  let a41 := te3 a in let a42 := te7 a in let a43 := te11 a in let a44 := te15 a in
  let b11 := te0 b in let b12 := te4 b in let b13 := te8 b in let b14 := te12 b in
  let b21 := te1 b in let b22 := te5 b in let b23 := te9 b in let b24 := te13 b in
  let b31 := te2 b in let b32 := te6 b in let b33 := te10 b in let b34 := te14 b in
  let b41 := te3 b in let b42 := te7 b in let b43 := te11 b in let b44 := te15 b in
  mkMatrix4
    (a11 * b11 + a12 * b21 + a13 * b31 + a14 * b41)
    (a21 * b11 + a22 * b21 + a23 * b31 + a24 * b41)
    (a31 * b11 + a32 * b21 + a33 * b31 + a34 * b41)
    (a41 * b11 + a42 * b21 + a43 * b31 + a44 * b41)
    (a11 * b12 + a12 * b22 + a13 * b32 + a14 * b42)
    (a21 * b12 + a22 * b22 + a23 * b32 + a24 * b42)
    (a31 * b12 + a32 * b22 + a33 * b32 + a34 * b42)
    (a41 * b12 + a42 * b22 + a43 * b32 + a44 * b42)
    (a11 * b13 + a12 * b23 + a13 * b33 + a14 * b43)
    (a21 * b13 + a22 * b23 + a23 * b33 + a24 * b43)
    (a31 * b13 + a32 * b23 + a33 * b33 + a34 * b43)
    (a41 * b13 + a42 * b23 + a43 * b33 + a44 * b43)
    (a11 * b14 + a12 * b24 + a13 * b34 + a14 * b44)
    (a21 * b14 + a22 * b24 + a23 * b34 + a24 * b44)
    (a31 * b14 + a32 * b24 + a33 * b34 + a34 * b44)
    (a41 * b14 + a42 * b24 + a43 * b34 + a44 * b44).

(** [Vector3.applyMatrix4(m)]. *)
Definition applyMatrix4 (v : Vector3) (m : Matrix4) : Vector3 :=
  let x := Three.x v in let y := Three.y v in let z := Three.z v in
  let w := Fin 1 / (te3 m * x + te7 m * y + te11 m * z + te15 m) in
  mkVector3
    ((te0 m * x + te4 m * y + te8 m * z + te12 m) * w)
    ((te1 m * x + te5 m * y + te9 m * z + te13 m) * w)
    ((te2 m * x + te6 m * y + te10 m * z + te14 m) * w).

Record Box3 : Type := mkBox3 { min : Vector3; max : Vector3 }.

Definition makeEmpty : Box3 :=
  mkBox3 (mkVector3 PInf PInf PInf) (mkVector3 NInf NInf NInf).

Definition expandByPoint (b : Box3) (p : Vector3) : Box3 :=
  mkBox3 (vmin (min b) p) (vmax (max b) p).

Definition setFromPoints (ps : list Vector3) : Box3 :=
  fold_left expandByPoint ps makeEmpty.

Definition isEmpty (b : Box3) : bool :=
  JS.ltb (x (max b)) (x (min b))
  || JS.ltb (y (max b)) (y (min b))
  || JS.ltb (z (max b)) (z (min b)).

Definition union (a b : Box3) : Box3 :=
  mkBox3 (vmin (min a) (min b)) (vmax (max a) (max b)).

(** The eight corners of a box, in the order [Box3.applyMatrix4] takes
    them. *)
Definition corners (b : Box3) : list Vector3 :=
  let lo := min b in let hi := max b in
  [ mkVector3 (x lo) (y lo) (z lo); mkVector3 (x lo) (y lo) (z hi);
    mkVector3 (x lo) (y hi) (z lo); mkVector3 (x lo) (y hi) (z hi);
    mkVector3 (x hi) (y lo) (z lo); mkVector3 (x hi) (y lo) (z hi);
    mkVector3 (x hi) (y hi) (z lo); mkVector3 (x hi) (y hi) (z hi) ].

(** [Box3.applyMatrix4(matrix)]: the box of the eight transformed corners;
    an empty box is left as it is. *)
Definition Box3_applyMatrix4 (b : Box3) (matrix : Matrix4) : Box3 :=
  if isEmpty b then b
  else setFromPoints (map (fun p => applyMatrix4 p matrix) (corners b)).

Definition zero : Vector3 := mkVector3 (Fin 0) (Fin 0) (Fin 0).

Definition getSize (b : Box3) : Vector3 :=
  if isEmpty b then zero else subVectors (max b) (min b).

Definition getCenter (b : Box3) : Vector3 :=
  if isEmpty b then zero
  else multiplyScalar (addVectors (min b) (max b)) (Fin 0.5).

(** An object of the scene graph: its local transform, the bounding box of
    its geometry when it has one ([geometry.boundingBox], as
    [computeBoundingBox] or the loader has set it), and its children. *)
Inductive Object3D : Type :=
  mkObject3D (position : Vector3) (quaternion : Quaternion) (scale : Vector3)
             (geometry : option Box3) (children : list Object3D).

Definition position (o : Object3D) : Vector3 :=
  match o with mkObject3D p _ _ _ _ => p end.
Definition quaternion (o : Object3D) : Quaternion :=
  match o with mkObject3D _ q _ _ _ => q end.
Definition scale (o : Object3D) : Vector3 :=
  match o with mkObject3D _ _ s _ _ => s end.
Definition geometry (o : Object3D) : option Box3 :=
  match o with mkObject3D _ _ _ g _ => g end.
Definition children (o : Object3D) : list Object3D :=
  match o with mkObject3D _ _ _ _ c => c end.

(** [BufferGeometry.computeBoundingBox()] on the vertices of a geometry. *)
Definition computeBoundingBox (vertices : list Vector3) : Box3 :=
  setFromPoints vertices.

(** [object.updateWorldMatrix(false, false)]: the local matrix, composed
    from position, quaternion and scale, multiplied on the left by the
    world matrix of the parent; [parent] is [None] for an object without
    parent. *)
Definition updateWorldMatrix (parent : option Matrix4) (o : Object3D) : Matrix4 :=
  let matrix := compose (position o) (quaternion o) (scale o) in
  match parent with
  | None => matrix
  | Some parentWorld => multiplyMatrices parentWorld matrix
  end.

(** [Box3.expandByObject(object)], with [precise] left at [false]: the box
    of the geometry is carried to world space corner by corner, and the
    children follow. *)
Fixpoint expandByObject (parent : option Matrix4) (o : Object3D) (b : Box3) : Box3 :=
  match o with
  | mkObject3D _ _ _ geometry children =>
      let matrixWorld := updateWorldMatrix parent o in
      let b :=
        match geometry with
        | Some boundingBox => union b (Box3_applyMatrix4 boundingBox matrixWorld)
        | None => b
        end in
      fold_left (fun b child => expandByObject (Some matrixWorld) child b) children b
  end.

(** [new Box3().setFromObject(object)] for an object without parent (the
    scene a loader hands over, before it is added to the [Scene]). *)
Definition setFromObject (o : Object3D) : Box3 :=
  expandByObject None o makeEmpty.

Definition with_scale (o : Object3D) (s : Vector3) : Object3D :=
  mkObject3D (position o) (quaternion o) s (geometry o) (children o).
Definition with_position (o : Object3D) (p : Vector3) : Object3D :=
  mkObject3D p (quaternion o) (scale o) (geometry o) (children o).

(** The quaternion of an object that is not rotated. *)
Definition identity : Quaternion := mkQuaternion (Fin 0) (Fin 0) (Fin 0) (Fin 1).

End Three.

(** ** viewer.js: framing of a loaded scene ([Viewer.setContent]) *)
Module Framing.
Import Three.
Local Open Scope js_scope.

(** What [setContent] computes between [object.updateMatrixWorld()] and
    the positioning of the object: the rescale and the translation.  The
    camera clip planes, which need a square root, are left out. *)
Record Framed : Type := mkFramed {
  object : Object3D;             (* the object, rescaled and repositioned *)
  appliedScale : option JS.num;  (* [scale] when the rescale branch ran *)
  modelCenterY : JS.num
}.

Definition gridSize : JS.num := Fin 10.
Definition targetSize : JS.num := gridSize * Fin 0.5.

Definition maxDimension (boxSize : Vector3) : JS.num :=
  JS.max3 (x boxSize) (y boxSize) (z boxSize).

Definition frame (object0 : Object3D) : Framed :=
  let box := setFromObject object0 in
  let boxSize := getSize box in
  let maxDimension := maxDimension boxSize in
  (* Scale up or down to reach target size *)
  let '(object1, box, boxSize, applied) :=
    if JS.neqb maxDimension targetSize then
      let scale := targetSize / maxDimension in
      let object1 := with_scale object0 (multiplyScalar (Three.scale object0) scale) in
      (* Recalculate bounding box after scaling *)
      let box := setFromObject object1 in
      (object1, box, getSize box, Some scale)
    else (object0, box, boxSize, None) in
  let center := getCenter box in
  (* Center the model on X and Z, but place base on grid (Y=0) *)
  let p := position object1 in
  let object2 :=
    with_position object1
      (mkVector3 (x p - x center) (y p - y (min box)) (z p - z center)) in
  mkFramed object2 applied (y boxSize / Fin 2).

End Framing.

(** ** JavaScript numbers, as binary64

    The values and the operations of IEEE 754 binary64, as the kernel's
    primitive floats implement them: every operation rounds to nearest, ties
    to even, as JavaScript does. *)
Module B64.
Import PrimFloat.

Definition num : Type := float.

Definition add (a b : num) : num := PrimFloat.add a b.
Definition sub (a b : num) : num := PrimFloat.sub a b.
Definition mul (a b : num) : num := PrimFloat.mul a b.
Definition div (a b : num) : num := PrimFloat.div a b.

(** [a < b], [a === b] and [a !== b]; [NaN] compares unequal to itself and
    the two zeros compare equal. *)
Definition ltb (a b : num) : bool := PrimFloat.ltb a b.
Definition eqb (a b : num) : bool := PrimFloat.eqb a b.
Definition neqb (a b : num) : bool := negb (eqb a b).

Definition is_neg_zero (a : num) : bool :=
  match PrimFloat.classify a with FloatClass.NZero => true | _ => false end.

(** [Math.min(a, b)] and [Math.max(a, b)]: [NaN] as soon as one argument
    is [NaN], and [-0] counts as smaller than [+0]. *)
Definition min (a b : num) : num :=
  if PrimFloat.is_nan a || PrimFloat.is_nan b then PrimFloat.nan
  else if ltb a b then a
  else if ltb b a then b
  else if is_neg_zero a then a else b.

Definition max (a b : num) : num :=
  if PrimFloat.is_nan a || PrimFloat.is_nan b then PrimFloat.nan
  else if ltb a b then b
  else if ltb b a then a
  else if is_neg_zero a then b else a.

(** [Math.max(a, b, c)]. *)
Definition max3 (a b c : num) : num := max (max a b) c.

(** [Number.isFinite]. *)
Definition is_finite (a : num) : bool := PrimFloat.is_finite a.

End B64.

Declare Scope b64_scope.
Delimit Scope b64_scope with b64.
Infix "+" := B64.add : b64_scope.
Infix "-" := B64.sub : b64_scope.
Infix "*" := B64.mul : b64_scope.
Infix "/" := B64.div : b64_scope.

(** ** three.js in binary64

    The text of [Three] over binary64: [Matrix4.compose],
    [Matrix4.multiplyMatrices], [Vector3.applyMatrix4] and the methods of
    [Box3] round as the library's code does, operation by operation. *)
Module Three64.
Import PrimFloat.
Local Open Scope float_scope.
Local Open Scope b64_scope.

Record Vector3 : Type := mkVector3 { x : B64.num; y : B64.num; z : B64.num }.

Definition addVectors (a b : Vector3) : Vector3 :=
  mkVector3 (x a + x b) (y a + y b) (z a + z b).
Definition subVectors (a b : Vector3) : Vector3 :=
  mkVector3 (x a - x b) (y a - y b) (z a - z b).
Definition multiplyScalar (a : Vector3) (s : B64.num) : Vector3 :=
  mkVector3 (x a * s) (y a * s) (z a * s).
Definition vmin (a b : Vector3) : Vector3 :=
  mkVector3 (B64.min (x a) (x b)) (B64.min (y a) (y b)) (B64.min (z a) (z b)).
Definition vmax (a b : Vector3) : Vector3 :=
  mkVector3 (B64.max (x a) (x b)) (B64.max (y a) (y b)) (B64.max (z a) (z b)).

Record Quaternion : Type :=
  mkQuaternion { _x : B64.num; _y : B64.num; _z : B64.num; _w : B64.num }.

(** [Matrix4.elements], column-major: [te4] is [elements[4]]. *)
Record Matrix4 : Type := mkMatrix4 {
  te0 : B64.num; te1 : B64.num; te2 : B64.num; te3 : B64.num;
  te4 : B64.num; te5 : B64.num; te6 : B64.num; te7 : B64.num;
  te8 : B64.num; te9 : B64.num; te10 : B64.num; te11 : B64.num;
  te12 : B64.num; te13 : B64.num; te14 : B64.num; te15 : B64.num
}.

(** [Matrix4.compose(position, quaternion, scale)]. *)
Definition compose (position : Vector3) (quaternion : Quaternion) (scale : Vector3)
    : Matrix4 :=
  let x := _x quaternion in let y := _y quaternion in
  let z := _z quaternion in let w := _w quaternion in
  let x2 := x + x in let y2 := y + y in let z2 := z + z in
  let xx := x * x2 in let xy := x * y2 in let xz := x * z2 in
  let yy := y * y2 in let yz := y * z2 in let zz := z * z2 in
  let wx := w * x2 in let wy := w * y2 in let wz := w * z2 in
  let sx := Three64.x scale in let sy := Three64.y scale in let sz := Three64.z scale in
  mkMatrix4
    ((1 - (yy + zz)) * sx) ((xy + wz) * sx) ((xz - wy) * sx) 0
    ((xy - wz) * sy) ((1 - (xx + zz)) * sy) ((yz + wx) * sy) 0
    ((xz + wy) * sz) ((yz - wx) * sz) ((1 - (xx + yy)) * sz) 0
    (Three64.x position) (Three64.y position) (Three64.z position) 1.

(** [Matrix4.multiplyMatrices(a, b)]. *)
Definition multiplyMatrices (a b : Matrix4) : Matrix4 :=
  let a11 := te0 a in let a12 := te4 a in let a13 := te8 a in let a14 := te12 a in
  let a21 := te1 a in let a22 := te5 a in let a23 := te9 a in let a24 := te13 a in
  let a31 := te2 a in let a32 := te6 a in let a33 := te10 a in let a34 := te14 a in
  let a41 := te3 a in let a42 := te7 a in let a43 := te11 a in let a44 := te15 a in
  let b11 := te0 b in let b12 := te4 b in let b13 := te8 b in let b14 := te12 b in
  let b21 := te1 b in let b22 := te5 b in let b23 := te9 b in let b24 := te13 b in
  let b31 := te2 b in let b32 := te6 b in let b33 := te10 b in let b34 := te14 b in
  let b41 := te3 b in let b42 := te7 b in let b43 := te11 b in let b44 := te15 b in
  mkMatrix4
    (a11 * b11 + a12 * b21 + a13 * b31 + a14 * b41)
    (a21 * b11 + a22 * b21 + a23 * b31 + a24 * b41)
    (a31 * b11 + a32 * b21 + a33 * b31 + a34 * b41)
    (a41 * b11 + a42 * b21 + a43 * b31 + a44 * b41)
    (a11 * b12 + a12 * b22 + a13 * b32 + a14 * b42)
    (a21 * b12 + a22 * b22 + a23 * b32 + a24 * b42)
    (a31 * b12 + a32 * b22 + a33 * b32 + a34 * b42)
    (a41 * b12 + a42 * b22 + a43 * b32 + a44 * b42)
    (a11 * b13 + a12 * b23 + a13 * b33 + a14 * b43)
    (a21 * b13 + a22 * b23 + a23 * b33 + a24 * b43)
    (a31 * b13 + a32 * b23 + a33 * b33 + a34 * b43)
    (a41 * b13 + a42 * b23 + a43 * b33 + a44 * b43)
    (a11 * b14 + a12 * b24 + a13 * b34 + a14 * b44)
    (a21 * b14 + a22 * b24 + a23 * b34 + a24 * b44)
    (a31 * b14 + a32 * b24 + a33 * b34 + a34 * b44)
    (a41 * b14 + a42 * b24 + a43 * b34 + a44 * b44).

(** [Vector3.applyMatrix4(m)]. *)
Definition applyMatrix4 (v : Vector3) (m : Matrix4) : Vector3 :=
  let x := Three64.x v in let y := Three64.y v in let z := Three64.z v in
  let w := 1 / (te3 m * x + te7 m * y + te11 m * z + te15 m) in
  mkVector3
    ((te0 m * x + te4 m * y + te8 m * z + te12 m) * w)
    ((te1 m * x + te5 m * y + te9 m * z + te13 m) * w)
    ((te2 m * x + te6 m * y + te10 m * z + te14 m) * w).

Record Box3 : Type := mkBox3 { min : Vector3; max : Vector3 }.

Definition makeEmpty : Box3 :=
  mkBox3 (mkVector3 infinity infinity infinity)
         (mkVector3 neg_infinity neg_infinity neg_infinity).

Definition expandByPoint (b : Box3) (p : Vector3) : Box3 :=
  mkBox3 (vmin (min b) p) (vmax (max b) p).

Definition setFromPoints (ps : list Vector3) : Box3 :=
  fold_left expandByPoint ps makeEmpty.

Definition isEmpty (b : Box3) : bool :=
  B64.ltb (x (max b)) (x (min b))
  || B64.ltb (y (max b)) (y (min b))
  || B64.ltb (z (max b)) (z (min b)).

Definition union (a b : Box3) : Box3 :=
  mkBox3 (vmin (min a) (min b)) (vmax (max a) (max b)).

(** The eight corners of a box, in the order [Box3.applyMatrix4] takes
    them. *)
Definition corners (b : Box3) : list Vector3 :=
  let lo := min b in let hi := max b in
  [ mkVector3 (x lo) (y lo) (z lo); mkVector3 (x lo) (y lo) (z hi);
    mkVector3 (x lo) (y hi) (z lo); mkVector3 (x lo) (y hi) (z hi);
    mkVector3 (x hi) (y lo) (z lo); mkVector3 (x hi) (y lo) (z hi);
    mkVector3 (x hi) (y hi) (z lo); mkVector3 (x hi) (y hi) (z hi) ].

(** [Box3.applyMatrix4(matrix)]: the box of the eight transformed corners;
    an empty box is left as it is. *)
Definition Box3_applyMatrix4 (b : Box3) (matrix : Matrix4) : Box3 :=
  if isEmpty b then b
  else setFromPoints (map (fun p => applyMatrix4 p matrix) (corners b)).

Definition zero : Vector3 := mkVector3 0 0 0.

Definition getSize (b : Box3) : Vector3 :=
  if isEmpty b then zero else subVectors (max b) (min b).

Definition getCenter (b : Box3) : Vector3 :=
  if isEmpty b then zero
  else multiplyScalar (addVectors (min b) (max b)) 0.5.

(** An object of the scene graph: its local transform, the bounding box of
    its geometry when it has one ([geometry.boundingBox], as
    [computeBoundingBox] or the loader has set it), and its children. *)
Inductive Object3D : Type :=
  mkObject3D (position : Vector3) (quaternion : Quaternion) (scale : Vector3)
             (geometry : option Box3) (children : list Object3D).

Definition position (o : Object3D) : Vector3 :=
  match o with mkObject3D p _ _ _ _ => p end.
Definition quaternion (o : Object3D) : Quaternion :=
  match o with mkObject3D _ q _ _ _ => q end.
Definition scale (o : Object3D) : Vector3 :=
  match o with mkObject3D _ _ s _ _ => s end.
Definition geometry (o : Object3D) : option Box3 :=
  match o with mkObject3D _ _ _ g _ => g end.
Definition children (o : Object3D) : list Object3D :=
  match o with mkObject3D _ _ _ _ c => c end.

(** [BufferGeometry.computeBoundingBox()] on the vertices of a geometry. *)
Definition computeBoundingBox (vertices : list Vector3) : Box3 :=
  setFromPoints vertices.

(** [object.updateWorldMatrix(false, false)]: the local matrix, composed
    from position, quaternion and scale, multiplied on the left by the
    world matrix of the parent; [parent] is [None] for an object without
    parent. *)
Definition updateWorldMatrix (parent : option Matrix4) (o : Object3D) : Matrix4 :=
  let matrix := compose (position o) (quaternion o) (scale o) in
  match parent with
  | None => matrix
  | Some parentWorld => multiplyMatrices parentWorld matrix
  end.

(** [Box3.expandByObject(object)], with [precise] left at [false]: the box
    of the geometry is carried to world space corner by corner, and the
    children follow. *)
Fixpoint expandByObject (parent : option Matrix4) (o : Object3D) (b : Box3) : Box3 :=
  match o with
  | mkObject3D _ _ _ geometry children =>
      let matrixWorld := updateWorldMatrix parent o in
      let b :=
        match geometry with
        | Some boundingBox => union b (Box3_applyMatrix4 boundingBox matrixWorld)
        | None => b
        end in
      fold_left (fun b child => expandByObject (Some matrixWorld) child b) children b
  end.

(** [new Box3().setFromObject(object)] for an object without parent (the
    scene a loader hands over, before it is added to the [Scene]). *)
Definition setFromObject (o : Object3D) : Box3 :=
  expandByObject None o makeEmpty.

Definition with_scale (o : Object3D) (s : Vector3) : Object3D :=
  mkObject3D (position o) (quaternion o) s (geometry o) (children o).
Definition with_position (o : Object3D) (p : Vector3) : Object3D :=
  mkObject3D p (quaternion o) (scale o) (geometry o) (children o).

(** The quaternion of an object that is not rotated. *)
Definition identity : Quaternion := mkQuaternion 0 0 0 1.

End Three64.

(** ** viewer.js: framing of a loaded scene ([Viewer.setContent]), in
    binary64 *)
Module Framing64.
Import PrimFloat Three64.
Local Open Scope float_scope.
Local Open Scope b64_scope.

Record Framed : Type := mkFramed {
  object : Object3D;             (* the object, rescaled and repositioned *)
  appliedScale : option B64.num; (* [scale] when the rescale branch ran *)
  modelCenterY : B64.num
}.

Definition gridSize : B64.num := 10.
Definition targetSize : B64.num := gridSize * 0.5.

Definition maxDimension (boxSize : Vector3) : B64.num :=
  B64.max3 (x boxSize) (y boxSize) (z boxSize).

Definition frame (object0 : Object3D) : Framed :=
  let box := setFromObject object0 in
  let boxSize := getSize box in
  let maxDimension := maxDimension boxSize in
  (* Scale up or down to reach target size *)
  let '(object1, box, boxSize, applied) :=
    if B64.neqb maxDimension targetSize then
      let scale := targetSize / maxDimension in
      let object1 := with_scale object0 (multiplyScalar (Three64.scale object0) scale) in
      (* Recalculate bounding box after scaling *)
      let box := setFromObject object1 in
      (object1, box, getSize box, Some scale)
    else (object0, box, boxSize, None) in
  let center := getCenter box in
  (* Center the model on X and Z, but place base on grid (Y=0) *)
  let p := position object1 in
  let object2 :=
    with_position object1
      (mkVector3 (x p - x center) (y p - y (min box)) (z p - z center)) in
  mkFramed object2 applied (y boxSize / 2).

End Framing64.

(** ** app.js: the scale factor of [loadModel], in binary64 *)
Module App64.
Import PrimFloat.
Local Open Scope float_scope.
Local Open Scope b64_scope.

Definition targetSize : B64.num := 4.
Definition autoScale (maxDimension : B64.num) : B64.num :=
  if B64.ltb targetSize maxDimension then targetSize / maxDimension else 1.

End App64.

(** ** What both applications render and draw *)
Module Gfx.

(** [scene.background] is compared by reference: the colour object made at
    start-up, or an environment texture. *)
Inductive Background : Type :=
| ColorObject
| EnvMap (id : nat).

Record GridHelper : Type := mkGridHelper { visible : bool }.

(** One call of [renderer.render] followed by [toDataURL]: a picture,
    described by the settings it was rendered with.  The model shown and the
    pose of the camera stand behind [picture_camera]. *)
Record Picture : Type := mkPicture {
  picture_background : option Background;
  picture_grid : bool;
  picture_clearColor : Z;
  picture_clearAlpha : JS.num;
  picture_camera : nat
}.

Inductive ImageSrc : Type :=
| SrcFile (url : string)
| SrcPicture (f : Picture).

(** An [Image] element: a decoded picture has [complete] and its natural
    size, a picture still loading has size 0.  Pictures that fail to decode
    are not modelled. *)
Module Image.
Record t : Type := mk { src : ImageSrc; complete : bool; width : JS.num; height : JS.num }.
(** [new Image()] followed by [img.src = data]. *)
Definition loading (data : ImageSrc) : t := mk data false (Fin 0) (Fin 0).
End Image.

(** What a 2D context has drawn on its canvas since the canvas was last
    cleared. *)
Inductive DrawOp : Type :=
| FillRect (style : string) (alpha : JS.num) (x y w h : JS.num)
| DrawImage (src : ImageSrc) (alpha : JS.num) (x y w h : JS.num).

Definition Surface : Type := list DrawOp.

End Gfx.

(** ** viewer.js: class [Viewer] *)
Module Viewer.
Import Gfx.

(** The fields of a [Viewer] that loading, framing and capture read or
    write.  [contentAttached] and [gridAttached] say whether [content] and
    [gridHelper] are children of [scene]. *)
Record t : Type := mk {
  content : option Three.Object3D;
  contentAttached : bool;
  sceneBackground : option Background;
  backgroundColor : Z;
  clearColor : Z;
  clearAlpha : JS.num;
  stateGrid : bool;
  gridHelper : option GridHelper;
  gridAttached : bool;
  cameraPose : nat
}.

(** The constructor: [scene.background = this.backgroundColor],
    [renderer.setClearColor(0xcccccc)], grid enabled, no helper yet. *)
Definition new : t :=
  mk None false (Some ColorObject) 0x121212 0xcccccc (Fin 1) true None false 0.

Definition with_content (v : t) (c : option Three.Object3D) (a : bool) : t :=
  mk c a (sceneBackground v) (backgroundColor v) (clearColor v) (clearAlpha v)
     (stateGrid v) (gridHelper v) (gridAttached v) (cameraPose v).
Definition with_sceneBackground (v : t) (b : option Background) : t :=
  mk (content v) (contentAttached v) b (backgroundColor v) (clearColor v)
     (clearAlpha v) (stateGrid v) (gridHelper v) (gridAttached v) (cameraPose v).
Definition setClearColor (v : t) (c : Z) (a : JS.num) : t :=
  mk (content v) (contentAttached v) (sceneBackground v) (backgroundColor v) c a
     (stateGrid v) (gridHelper v) (gridAttached v) (cameraPose v).
Definition with_stateGrid (v : t) (g : bool) : t :=
  mk (content v) (contentAttached v) (sceneBackground v) (backgroundColor v)
     (clearColor v) (clearAlpha v) g (gridHelper v) (gridAttached v) (cameraPose v).
Definition with_grid (v : t) (h : option GridHelper) (a : bool) : t :=
  mk (content v) (contentAttached v) (sceneBackground v) (backgroundColor v)
     (clearColor v) (clearAlpha v) (stateGrid v) h a (cameraPose v).

(** [scene.remove(gridHelper)] and [scene.add(gridHelper)]. *)
Definition sceneRemoveGrid (v : t) : t := with_grid v (gridHelper v) false.
Definition sceneAddGrid (v : t) : t := with_grid v (gridHelper v) true.

(** [clear()]: the previous content leaves the scene; [this.content] keeps
    pointing at it. *)
Definition clear (v : t) : t :=
  match content v with
  | None => v
  | Some c => with_content v (Some c) false
  end.

(** The grid part of [updateDisplay()]. *)
Definition updateGrid (v : t) : t :=
  if negb (Bool.eqb (stateGrid v) (bool_decide (is_Some (gridHelper v)))) then
    if stateGrid v then with_grid v (Some (mkGridHelper true)) true
    else with_grid v None false
  else v.

(** [updateDisplay()]: [None] stands for the [TypeError] raised by the
    traversal of [this.content] when no content was ever set. *)
Definition updateDisplay (v : t) : option t :=
  match content v with
  | None => None
  | Some _ => Some (updateGrid v)
  end.

(** [renderer.render(scene, camera)] read back with [toDataURL]. *)
Definition render (v : t) : Picture :=
  mkPicture (sceneBackground v) (gridAttached v) (clearColor v) (clearAlpha v)
          (cameraPose v).

(** [setContent(object, clips)]. *)
Definition setContent (v : t) (object : Three.Object3D) : t :=
  let v := clear v in
  let framed := Framing.frame object in
  let v := with_content v (Some (Framing.object framed)) true in
  updateGrid v.

End Viewer.

(** ** viewer.js: [Viewer.load] and its URL modifier *)
Module Loading.
Import Gfx.
Local Open Scope string_scope.

(** *** String operations of the modifier *)

(** [s] without the prefix [p], when [p] is a prefix of [s]. *)
Fixpoint strip_prefix (p s : string) : option string :=
  match p, s with
  | EmptyString, _ => Some s
  | String a p', String b s' => if Ascii.eqb a b then strip_prefix p' s' else None
  | String _ _, EmptyString => None
  end.

(** [s.replace(pattern, '')] for a string pattern: the first occurrence of
    the pattern is removed, wherever it is. *)
Fixpoint replace_first (pattern s : string) : string :=
  match strip_prefix pattern s with
  | Some rest => rest
  | None =>
      match s with
      | EmptyString => EmptyString
      | String c s' => String c (replace_first pattern s')
      end
  end.

(** [s.replace(/^(\.?\/)/, '')]: a leading "./" or "/" is removed. *)
Definition strip_leading_slash (s : string) : string :=
  match s with
  | String "."%char (String "/"%char rest) => rest
  | String "/"%char rest => rest
  | _ => s
  end.

(** The part of [s] up to and including its last "/". *)
Fixpoint up_to_last_slash (s : string) : option string :=
  match s with
  | EmptyString => None
  | String c s' =>
      match up_to_last_slash s' with
      | Some p => Some (String c p)
      | None => if Ascii.eqb c "/"%char then Some (String c EmptyString) else None
      end
  end.

(** [LoaderUtils.extractUrlBase(url)]. *)
Definition extractUrlBase (url : string) : string :=
  match up_to_last_slash url with
  | Some base => base
  | None => "./"
  end.

(** *** Object URLs *)

Record Blob : Type := mkBlob { blobData : string }.

(** A URL handed to the network layer: an ordinary string, or an object URL
    minted by [URL.createObjectURL] ("blob:<uuid>"), named by its serial
    number. *)
Inductive URLRef : Type :=
| Plain (url : string)
| ObjectURL (id : nat).

(** The browser's registry of object URLs. *)
Record BlobStore : Type := mkBlobStore { nextId : nat; live : gmap nat Blob }.

Definition createObjectURL (blob : Blob) (st : BlobStore) : nat * BlobStore :=
  (nextId st, mkBlobStore (S (nextId st)) (<[nextId st := blob]> (live st))).

Definition revokeObjectURL (st : BlobStore) (id : nat) : BlobStore :=
  mkBlobStore (nextId st) (delete id (live st)).

Definition store_wf (st : BlobStore) : Prop :=
  forall id, is_Some (live st !! id) -> (id < nextId st)%nat.

Section WithBuiltins.

(** The built-in [decodeURI]; [None] stands for the [URIError] it throws
    on a malformed escape sequence. *)
Variable decodeURI : string -> option string.

(** The closure passed to [MANAGER.setURLModifier]: the normalised URL it
    looks up. *)
Definition normalizedURL (baseURL rootPath url : string) : option string :=
  match decodeURI url with
  | None => None
  | Some decoded =>
      Some (rootPath ++ strip_leading_slash (replace_first baseURL decoded))
  end.

(** The modifier itself.  Its state is the registry of object URLs and the
    array [blobURLs]; [None] is the exception of [decodeURI]. *)
Definition urlModifier (baseURL rootPath : string) (assetMap : gmap string Blob)
    (url : string) (path : option string) (st : BlobStore * list nat)
  : option (URLRef * (BlobStore * list nat)) :=
  match normalizedURL baseURL rootPath url with
  | None => None
  | Some normalized =>
      match assetMap !! normalized with
      | Some blob =>
          let '(blobURL, store) := createObjectURL blob (fst st) in
          Some (ObjectURL blobURL, (store, (snd st ++ [blobURL])%list))
      | None => Some (Plain (default EmptyString path ++ url), st)
      end
  end.

(** [LoadingManager.resolveURL(url)] calls the modifier with the URL
    alone. *)
Definition resolveURL (baseURL rootPath : string) (assetMap : gmap string Blob)
    (url : string) (st : BlobStore * list nat) :=
  urlModifier baseURL rootPath assetMap url None st.

(** All the sub-resource URLs of one load, in the order the loader asks
    for them.  The result is [None] as soon as one of them makes the
    modifier throw; the object URLs made until then stay registered. *)
Fixpoint resolveAll (baseURL rootPath : string) (assetMap : gmap string Blob)
    (urls : list string) (st : BlobStore * list nat)
  : option (list URLRef) * (BlobStore * list nat) :=
  match urls with
  | [] => (Some [], st)
  | url :: rest =>
      match resolveURL baseURL rootPath assetMap url st with
      | None => (None, st)
      | Some (r, st') =>
          let '(rs, st'') := resolveAll baseURL rootPath assetMap rest st' in
          (option_map (cons r) rs, st'')
      end
  end.

(** *** [Viewer.load(url, rootPath, assetMap)] *)

Record GLTF : Type := mkGLTF {
  scene : option Three.Object3D;
  scenes : list Three.Object3D
}.

(** What [GLTFLoader] does with one file: the sub-resource URLs it
    resolves through the manager, then [onLoad] or [onError]. *)
Inductive LoaderOutcome : Type :=
| OnError (error : string)
| OnLoad (gltf : GLTF).

Record LoaderRun : Type := mkLoaderRun {
  requests : list string;
  outcome : LoaderOutcome
}.

(** How the promise returned by [load] settles. *)
Inductive Settled : Type :=
| Resolved (gltf : GLTF)
| Rejected (error : string).

Definition noSceneMessage : string :=
  "This model contains no scene, and cannot be viewed here. However, it may contain individual 3D resources.".

(** An exception raised inside the loader's callbacks (by the modifier or
    by [onLoad]) reaches [onError], that is [reject]: the loader runs them
    inside its promise chain. *)
Definition load (v : Viewer.t) (url rootPath : string) (assetMap : gmap string Blob)
    (run : LoaderRun) (store : BlobStore) : Viewer.t * BlobStore * Settled :=
  let baseURL := extractUrlBase url in
  match resolveAll baseURL rootPath assetMap (requests run) (store, []) with
  | (None, (store, _)) => (v, store, Rejected "URI malformed")
  | (Some _, (store, blobURLs)) =>
      match outcome run with
      | OnError error => (v, store, Rejected error)
      | OnLoad gltf =>
          match (match scene gltf with Some sc => Some sc | None => head (scenes gltf) end) with
          | None => (v, store, Rejected noSceneMessage)
          | Some sc =>
              (Viewer.setContent v sc,
               fold_left revokeObjectURL blobURLs store,
               Resolved gltf)
          end
      end
  end.

End WithBuiltins.

End Loading.

(** ** The composite canvas (app.js and main.js share this code)

    The two files differ in the opacity of the guide layer only (0.3 in
    app.js, 0.5 in main.js), which is a parameter here.  The CSS classes,
    the buttons and the timers that only drive them are left out. *)
Module Thumbnail.
Import Gfx.
Local Open Scope js_scope.

Module Rect.
Record t : Type := mk { left : JS.num; top : JS.num; width : JS.num; height : JS.num }.
End Rect.

(** The canvas element: its backing-store size and where the layout puts
    it ([getBoundingClientRect()]). *)
Module Canvas.
Record t : Type := mk { width : JS.num; height : JS.num; rect : Rect.t }.
End Canvas.

Record Context2D : Type := mkContext2D { fillStyle : string; globalAlpha : JS.num }.

Record Point : Type := mkPoint { x : JS.num; y : JS.num }.

Record MouseEvent : Type := mkMouseEvent { clientX : JS.num; clientY : JS.num }.
Record WheelEvent : Type := mkWheelEvent { deltaY : JS.num }.

Record State : Type := mk {
  thumbnailCanvas : option Canvas.t;
  thumbnailCtx : option Context2D;
  surface : Surface;               (* the pixels of #thumbnail-canvas *)
  thumbnailImage : option Image.t;
  thumbnailOffset : Point;
  thumbnailDragging : bool;
  thumbnailDragStart : Point;
  thumbnailScale : JS.num;
  guidesImage : option Image.t;
  showThumbnailGuides : bool;
  newSnapshotData : option Picture
}.

(** The declarations at the top of the file. *)
Definition initial : State :=
  mk None None [] None (mkPoint (Fin 0) (Fin 0)) false (mkPoint (Fin 0) (Fin 0))
     (Fin 1.0) None true None.

Definition with_drawing (s : State) (ctx : Context2D) (sf : Surface) : State :=
  mk (thumbnailCanvas s) (Some ctx) sf (thumbnailImage s) (thumbnailOffset s)
     (thumbnailDragging s) (thumbnailDragStart s) (thumbnailScale s)
     (guidesImage s) (showThumbnailGuides s) (newSnapshotData s).
Definition with_snapshot (s : State) (data : Picture) (img : Image.t) : State :=
  mk (thumbnailCanvas s) (thumbnailCtx s) (surface s) (Some img) (thumbnailOffset s)
     (thumbnailDragging s) (thumbnailDragStart s) (thumbnailScale s)
     (guidesImage s) (showThumbnailGuides s) (Some data).
Definition with_image (s : State) (img : option Image.t) : State :=
  mk (thumbnailCanvas s) (thumbnailCtx s) (surface s) img (thumbnailOffset s)
     (thumbnailDragging s) (thumbnailDragStart s) (thumbnailScale s)
     (guidesImage s) (showThumbnailGuides s) (newSnapshotData s).
Definition with_offset (s : State) (o : Point) : State :=
  mk (thumbnailCanvas s) (thumbnailCtx s) (surface s) (thumbnailImage s) o
     (thumbnailDragging s) (thumbnailDragStart s) (thumbnailScale s)
     (guidesImage s) (showThumbnailGuides s) (newSnapshotData s).
Definition with_drag (s : State) (dragging : bool) (start : Point) : State :=
  mk (thumbnailCanvas s) (thumbnailCtx s) (surface s) (thumbnailImage s)
     (thumbnailOffset s) dragging start (thumbnailScale s)
     (guidesImage s) (showThumbnailGuides s) (newSnapshotData s).
Definition with_scale (s : State) (k : JS.num) : State :=
  mk (thumbnailCanvas s) (thumbnailCtx s) (surface s) (thumbnailImage s)
     (thumbnailOffset s) (thumbnailDragging s) (thumbnailDragStart s) k
     (guidesImage s) (showThumbnailGuides s) (newSnapshotData s).
Definition with_guides (s : State) (g : option Image.t) (show : bool) : State :=
  mk (thumbnailCanvas s) (thumbnailCtx s) (surface s) (thumbnailImage s)
     (thumbnailOffset s) (thumbnailDragging s) (thumbnailDragStart s)
     (thumbnailScale s) g show (newSnapshotData s).
Definition with_canvas (s : State) (c : option Canvas.t) (ctx : option Context2D) : State :=
  mk c ctx (surface s) (thumbnailImage s)
     (thumbnailOffset s) (thumbnailDragging s) (thumbnailDragStart s)
     (thumbnailScale s) (guidesImage s) (showThumbnailGuides s) (newSnapshotData s).

(** *** The 2D context *)

Definition all_finite (l : list JS.num) : bool := forallb JS.is_finite l.

(** [ctx.fillRect(x, y, w, h)]. *)
Definition fillRect (ctx : Context2D) (x y w h : JS.num) (sf : Surface) : Surface :=
  if all_finite [x; y; w; h]
  then sf ++ [FillRect (fillStyle ctx) (globalAlpha ctx) x y w h]
  else sf.

(** [ctx.drawImage(image, x, y, w, h)]: nothing is drawn while the image is
    not decoded, or when an argument is not finite. *)
Definition drawImage (ctx : Context2D) (image : Image.t) (x y w h : JS.num)
    (sf : Surface) : Surface :=
  if Image.complete image && all_finite [x; y; w; h]
  then sf ++ [DrawImage (Image.src image) (globalAlpha ctx) x y w h]
  else sf.

(** [ctx.clearRect(0, 0, canvas.width, canvas.height)]: the whole surface
    is transparent again. *)
Definition clearAll (sf : Surface) : Surface := [].

Section WithGuideOpacity.

Variable guideAlpha : JS.num.

(** *** [renderThumbnail(includeGrid = null, includeBackground = true)] *)
Definition renderThumbnail (includeGrid : option bool) (includeBackground : bool)
    (s : State) : State :=
  match thumbnailCanvas s, thumbnailCtx s, thumbnailImage s with
  | Some canvas, Some ctx, Some image =>
      let width := Canvas.width canvas in
      let height := Canvas.height canvas in
      let shouldShowGrid :=
        match includeGrid with
        | Some g => g
        | None => showThumbnailGuides s
        end in
      (* Clear canvas *)
      let sf := clearAll (surface s) in
      (* Fill with background color only if includeBackground is true *)
      let '(ctx, sf) :=
        if includeBackground then
          let ctx := mkContext2D "#121212" (globalAlpha ctx) in
          (ctx, fillRect ctx (Fin 0) (Fin 0) width height sf)
        else (ctx, sf) in
      (* Draw guides background image - only if shouldShowGrid is true *)
      let '(ctx, sf) :=
        match guidesImage s with
        | Some g =>
            if shouldShowGrid && Image.complete g then
              let ctx := mkContext2D (fillStyle ctx) guideAlpha in
              let sf := drawImage ctx g (Fin 0) (Fin 0) width height sf in
              (mkContext2D (fillStyle ctx) (Fin 1.0), sf)
            else (ctx, sf)
        | None => (ctx, sf)
        end in
      (* Draw image with current offset and scale *)
      let baseScale :=
        JS.min (width / Image.width image) (height / Image.height image) in
      let scaledWidth := Image.width image * baseScale * thumbnailScale s in
      let scaledHeight := Image.height image * baseScale * thumbnailScale s in
      (* Center the image by default, then apply offset *)
      let centerX := (width - scaledWidth) / Fin 2 in
      let centerY := (height - scaledHeight) / Fin 2 in
      let sf :=
        drawImage ctx image
          (centerX + x (thumbnailOffset s)) (centerY + y (thumbnailOffset s))
          scaledWidth scaledHeight sf in
      with_drawing s ctx sf
  | _, _, _ => s
  end.

(** *** Drag: [onThumbnailMouseDown], [onThumbnailMouseMove],
    [onThumbnailMouseUp].  The listeners sit on the canvas, so the canvas
    exists whenever one of them runs. *)

(** The pointer in canvas coordinates:
    [(event.clientX - rect.left) * scaleX, (event.clientY - rect.top) * scaleY]. *)
Definition scaledPointer (canvas : Canvas.t) (event : MouseEvent) : Point :=
  let rect := Canvas.rect canvas in
  let scaleX := Canvas.width canvas / Rect.width rect in
  let scaleY := Canvas.height canvas / Rect.height rect in
  mkPoint ((clientX event - Rect.left rect) * scaleX)
          ((clientY event - Rect.top rect) * scaleY).

Definition onThumbnailMouseDown (event : MouseEvent) (s : State) : State :=
  match thumbnailCanvas s with
  | Some canvas =>
      let p := scaledPointer canvas event in
      with_drag s true
        (mkPoint (x p - x (thumbnailOffset s)) (y p - y (thumbnailOffset s)))
  | None => s
  end.

Definition onThumbnailMouseMove (event : MouseEvent) (s : State) : State :=
  if negb (thumbnailDragging s) then s
  else
    match thumbnailCanvas s with
    | Some canvas =>
        let p := scaledPointer canvas event in
        let s :=
          with_offset s
            (mkPoint (x p - x (thumbnailDragStart s)) (y p - y (thumbnailDragStart s))) in
        renderThumbnail None true s
    | None => s
    end.

Definition onThumbnailMouseUp (s : State) : State :=
  with_drag s false (thumbnailDragStart s).

(** *** Wheel: [onThumbnailWheel] *)
Definition scaleSpeed : JS.num := Fin 0.025.

Definition onThumbnailWheel (event : WheelEvent) (s : State) : State :=
  let s :=
    if JS.ltb (deltaY event) (Fin 0) then
      (* Scroll up = zoom in (increase scale) *)
      with_scale s (JS.min (Fin 3.0) (thumbnailScale s + scaleSpeed))
    else
      (* Scroll down = zoom out (decrease scale) *)
      with_scale s (JS.max (Fin 0.3) (thumbnailScale s - scaleSpeed)) in
  renderThumbnail None true s.

(** *** [clearThumbnailPreview] *)
Definition clearThumbnailPreview (s : State) : State :=
  with_scale (with_offset s (mkPoint (Fin 0) (Fin 0))) (Fin 1.0).

(** *** The click handler of [#use-snapshot] (the bake).  The second
    component is [finalImageData], the picture read back from the canvas
    for the export; [None] when the handler does nothing. *)
Definition useSnapshot (s : State) : State * option Surface :=
  match newSnapshotData s, thumbnailCanvas s, thumbnailCtx s with
  | Some _, Some _, Some _ =>
      (* Render without grid and without background for transparent export *)
      let s := renderThumbnail (Some false) false s in
      let finalImageData := surface s in
      (* Re-render with guides and background to continue editing *)
      let s := renderThumbnail None true s in
      (s, Some finalImageData)
  | _, _, _ => (s, None)
  end.

(** *** [initThumbnailCanvas] and the two [onload] handlers *)
Definition initThumbnailCanvas (element : option Canvas.t) (s : State) : State :=
  match element with
  | None => with_canvas s None (thumbnailCtx s)
  | Some canvas =>
      let ctx := mkContext2D "#121212" (Fin 1.0) in
      let sf := fillRect ctx (Fin 0) (Fin 0) (Canvas.width canvas) (Canvas.height canvas)
                  (surface s) in
      let s := with_drawing (with_canvas s (Some canvas) (Some ctx)) ctx sf in
      with_guides s (Some (Image.loading (SrcFile "Guides.png"))) (showThumbnailGuides s)
  end.

(** [guidesImage.onload], once the guide picture of size [w] x [h] is
    decoded. *)
Definition onGuidesLoad (w h : JS.num) (s : State) : State :=
  match guidesImage s, thumbnailCanvas s, thumbnailCtx s with
  | Some g, Some canvas, Some ctx =>
      let g := Image.mk (Image.src g) true w h in
      let s := with_guides s (Some g) (showThumbnailGuides s) in
      let ctx := mkContext2D (fillStyle ctx) guideAlpha in
      let sf := drawImage ctx g (Fin 0) (Fin 0) (Canvas.width canvas)
                  (Canvas.height canvas) (surface s) in
      with_drawing s (mkContext2D (fillStyle ctx) (Fin 1.0)) sf
  | _, _, _ => s
  end.

(** [thumbnailImage.onload], once the current snapshot is decoded. *)
Definition onSnapshotLoad (w h : JS.num) (s : State) : State :=
  match thumbnailImage s with
  | Some img =>
      renderThumbnail None true
        (with_image s (Some (Image.mk (Image.src img) true w h)))
  | None => s
  end.

End WithGuideOpacity.

End Thumbnail.

(** ** The composite canvas in binary64

    The drag handlers and [renderThumbnail] of [Thumbnail], the same text
    with its arithmetic in binary64. *)
Module Gfx64.
Import Gfx.

Module Image.
Record t : Type := mk { src : ImageSrc; complete : bool; width : B64.num; height : B64.num }.
End Image.

Inductive DrawOp : Type :=
| FillRect (style : string) (alpha : B64.num) (x y w h : B64.num)
| DrawImage (src : ImageSrc) (alpha : B64.num) (x y w h : B64.num).

Definition Surface : Type := list DrawOp.

End Gfx64.

Module Thumbnail64.
Import PrimFloat Gfx Gfx64.
Local Open Scope float_scope.
Local Open Scope b64_scope.

Module Rect.
Record t : Type := mk { left : B64.num; top : B64.num; width : B64.num; height : B64.num }.
End Rect.

Module Canvas.
Record t : Type := mk { width : B64.num; height : B64.num; rect : Rect.t }.
End Canvas.

Record Context2D : Type := mkContext2D { fillStyle : string; globalAlpha : B64.num }.

Record Point : Type := mkPoint { x : B64.num; y : B64.num }.

Record MouseEvent : Type := mkMouseEvent { clientX : B64.num; clientY : B64.num }.

Record State : Type := mk {
  thumbnailCanvas : option Canvas.t;
  thumbnailCtx : option Context2D;
  surface : Surface;               (* the pixels of #thumbnail-canvas *)
  thumbnailImage : option Image.t;
  thumbnailOffset : Point;
  thumbnailDragging : bool;
  thumbnailDragStart : Point;
  thumbnailScale : B64.num;
  guidesImage : option Image.t;
  showThumbnailGuides : bool;
  newSnapshotData : option Picture
}.

Definition with_drawing (s : State) (ctx : Context2D) (sf : Surface) : State :=
  mk (thumbnailCanvas s) (Some ctx) sf (thumbnailImage s) (thumbnailOffset s)
     (thumbnailDragging s) (thumbnailDragStart s) (thumbnailScale s)
     (guidesImage s) (showThumbnailGuides s) (newSnapshotData s).
Definition with_offset (s : State) (o : Point) : State :=
  mk (thumbnailCanvas s) (thumbnailCtx s) (surface s) (thumbnailImage s) o
     (thumbnailDragging s) (thumbnailDragStart s) (thumbnailScale s)
     (guidesImage s) (showThumbnailGuides s) (newSnapshotData s).
Definition with_drag (s : State) (dragging : bool) (start : Point) : State :=
  mk (thumbnailCanvas s) (thumbnailCtx s) (surface s) (thumbnailImage s)
     (thumbnailOffset s) dragging start (thumbnailScale s)
     (guidesImage s) (showThumbnailGuides s) (newSnapshotData s).

Definition all_finite (l : list B64.num) : bool := forallb B64.is_finite l.

(** [ctx.fillRect(x, y, w, h)]. *)
Definition fillRect (ctx : Context2D) (x y w h : B64.num) (sf : Surface) : Surface :=
  if all_finite [x; y; w; h]
  then sf ++ [FillRect (fillStyle ctx) (globalAlpha ctx) x y w h]
  else sf.

(** [ctx.drawImage(image, x, y, w, h)]: nothing is drawn while the image is
    not decoded, or when an argument is not finite. *)
Definition drawImage (ctx : Context2D) (image : Image.t) (x y w h : B64.num)
    (sf : Surface) : Surface :=
  if Image.complete image && all_finite [x; y; w; h]
  then sf ++ [DrawImage (Image.src image) (globalAlpha ctx) x y w h]
  else sf.

(** [ctx.clearRect(0, 0, canvas.width, canvas.height)]. *)
Definition clearAll (sf : Surface) : Surface := [].

Section WithGuideOpacity.

Variable guideAlpha : B64.num.

(** [renderThumbnail(includeGrid = null, includeBackground = true)]. *)
Definition renderThumbnail (includeGrid : option bool) (includeBackground : bool)
    (s : State) : State :=
  match thumbnailCanvas s, thumbnailCtx s, thumbnailImage s with
  | Some canvas, Some ctx, Some image =>
      let width := Canvas.width canvas in
      let height := Canvas.height canvas in
      let shouldShowGrid :=
        match includeGrid with
        | Some g => g
        | None => showThumbnailGuides s
        end in
      (* Clear canvas *)
      let sf := clearAll (surface s) in
      (* Fill with background color only if includeBackground is true *)
      let '(ctx, sf) :=
        if includeBackground then
          let ctx := mkContext2D "#121212" (globalAlpha ctx) in
          (ctx, fillRect ctx 0 0 width height sf)
        else (ctx, sf) in
      (* Draw guides background image - only if shouldShowGrid is true *)
      let '(ctx, sf) :=
        match guidesImage s with
        | Some g =>
            if shouldShowGrid && Image.complete g then
              let ctx := mkContext2D (fillStyle ctx) guideAlpha in
              let sf := drawImage ctx g 0 0 width height sf in
              (mkContext2D (fillStyle ctx) 1.0, sf)
            else (ctx, sf)
        | None => (ctx, sf)
        end in
      (* Draw image with current offset and scale *)
      let baseScale :=
        B64.min (width / Image.width image) (height / Image.height image) in
      let scaledWidth := Image.width image * baseScale * thumbnailScale s in
      let scaledHeight := Image.height image * baseScale * thumbnailScale s in
      (* Center the image by default, then apply offset *)
      let centerX := (width - scaledWidth) / 2 in
      let centerY := (height - scaledHeight) / 2 in
      let sf :=
        drawImage ctx image
          (centerX + x (thumbnailOffset s)) (centerY + y (thumbnailOffset s))
          scaledWidth scaledHeight sf in
      with_drawing s ctx sf
  | _, _, _ => s
  end.

(** The pointer in canvas coordinates:
    [(event.clientX - rect.left) * scaleX, (event.clientY - rect.top) * scaleY]. *)
Definition scaledPointer (canvas : Canvas.t) (event : MouseEvent) : Point :=
  let rect := Canvas.rect canvas in
  let scaleX := Canvas.width canvas / Rect.width rect in
  let scaleY := Canvas.height canvas / Rect.height rect in
  mkPoint ((clientX event - Rect.left rect) * scaleX)
          ((clientY event - Rect.top rect) * scaleY).

Definition onThumbnailMouseDown (event : MouseEvent) (s : State) : State :=
  match thumbnailCanvas s with
  | Some canvas =>
      let p := scaledPointer canvas event in
      with_drag s true
        (mkPoint (x p - x (thumbnailOffset s)) (y p - y (thumbnailOffset s)))
  | None => s
  end.

Definition onThumbnailMouseMove (event : MouseEvent) (s : State) : State :=
  if negb (thumbnailDragging s) then s
  else
    match thumbnailCanvas s with
    | Some canvas =>
        let p := scaledPointer canvas event in
        let s :=
          with_offset s
            (mkPoint (x p - x (thumbnailDragStart s)) (y p - y (thumbnailDragStart s))) in
        renderThumbnail None true s
    | None => s
    end.

Definition onThumbnailMouseUp (s : State) : State :=
  with_drag s false (thumbnailDragStart s).

End WithGuideOpacity.

End Thumbnail64.

(** ** app.js: the stand-alone application *)
Module App.
Import Gfx.

(** The state after [init()]: the scene, the renderer and the grid exist.
    [captureLog] records every picture a capture reads back from the
    renderer, most recent first. *)
Record State : Type := mk {
  sceneBackground : option Background;
  clearColor : Z;
  clearAlpha : JS.num;
  gridHelper : option GridHelper;
  cameraPose : nat;
  thumb : Thumbnail.State;
  isLiveUpdating : bool;
  lastThumbnailUpdate : Z;
  hasUserInteracted : bool;
  captureLog : list Picture
}.

Definition THUMBNAIL_UPDATE_INTERVAL : Z := 100.
Definition guideAlpha : JS.num := Fin 0.3.

Definition with_thumb (s : State) (t : Thumbnail.State) : State :=
  mk (sceneBackground s) (clearColor s) (clearAlpha s) (gridHelper s) (cameraPose s)
     t (isLiveUpdating s) (lastThumbnailUpdate s) (hasUserInteracted s) (captureLog s).
Definition with_sceneBackground (s : State) (b : option Background) : State :=
  mk b (clearColor s) (clearAlpha s) (gridHelper s) (cameraPose s)
     (thumb s) (isLiveUpdating s) (lastThumbnailUpdate s) (hasUserInteracted s)
     (captureLog s).
Definition setClearColor (s : State) (c : Z) (a : JS.num) : State :=
  mk (sceneBackground s) c a (gridHelper s) (cameraPose s)
     (thumb s) (isLiveUpdating s) (lastThumbnailUpdate s) (hasUserInteracted s)
     (captureLog s).
Definition with_gridHelper (s : State) (g : option GridHelper) : State :=
  mk (sceneBackground s) (clearColor s) (clearAlpha s) g (cameraPose s)
     (thumb s) (isLiveUpdating s) (lastThumbnailUpdate s) (hasUserInteracted s)
     (captureLog s).
Definition with_live (s : State) (live interacted : bool) : State :=
  mk (sceneBackground s) (clearColor s) (clearAlpha s) (gridHelper s) (cameraPose s)
     (thumb s) live (lastThumbnailUpdate s) interacted (captureLog s).
Definition with_lastThumbnailUpdate (s : State) (t : Z) : State :=
  mk (sceneBackground s) (clearColor s) (clearAlpha s) (gridHelper s) (cameraPose s)
     (thumb s) (isLiveUpdating s) t (hasUserInteracted s) (captureLog s).
Definition with_captureLog (s : State) (l : list Picture) : State :=
  mk (sceneBackground s) (clearColor s) (clearAlpha s) (gridHelper s) (cameraPose s)
     (thumb s) (isLiveUpdating s) (lastThumbnailUpdate s) (hasUserInteracted s) l.

(** [init()]: background colour object, opaque clear colour, visible
    grid. *)
Definition init : State :=
  mk (Some ColorObject) 0x121212 (Fin 1) (Some (mkGridHelper true)) 0
     Thumbnail.initial false 0 false [].

(** The [DOMContentLoaded] handler: [init(); initThumbnailCanvas();] and
    live updating switched on. *)
Definition onDOMContentLoaded (element : option Thumbnail.Canvas.t) : State :=
  with_live (with_thumb init (Thumbnail.initThumbnailCanvas element Thumbnail.initial))
            true true.

Definition enableLiveUpdating (s : State) : State :=
  if negb (isLiveUpdating s) then with_live s true true else s.

(** [renderer.render(scene, camera)] read back with [toDataURL]. *)
Definition render (s : State) : Picture :=
  mkPicture (sceneBackground s)
          (match gridHelper s with Some g => visible g | None => false end)
          (clearColor s) (clearAlpha s) (cameraPose s).

(** [updateThumbnailFromViewport()], called when [Date.now()] is [now]. *)
Definition updateThumbnailFromViewport (now : Z) (s : State) : State :=
  if negb (isLiveUpdating s)
     || negb (bool_decide (is_Some (Thumbnail.thumbnailCanvas (thumb s))))
     || negb (bool_decide (is_Some (Thumbnail.thumbnailCtx (thumb s))))
  then s
  else if (now - lastThumbnailUpdate s <? THUMBNAIL_UPDATE_INTERVAL)%Z then s
  else
    let s := with_lastThumbnailUpdate s now in
    (* Temporarily set background to transparent for the snapshot *)
    let originalBackground := sceneBackground s in
    let s := with_sceneBackground s None in
    (* Hide grid during snapshot *)
    let gridWasVisible :=
      match gridHelper s with Some g => visible g | None => false end in
    let s :=
      match gridHelper s with
      | Some _ => with_gridHelper s (Some (mkGridHelper false))
      | None => s
      end in
    (* Clear with transparency and render the scene *)
    let s := setClearColor s 0x000000 (Fin 0) in
    let imageData := render s in
    let s := with_captureLog s (imageData :: captureLog s) in
    (* Restore the original background and clear color *)
    let s := with_sceneBackground s originalBackground in
    let s := setClearColor s 0x121212 (Fin 1) in
    (* Restore grid visibility *)
    let s :=
      match gridHelper s with
      | Some _ => with_gridHelper s (Some (mkGridHelper gridWasVisible))
      | None => s
      end in
    (* Store the snapshot data; load image and update display *)
    with_thumb s
      (Thumbnail.with_snapshot (thumb s) imageData (Image.loading (SrcPicture imageData))).

(** The timer set after a load: [lastThumbnailUpdate = 0;
    updateThumbnailFromViewport();]. *)
Definition forceThumbnailUpdate (now : Z) (s : State) : State :=
  updateThumbnailFromViewport now (with_lastThumbnailUpdate s 0).

(** The click handler of [#toggle-grid]; [active] tells whether the canvas
    element carries the class [active]. *)
Definition toggleGrid (active : bool) (s : State) : State :=
  match gridHelper s with
  | Some g =>
      let s := with_gridHelper s (Some (mkGridHelper (negb (visible g)))) in
      let t := Thumbnail.with_guides (thumb s) (Thumbnail.guidesImage (thumb s))
                 (negb (visible g)) in
      let t :=
        if active && bool_decide (is_Some (Thumbnail.thumbnailCanvas t))
           && bool_decide (is_Some (Thumbnail.thumbnailImage t))
        then Thumbnail.renderThumbnail guideAlpha None true t else t in
      with_thumb s t
  | None => s
  end.

(** The handlers of the composite canvas, on the application state. *)
Definition onThumbnailMouseDown e s := with_thumb s (Thumbnail.onThumbnailMouseDown e (thumb s)).
Definition onThumbnailMouseMove e s :=
  with_thumb s (Thumbnail.onThumbnailMouseMove guideAlpha e (thumb s)).
Definition onThumbnailMouseUp s := with_thumb s (Thumbnail.onThumbnailMouseUp (thumb s)).
Definition onThumbnailWheel e s :=
  with_thumb s (Thumbnail.onThumbnailWheel guideAlpha e (thumb s)).
Definition clearThumbnailPreview s := with_thumb s (Thumbnail.clearThumbnailPreview (thumb s)).
Definition useSnapshot (s : State) : State * option Surface :=
  let '(t, out) := Thumbnail.useSnapshot guideAlpha (thumb s) in (with_thumb s t, out).

(** The [onload] handlers of the guide picture and of the snapshot. *)
Definition onGuidesLoad (w h : JS.num) (s : State) : State :=
  with_thumb s (Thumbnail.onGuidesLoad guideAlpha w h (thumb s)).
Definition onSnapshotLoad (w h : JS.num) (s : State) : State :=
  with_thumb s (Thumbnail.onSnapshotLoad guideAlpha w h (thumb s)).

(** The scale factor of the loader of app.js ([loadModel]): it only ever
    shrinks, towards a largest dimension of 4. *)
Definition targetSize : JS.num := Fin 4.
Definition autoScale (maxDimension : JS.num) : JS.num :=
  if JS.ltb targetSize maxDimension then (targetSize / maxDimension)%js else Fin 1.

End App.

(** ** main.js: the application built on [Viewer] *)
Module Main.
Import Gfx.
Local Open Scope string_scope.

(** What the user can see of a load: the loading indicator (its
    [style.display]; [None] when the page has no such element), the
    dialogs opened with [alert], and the developer console. *)
Record UI : Type := mkUI {
  loadingIndicator : option string;
  alerts : list string;
  console : list string
}.

Record State : Type := mk {
  viewer : option Viewer.t;
  thumb : Thumbnail.State;
  isLiveUpdating : bool;
  lastThumbnailUpdate : Z;
  hasUserInteracted : bool;
  captureLog : list Picture;
  ui : UI;
  store : Loading.BlobStore
}.

Definition THUMBNAIL_UPDATE_INTERVAL : Z := 100.
Definition guideAlpha : JS.num := Fin 0.5.

Definition with_viewer (s : State) (v : Viewer.t) : State :=
  mk (Some v) (thumb s) (isLiveUpdating s) (lastThumbnailUpdate s)
     (hasUserInteracted s) (captureLog s) (ui s) (store s).
Definition with_thumb (s : State) (t : Thumbnail.State) : State :=
  mk (viewer s) t (isLiveUpdating s) (lastThumbnailUpdate s)
     (hasUserInteracted s) (captureLog s) (ui s) (store s).
Definition with_live (s : State) (live interacted : bool) : State :=
  mk (viewer s) (thumb s) live (lastThumbnailUpdate s) interacted
     (captureLog s) (ui s) (store s).
Definition with_lastThumbnailUpdate (s : State) (t : Z) : State :=
  mk (viewer s) (thumb s) (isLiveUpdating s) t (hasUserInteracted s)
     (captureLog s) (ui s) (store s).
Definition with_captureLog (s : State) (l : list Picture) : State :=
  mk (viewer s) (thumb s) (isLiveUpdating s) (lastThumbnailUpdate s)
     (hasUserInteracted s) l (ui s) (store s).
Definition with_ui (s : State) (u : UI) : State :=
  mk (viewer s) (thumb s) (isLiveUpdating s) (lastThumbnailUpdate s)
     (hasUserInteracted s) (captureLog s) u (store s).
Definition with_store (s : State) (st : Loading.BlobStore) : State :=
  mk (viewer s) (thumb s) (isLiveUpdating s) (lastThumbnailUpdate s)
     (hasUserInteracted s) (captureLog s) (ui s) st.

(** [loadingIndicator.style.display = d], when the element exists. *)
Definition setIndicator (d : string) (u : UI) : UI :=
  mkUI (match loadingIndicator u with Some _ => Some d | None => None end)
       (alerts u) (console u).
Definition alert (msg : string) (u : UI) : UI :=
  mkUI (loadingIndicator u) (alerts u ++ [msg])%list (console u).
Definition console_error (msg : string) (u : UI) : UI :=
  mkUI (loadingIndicator u) (alerts u) (console u ++ [msg])%list.

(** The state once [init()] has made the viewer, before any model is
    asked for; [indicator] tells whether the page has a loading
    indicator. *)
Definition init (indicator : bool) : State :=
  mk (Some Viewer.new) Thumbnail.initial false 0 false []
     (mkUI (if indicator then Some "none" else None) [] [])
     (Loading.mkBlobStore 0 ∅).

(** [updateThumbnailFromViewport()], called when [Date.now()] is [now].
    [viewer.axesHelper] is never defined by [Viewer], so the two branches
    on it do nothing. *)
Definition updateThumbnailFromViewport (now : Z) (s : State) : State :=
  match viewer s with
  | None => s
  | Some v =>
    if negb (isLiveUpdating s)
       || negb (bool_decide (is_Some (Thumbnail.thumbnailCanvas (thumb s))))
       || negb (bool_decide (is_Some (Thumbnail.thumbnailCtx (thumb s))))
    then s
    else if (now - lastThumbnailUpdate s <? THUMBNAIL_UPDATE_INTERVAL)%Z then s
    else
      let s := with_lastThumbnailUpdate s now in
      (* Temporarily set background to null for transparent screenshot *)
      let originalBackground := Viewer.sceneBackground v in
      let v := Viewer.with_sceneBackground v None in
      (* Hide grid during snapshot *)
      let gridWasVisible := Viewer.stateGrid v in
      let v :=
        match Viewer.gridHelper v with
        | Some _ => Viewer.sceneRemoveGrid v
        | None => v
        end in
      (* Force a render with transparent background *)
      let v := Viewer.setClearColor v 0x000000 (Fin 0) in
      let imageData := Viewer.render v in
      let s := with_captureLog s (imageData :: captureLog s) in
      (* Restore the original background and grid *)
      let v := Viewer.with_sceneBackground v originalBackground in
      let v := Viewer.setClearColor v (Viewer.backgroundColor v) (Fin 1) in
      let v :=
        if gridWasVisible then
          match Viewer.gridHelper v with
          | Some _ => Viewer.sceneAddGrid v
          | None => v
          end
        else v in
      (* Store the snapshot data; load image and update display *)
      with_thumb (with_viewer s v)
        (Thumbnail.with_snapshot (thumb s) imageData (Image.loading (SrcPicture imageData)))
  end.

Section WithBuiltins.

Variable decodeURI : string -> option string.

(** [loadModel(modelUrl)] up to the call of [viewer.load]. *)
Definition loadModel_start (s : State) : State :=
  (* Show loading indicator *)
  let s := with_ui s (setIndicator "block" (ui s)) in
  (* Clear the thumbnail preview *)
  let s := with_thumb s (Thumbnail.clearThumbnailPreview (thumb s)) in
  (* Ensure grid is visible after load *)
  match viewer s with
  | Some v => with_viewer s (Viewer.with_stateGrid v true)
  | None => s
  end.

(** The [catch] handler of [loadModel]. *)
Definition loadModel_catch (error : string) (s : State) : State :=
  let s := with_ui s (console_error ("Error loading model: " ++ error) (ui s)) in
  with_ui s (setIndicator "none" (ui s)).

(** The [then] handler of [loadModel]; an exception it raises goes to the
    [catch] handler chained after it. *)
Definition loadModel_then (s : State) : State :=
  (* Hide loading indicator *)
  let s := with_ui s (setIndicator "none" (ui s)) in
  (* Trigger display update *)
  match viewer s with
  | Some v =>
      match Viewer.updateDisplay v with
      | Some v =>
          (* Enable live updating *)
          with_live (with_viewer s v) true true
      | None => loadModel_catch "TypeError" s
      end
  | None => loadModel_catch "TypeError" s
  end.

(** [loadModel(modelUrl)], followed to the moment the promise of
    [viewer.load] settles and its [then] or [catch] handler has run. *)
Definition loadModel (modelUrl : string) (run : Loading.LoaderRun) (s : State) : State :=
  match viewer s with
  | None => s
  | Some _ =>
      let s := loadModel_start s in
      match viewer s with
      | None => s
      | Some v =>
          (* Load the model *)
          let '(v, st, settled) :=
            Loading.load decodeURI v modelUrl EmptyString ∅ run (store s) in
          let s := with_store (with_viewer s v) st in
          match settled with
          | Loading.Resolved gltf => loadModel_then s
          | Loading.Rejected error => loadModel_catch error s
          end
      end
  end.

(** The two handlers [handleFileUpload] attaches to [viewer.load], for an
    uploaded main file already turned into the URL [fileURL]. *)
Definition uploadModel (fileURL : string) (assetMap : gmap string Loading.Blob)
    (run : Loading.LoaderRun) (s : State) : State :=
  match viewer s with
  | None => s
  | Some v =>
      let '(v, st, settled) :=
        Loading.load decodeURI v fileURL EmptyString assetMap run (store s) in
      let s := with_store (with_viewer s v) st in
      match settled with
      | Loading.Resolved gltf =>
          let s := with_ui s (setIndicator "none" (ui s)) in
          let s := with_thumb s (Thumbnail.clearThumbnailPreview (thumb s)) in
          with_live s true true
      | Loading.Rejected error =>
          let s := with_ui s (console_error ("Error loading uploaded model: " ++ error) (ui s)) in
          let s := with_ui s (alert ("Error loading model: " ++ error) (ui s)) in
          with_ui s (setIndicator "none" (ui s))
      end
  end.

End WithBuiltins.

(** [initThumbnailCanvas()] of main.js, which has no test on the element:
    without [#thumbnail-canvas] the call [thumbnailCanvas.getContext('2d')]
    throws, and [None] stands for that [TypeError]. *)
Definition initThumbnailCanvas (element : option Thumbnail.Canvas.t)
    (t : Thumbnail.State) : option Thumbnail.State :=
  match element with
  | None => None
  | Some _ => Some (Thumbnail.initThumbnailCanvas element t)
  end.

(** The [DOMContentLoaded] handler: [init()], which ends by asking for the
    first model, then [initThumbnailCanvas()], and live updating switched
    on.  The load of the first model is still under way.  When
    [initThumbnailCanvas()] throws, the handler stops there: the canvas
    variable holds [null] and live updating stays off. *)
Definition onDOMContentLoaded (indicator : bool) (element : option Thumbnail.Canvas.t)
  : State :=
  let s := loadModel_start (init indicator) in
  match initThumbnailCanvas element (thumb s) with
  | Some t => with_live (with_thumb s t) true true
  | None => with_thumb s (Thumbnail.with_canvas (thumb s) None (Thumbnail.thumbnailCtx (thumb s)))
  end.

End Main.

(** ** The vocabulary of the statements, and the data of the examples *)

(** ** Objects used as examples *)
Module FramingExamples.
Import Three.

Definition v3 (a b c : Q) : Vector3 := mkVector3 (Fin a) (Fin b) (Fin c).

(** A mesh filling the box [-2,0,-1] .. [2,4,1]. *)
Definition example_object : Object3D :=
  mkObject3D (v3 0 0 0) identity (v3 1 1 1)
    (Some (mkBox3 (v3 (-2) 0 (-1)) (v3 2 4 1))) [].

(** A scene without geometry, and a scene made of one point. *)
Definition empty_object : Object3D :=
  mkObject3D (v3 1 2 3) identity (v3 1 1 1) None [].
Definition point_object : Object3D :=
  mkObject3D (v3 0 0 0) identity (v3 1 1 1) (Some (computeBoundingBox [v3 0 1 2])) [].

End FramingExamples.

(** ** Scenes used as examples, in binary64 *)
Module Framing64Examples.
Import PrimFloat Three64.
Local Open Scope float_scope.

Definition v3 (a b c : B64.num) : Vector3 := mkVector3 a b c.

(** A mesh whose geometry has the bounding box [lo .. hi], and a group. *)
Definition mesh (position lo hi : Vector3) : Object3D :=
  mkObject3D position identity (v3 1 1 1) (Some (mkBox3 lo hi)) [].




(** A scene without geometry, and a scene made of one point. *)
Definition empty_scene : Object3D :=
  mkObject3D (v3 1 2 3) identity (v3 1 1 1) None [].
Definition point_scene : Object3D :=
  mesh (v3 0 0 0) (v3 0 1 2) (v3 0 1 2).

End Framing64Examples.

Module ThumbnailSpec.
Import Gfx Thumbnail.
Local Open Scope Q_scope.

(** A 600 x 600 canvas laid out at (20, 40) with a CSS size of 300 x 300. *)
Definition canvas600 : Canvas.t :=
  Canvas.mk (Fin 600) (Fin 600) (Rect.mk (Fin 20) (Fin 40) (Fin 300) (Fin 300)).

Definition scale_in_range (k : JS.num) : Prop :=
  exists q, k = Fin q /\ 0.3 <= q <= 3.0.

(** A run of wheel events, oldest first. *)
Definition wheels (g : JS.num) (events : list WheelEvent) (s : State) : State :=
  fold_left (fun s e => onThumbnailWheel g e s) events s.

Definition wheel_up : WheelEvent := mkWheelEvent (Fin (-100)).
Definition wheel_down : WheelEvent := mkWheelEvent (Fin 100).

(** A decoded 100 x 100 snapshot on the 600 x 600 canvas, moved by
    (10, -5) and scaled by 2. *)
Definition example_picture : Picture := mkPicture None false 0 (Fin 0) 0.
Definition example_state : State :=
  mk (Some canvas600) (Some (mkContext2D "#121212" (Fin 1.0))) []
     (Some (Image.mk (SrcPicture example_picture) true (Fin 100) (Fin 100)))
     (mkPoint (Fin 10) (Fin (-5))) false (mkPoint (Fin 0) (Fin 0)) (Fin 2.0)
     (Some (Image.mk (SrcFile "Guides.png") true (Fin 600) (Fin 600))) true
     (Some example_picture).

(** The layers of the composite, as [renderThumbnail] draws them: the
    background, the guides, and the snapshot at
    [(centerX + thumbnailOffset.x, centerY + thumbnailOffset.y)] with the
    size [scaledWidth] x [scaledHeight]. *)
Definition backgroundLayer (canvas : Canvas.t) (alpha : JS.num) : DrawOp :=
  FillRect "#121212" alpha (Fin 0) (Fin 0) (Canvas.width canvas) (Canvas.height canvas).

Definition guidesLayer (g : JS.num) (canvas : Canvas.t) (guides : Image.t) : DrawOp :=
  DrawImage (Image.src guides) g (Fin 0) (Fin 0) (Canvas.width canvas) (Canvas.height canvas).

Definition snapshotLayer (canvas : Canvas.t) (image : Image.t) (alpha scale : JS.num)
    (offset : Point) : DrawOp :=
  let width := Canvas.width canvas in
  let height := Canvas.height canvas in
  let baseScale :=
    JS.min (width / Image.width image)%js (height / Image.height image)%js in
  let scaledWidth := (Image.width image * baseScale * scale)%js in
  let scaledHeight := (Image.height image * baseScale * scale)%js in
  let centerX := ((width - scaledWidth) / Fin 2)%js in
  let centerY := ((height - scaledHeight) / Fin 2)%js in
  DrawImage (Image.src image) alpha (centerX + x offset)%js (centerY + y offset)%js
            scaledWidth scaledHeight.

(** The rectangle of a drawing call is made of finite numbers: the call
    draws. *)
Definition drawable (op : DrawOp) : bool :=
  match op with
  | FillRect _ _ x y w h | DrawImage _ _ x y w h => all_finite [x; y; w; h]
  end.

(** The guides are switched on and their picture is decoded. *)
Definition guidesShown (s : State) : option Image.t :=
  match guidesImage s with
  | Some guides =>
      if showThumbnailGuides s && Image.complete guides then Some guides else None
  | None => None
  end.

(** The pictures drawn on a surface, bottom layer first. *)
Definition pictures (sf : Surface) : list ImageSrc :=
  flat_map (fun op => match op with DrawImage src _ _ _ _ _ => [src] | _ => [] end) sf.

End ThumbnailSpec.

Module Thumbnail64Spec.
Import PrimFloat Gfx Gfx64 Thumbnail64.
Local Open Scope float_scope.

(** A 600 x 600 canvas laid out at (20, 40) with a CSS size of 300 x 300. *)
Definition canvas600 : Canvas.t :=
  Canvas.mk 600 600 (Rect.mk 20 40 300 300).

(** A run of pointer moves, oldest first. *)
Definition moves (g : B64.num) (events : list MouseEvent) (s : State) : State :=
  fold_left (fun s e => onThumbnailMouseMove g e s) events s.

(** A drag: the button goes down at [A], the pointer makes the moves
    [events], comes back to [A], and the button is released. *)
Definition drag (g : B64.num) (A : MouseEvent) (events : list MouseEvent) (s : State)
    : State :=
  onThumbnailMouseUp
    (onThumbnailMouseMove g A (moves g events (onThumbnailMouseDown A s))).

(** A decoded 100 x 100 snapshot on the 600 x 600 canvas, at the offset
    [offset] and the scale 1. *)
Definition example_picture : Picture := mkPicture None false 0 (Fin 0) 0.
Definition example_state (offset : Point) : State :=
  mk (Some canvas600) (Some (mkContext2D "#121212" 1.0)) []
     (Some (Image.mk (SrcPicture example_picture) true 100 100))
     offset false (mkPoint 0 0) 1.0
     (Some (Image.mk (SrcFile "Guides.png") true 600 600)) true
     (Some example_picture).

(** Pointer positions; on [canvas600] the first is at (160, 100) in canvas
    coordinates. *)
Definition pointerA : MouseEvent := mkMouseEvent 100 90.
Definition pointerB : MouseEvent := mkMouseEvent 260 33.25.
Definition pointerC : MouseEvent := mkMouseEvent 31.5 300.

End Thumbnail64Spec.

Module AppSpec.
Import Gfx App.
Local Open Scope Z_scope.

(** The first test of [updateThumbnailFromViewport] lets the call through. *)
Definition gate_open (s : State) : bool :=
  isLiveUpdating s
  && bool_decide (is_Some (Thumbnail.thumbnailCanvas (thumb s)))
  && bool_decide (is_Some (Thumbnail.thumbnailCtx (thumb s))).

(** A run of capture requests, given by the values of [Date.now()]. *)
Definition requests (times : list Z) (s : State) : State :=
  fold_left (fun s now => updateThumbnailFromViewport now s) times s.

(** The number of captures executed between two states. *)
Definition executed (s s' : State) : nat :=
  (length (captureLog s') - length (captureLog s))%nat.

(** Each request is more than one interval after the one before, the first
    one after the last executed capture. *)
Fixpoint spaced (last : Z) (times : list Z) : Prop :=
  match times with
  | [] => True
  | t :: rest => THUMBNAIL_UPDATE_INTERVAL < t - last /\ spaced t rest
  end.

Definition loaded : State :=
  onDOMContentLoaded (Some ThumbnailSpec.canvas600).

(** The page once the guide picture (600 x 600) is decoded and a first
    capture, taken at time 1000, is decoded (1200 x 1200) and drawn. *)
Definition shown : State :=
  onSnapshotLoad (Fin 1200) (Fin 1200)
    (updateThumbnailFromViewport 1000 (onGuidesLoad (Fin 600) (Fin 600) loaded)).

(** A second capture, taken at time 2000, whose picture is still being
    decoded. *)
Definition recaptured : State := updateThumbnailFromViewport 2000 shown.

(** The page [shown] with the guides switched off by the grid button. *)
Definition guides_off : State := toggleGrid true shown.

(** The picture of the first capture. *)
Definition first_capture : Picture := mkPicture None false 0 (Fin 0) 0.

End AppSpec.

Module MainSpec.
Import Gfx Main.
Local Open Scope Z_scope.

(** What [Viewer.updateDisplay] leaves behind: the grid helper, when there
    is one, is in the scene exactly when the grid is switched on. *)
Definition grid_consistent (v : Viewer.t) : Prop :=
  match Viewer.gridHelper v with
  | Some _ => Viewer.gridAttached v = Viewer.stateGrid v
  | None => Viewer.gridAttached v = false
  end.

(** The page of main.js once loaded, before the first animation frame. *)
Definition loaded : State :=
  onDOMContentLoaded true (Some ThumbnailSpec.canvas600).

(** The same page with a model shown and the grid on, and with the grid
    switched off again. *)
Definition grid_on : State :=
  with_viewer loaded (Viewer.setContent Viewer.new FramingExamples.example_object).
Definition grid_off : State :=
  with_viewer loaded
    (Viewer.updateGrid
       (Viewer.with_stateGrid
          (Viewer.setContent Viewer.new FramingExamples.example_object) false)).

End MainSpec.

Module LoadingSpec.
Import Loading.
Local Open Scope string_scope.

(** The pattern occurs in [s]: [s] is [before ++ pattern ++ after]. *)
Definition occurs (pattern s : string) : Prop :=
  exists before after, s = before ++ pattern ++ after.

(** *** An instance of [decodeURI] for the examples: the escapes of ASCII
    characters.  As [decodeURI] does, it leaves the escapes of the reserved
    characters in place and fails on a malformed escape; an escape above
    [%7F], which starts a multi-byte sequence, is not handled and counts as
    malformed here. *)
Definition hex_digit (c : ascii) : option N :=
  let n := N_of_ascii c in
  if (48 <=? n)%N && (n <=? 57)%N then Some (n - 48)%N
  else if (65 <=? n)%N && (n <=? 70)%N then Some (n - 55)%N
  else if (97 <=? n)%N && (n <=? 102)%N then Some (n - 87)%N
  else None.

Definition reserved (c : ascii) : bool :=
  existsb (Ascii.eqb c)
    [";"; "/"; "?"; ":"; "@"; "&"; "="; "+"; "$"; ","; "#"]%char.

Fixpoint decodeURI_ascii (s : string) : option string :=
  match s with
  | EmptyString => Some EmptyString
  | String "%"%char (String h (String l rest)) =>
      match hex_digit h, hex_digit l with
      | Some a, Some b =>
          let n := (16 * a + b)%N in
          if (n <? 128)%N then
            if reserved (ascii_of_N n)
            then option_map (fun r => String "%"%char (String h (String l r)))
                            (decodeURI_ascii rest)
            else option_map (String (ascii_of_N n)) (decodeURI_ascii rest)
          else None
      | _, _ => None
      end
  | String "%"%char _ => None
  | String c rest => option_map (String c) (decodeURI_ascii rest)
  end.

Definition texture : Blob := mkBlob "PNG".
Definition uploaded : gmap string Blob := <["wood grain.png" := texture]> ∅.
Definition no_urls : BlobStore := mkBlobStore 0 ∅.

End LoadingSpec.

Module MainLoadingSpec.
Import Loading Main.
Local Open Scope string_scope.

Definition hidden (u : UI) : Prop := loadingIndicator u <> Some "block".

(** A file that parses but holds no scene, asked for from the model list. *)
Definition no_scene_run : LoaderRun := mkLoaderRun [] (OnLoad (mkGLTF None [])).

End MainLoadingSpec.

(** ** app.js: the handlers as events *)
Module AppTrace.
Import Gfx App.

(** The 2D context as [initThumbnailCanvas] leaves it. *)
Definition fresh_ctx : Thumbnail.Context2D :=
  Thumbnail.mkContext2D "#121212" (Fin 1.0).

(** What can happen to the page once it is loaded: an animation frame, a
    timer set by a load, the camera moved by the orbit controls or a
    button, the start of an interaction with the controls, a click on the
    grid button, the gestures on the composite canvas, a reset (the buttons
    "reset view" and "cancel", and the start of a load), the bake, and the
    [onload] of the guide picture and of a snapshot.  A snapshot replaced
    by a later capture before it was decoded still runs its [onload], which
    renders. *)
Inductive Event : Type :=
| Frame (now : Z)
| ForcedUpdate (now : Z)
| CameraMoved (pose : nat)
| ControlsStart
| ToggleGrid (active : bool)
| MouseDown (e : Thumbnail.MouseEvent)
| MouseMove (e : Thumbnail.MouseEvent)
| MouseUp
| Wheel (e : Thumbnail.WheelEvent)
| ClearPreview
| UseSnapshot
| GuidesLoaded (w h : JS.num)
| SnapshotLoaded (w h : JS.num)
| StaleSnapshotLoaded.

Definition with_cameraPose (s : State) (pose : nat) : State :=
  mk (sceneBackground s) (clearColor s) (clearAlpha s) (gridHelper s) pose
     (thumb s) (isLiveUpdating s) (lastThumbnailUpdate s) (hasUserInteracted s)
     (captureLog s).

Definition step (e : Event) (s : State) : State :=
  match e with
  | Frame now => updateThumbnailFromViewport now s
  | ForcedUpdate now => forceThumbnailUpdate now s
  | CameraMoved pose => with_cameraPose s pose
  | ControlsStart => enableLiveUpdating s
  | ToggleGrid active => toggleGrid active s
  | MouseDown e => onThumbnailMouseDown e s
  | MouseMove e => onThumbnailMouseMove e s
  | MouseUp => onThumbnailMouseUp s
  | Wheel e => onThumbnailWheel e s
  | ClearPreview => clearThumbnailPreview s
  | UseSnapshot => fst (useSnapshot s)
  | GuidesLoaded w h => onGuidesLoad w h s
  | SnapshotLoaded w h => onSnapshotLoad w h s
  | StaleSnapshotLoaded =>
      with_thumb s (Thumbnail.renderThumbnail guideAlpha None true (thumb s))
  end.

Definition run (events : list Event) (s : State) : State :=
  fold_left (fun s e => step e s) events s.

(** A picture taken for the thumbnail: no background, no grid, cleared to
    transparent black. *)
Definition transparent (f : Picture) : Prop :=
  picture_background f = None /\ picture_grid f = false
  /\ picture_clearColor f = 0x000000%Z /\ picture_clearAlpha f = Fin 0.

(** What holds of the composite canvas, given the captures made so far and
    the visibility of the grid. *)
Definition thumb_inv (log : list Picture) (vis : bool) (t : Thumbnail.State) : Prop :=
  Thumbnail.showThumbnailGuides t = vis
  /\ ThumbnailSpec.scale_in_range (Thumbnail.thumbnailScale t)
  /\ (Thumbnail.thumbnailCtx t = None
      \/ Thumbnail.thumbnailCtx t = Some fresh_ctx)
  /\ Thumbnail.newSnapshotData t = head log
  /\ option_map Image.src (Thumbnail.thumbnailImage t) = option_map SrcPicture (head log).

(** What holds of the page from [DOMContentLoaded] on. *)
Record Inv (s : State) : Prop := mkInv {
  inv_grid : exists g, gridHelper s = Some g
                /\ thumb_inv (captureLog s) (visible g) (thumb s);
  inv_background : sceneBackground s = Some ColorObject;
  inv_clear : clearColor s = 0x121212%Z /\ clearAlpha s = Fin 1;
  inv_captures : Forall transparent (captureLog s);
  inv_live : isLiveUpdating s = true
}.

(** The events that may move the snapshot, and those that may rescale it. *)
Definition moves_snapshot (e : Event) : bool :=
  match e with MouseMove _ | ClearPreview => true | _ => false end.
Definition rescales_snapshot (e : Event) : bool :=
  match e with Wheel _ | ClearPreview => true | _ => false end.

End AppTrace.

(** ** main.js: [handleFileUpload] *)
Module Upload.
Import Loading Main.
Local Open Scope string_scope.

(** A [File] of the input element: its name and, as a [Blob], its
    content. *)
Record File : Type := mkFile { name : string; content : Blob }.

(** [String.prototype.toLowerCase] on the letters A to Z; other characters
    are left as they are. *)
Definition lower (c : ascii) : ascii :=
  let n := N_of_ascii c in
  if (65 <=? n)%N && (n <=? 90)%N then ascii_of_N (n + 32) else c.

Fixpoint toLowerCase (s : string) : string :=
  match s with
  | EmptyString => EmptyString
  | String c s' => String (lower c) (toLowerCase s')
  end.

(** [s.endsWith(suffix)]. *)
Definition endsWith (s suffix : string) : bool :=
  let n := String.length s in
  let m := String.length suffix in
  (m <=? n)%nat && String.eqb (substring (n - m) m s) suffix.

(** The test of the loop on one file, before [&& !mainFile]. *)
Definition isModelFile (file : File) : bool :=
  let fileName := toLowerCase (name file) in
  endsWith fileName ".gltf" || endsWith fileName ".glb".

(** One turn of the loop [for (const file of files)]. *)
Definition classifyStep (acc : option File * gmap string Blob) (file : File)
  : option File * gmap string Blob :=
  let '(mainFile, assetMap) := acc in
  if isModelFile file && negb (bool_decide (is_Some mainFile))
  then (Some file, assetMap)
  else (mainFile, <[name file := content file]> assetMap).

Definition classify (files : list File) : option File * gmap string Blob :=
  fold_left classifyStep files (None, ∅).

Definition noModelMessage : string :=
  "Please upload at least one GLTF (.gltf) or GLB (.glb) file".

Section WithBuiltins.

Variable decodeURI : string -> option string.

(** The text of the object URL with a given serial number
    ("blob:<origin>/<uuid>"), chosen by the browser. *)
Variable objectURL : nat -> string.

(** [handleFileUpload(event)] with the promise of [viewer.load] followed
    to its handlers.  The reset of the model selector and of the lighting
    slider, which touch neither the viewer's content nor the registry, are
    left out. *)
Definition handleFileUpload (files : list File) (run : LoaderRun) (s : State) : State :=
  match files with
  | [] => s
  | _ :: _ =>
      match classify files with
      | (None, _) => with_ui s (alert noModelMessage (ui s))
      | (Some mainFile, assetMap) =>
          (* Create object URL for the main file *)
          let '(id, st) := createObjectURL (content mainFile) (store s) in
          uploadModel decodeURI (objectURL id) assetMap run (with_store s st)
      end
  end.

End WithBuiltins.

(** The asset map made of a list of files, a later file replacing an
    earlier one of the same name. *)
Definition assetsOf (files : list File) : gmap string Blob :=
  fold_left (fun m f => <[name f := content f]> m) files ∅.

End Upload.

(** ** main.js: the handlers as events *)
Module MainPage.
Import Gfx Main.

(** [enableLiveUpdating()] of main.js tests [hasUserInteracted]. *)
Definition enableLiveUpdating (s : State) : State :=
  if negb (hasUserInteracted s) then with_live s true true else s.

(** The timer set after a load: [lastThumbnailUpdate = 0;
    updateThumbnailFromViewport();]. *)
Definition forceThumbnailUpdate (now : Z) (s : State) : State :=
  updateThumbnailFromViewport now (with_lastThumbnailUpdate s 0).

(** The click handler of [#toggle-grid].  [viewer.updateDisplay()] throws
    while the viewer has no content; the handler then stops after the
    assignment to [viewer.state.grid]. *)
Definition toggleGrid (active : bool) (s : State) : State :=
  match viewer s with
  | None => s
  | Some v =>
      let v := Viewer.with_stateGrid v (negb (Viewer.stateGrid v)) in
      match Viewer.updateDisplay v with
      | None => with_viewer s v
      | Some v =>
          let s := with_viewer s v in
          let t := Thumbnail.with_guides (thumb s) (Thumbnail.guidesImage (thumb s))
                     (Viewer.stateGrid v) in
          let t :=
            if active && bool_decide (is_Some (Thumbnail.thumbnailCanvas t))
               && bool_decide (is_Some (Thumbnail.thumbnailImage t))
            then Thumbnail.renderThumbnail guideAlpha None true t else t in
          with_thumb s t
      end
  end.

(** The checkbox "grid" of the viewer's own panel:
    [state.grid = on; updateDisplay()]. *)
Definition guiGrid (on : bool) (s : State) : State :=
  match viewer s with
  | None => s
  | Some v =>
      let v := Viewer.with_stateGrid v on in
      match Viewer.updateDisplay v with
      | None => with_viewer s v
      | Some v => with_viewer s v
      end
  end.

Definition with_cameraPose (v : Viewer.t) (pose : nat) : Viewer.t :=
  Viewer.mk (Viewer.content v) (Viewer.contentAttached v) (Viewer.sceneBackground v)
    (Viewer.backgroundColor v) (Viewer.clearColor v) (Viewer.clearAlpha v)
    (Viewer.stateGrid v) (Viewer.gridHelper v) (Viewer.gridAttached v) pose.

(** The orbit controls, or [controls.reset()], move the camera. *)
Definition cameraMoved (pose : nat) (s : State) : State :=
  match viewer s with
  | None => s
  | Some v => with_viewer s (with_cameraPose v pose)
  end.

(** The handlers of the composite canvas, on the application state. *)
Definition onThumbnailMouseDown e s := with_thumb s (Thumbnail.onThumbnailMouseDown e (thumb s)).
Definition onThumbnailMouseMove e s :=
  with_thumb s (Thumbnail.onThumbnailMouseMove guideAlpha e (thumb s)).
Definition onThumbnailMouseUp s := with_thumb s (Thumbnail.onThumbnailMouseUp (thumb s)).
Definition onThumbnailWheel e s :=
  with_thumb s (Thumbnail.onThumbnailWheel guideAlpha e (thumb s)).
Definition clearThumbnailPreview s := with_thumb s (Thumbnail.clearThumbnailPreview (thumb s)).
Definition useSnapshot (s : State) : State * option Surface :=
  let '(t, out) := Thumbnail.useSnapshot guideAlpha (thumb s) in (with_thumb s t, out).

Section WithBuiltins.

Variable decodeURI : string -> option string.
Variable objectURL : nat -> string.

(** [loadModel(modelUrl)] from the moment the promise of [viewer.load]
    settles: the callback of the loader, then the [then] or the [catch]
    handler. *)
Definition loadModel_settle (modelUrl : string) (run : Loading.LoaderRun) (s : State)
  : State :=
  match viewer s with
  | None => s
  | Some v =>
      let '(v, st, settled) :=
        Loading.load decodeURI v modelUrl EmptyString ∅ run (store s) in
      let s := with_store (with_viewer s v) st in
      match settled with
      | Loading.Resolved gltf => loadModel_then s
      | Loading.Rejected error => loadModel_catch error s
      end
  end.

(** What can happen to the page of main.js once it is loaded.  A load is
    two events, its start and the settling of its promise, between which
    anything else may happen. *)
Inductive Event : Type :=
| Frame (now : Z)
| ForcedUpdate (now : Z)
| CameraMoved (pose : nat)
| ControlsStart
| ToggleGrid (active : bool)
| GuiGrid (on : bool)
| MouseDown (e : Thumbnail.MouseEvent)
| MouseMove (e : Thumbnail.MouseEvent)
| MouseUp
| Wheel (e : Thumbnail.WheelEvent)
| ClearPreview
| UseSnapshot
| GuidesLoaded (w h : JS.num)
| SnapshotLoaded (w h : JS.num)
| StaleSnapshotLoaded
| LoadStarted
| LoadSettled (modelUrl : string) (run : Loading.LoaderRun)
| UploadSettled (fileURL : string) (assetMap : gmap string Loading.Blob)
    (run : Loading.LoaderRun)
| Uploaded (files : list Upload.File) (run : Loading.LoaderRun).

Definition step (e : Event) (s : State) : State :=
  match e with
  | Frame now => updateThumbnailFromViewport now s
  | ForcedUpdate now => forceThumbnailUpdate now s
  | CameraMoved pose => cameraMoved pose s
  | ControlsStart => enableLiveUpdating s
  | ToggleGrid active => toggleGrid active s
  | GuiGrid on => guiGrid on s
  | MouseDown e => onThumbnailMouseDown e s
  | MouseMove e => onThumbnailMouseMove e s
  | MouseUp => onThumbnailMouseUp s
  | Wheel e => onThumbnailWheel e s
  | ClearPreview => clearThumbnailPreview s
  | UseSnapshot => fst (useSnapshot s)
  | GuidesLoaded w h => with_thumb s (Thumbnail.onGuidesLoad guideAlpha w h (thumb s))
  | SnapshotLoaded w h => with_thumb s (Thumbnail.onSnapshotLoad guideAlpha w h (thumb s))
  | StaleSnapshotLoaded =>
      with_thumb s (Thumbnail.renderThumbnail guideAlpha None true (thumb s))
  | LoadStarted => loadModel_start s
  | LoadSettled modelUrl run => loadModel_settle modelUrl run s
  | UploadSettled fileURL assetMap run => uploadModel decodeURI fileURL assetMap run s
  | Uploaded files run => Upload.handleFileUpload decodeURI objectURL files run s
  end.

Definition run (events : list Event) (s : State) : State :=
  fold_left (fun s e => step e s) events s.

End WithBuiltins.

(** What [Viewer] keeps true of its grid: the helper exists only while the
    grid is switched on and a model is shown, and is then in the scene. *)
Definition grid_inv (v : Viewer.t) : Prop :=
  match Viewer.gridHelper v with
  | Some _ =>
      Viewer.stateGrid v = true /\ Viewer.gridAttached v = true
      /\ is_Some (Viewer.content v)
  | None => Viewer.gridAttached v = false
  end.

(** The renderer clears to an opaque colour: the one of the constructor
    until the first capture, the background colour afterwards. *)
Definition paint_inv (v : Viewer.t) : Prop :=
  Viewer.clearAlpha v = Fin 1
  /\ Viewer.backgroundColor v = 0x121212%Z
  /\ (Viewer.clearColor v = 0xcccccc%Z \/ Viewer.clearColor v = 0x121212%Z).

(** What holds of the page from [DOMContentLoaded] on. *)
Record Inv (s : State) : Prop := mkInv {
  inv_viewer : exists v, viewer s = Some v /\ grid_inv v /\ paint_inv v;
  inv_thumb : exists vis, AppTrace.thumb_inv (captureLog s) vis (thumb s);
  inv_captures : Forall AppTrace.transparent (captureLog s);
  inv_live : isLiveUpdating s = true
}.

End MainPage.

(* ===================================================================== *)
(** * Part II: lemmas and theorems                                        *)
(* ===================================================================== *)

(** ** Facts about JavaScript numbers *)
Module JSFacts.
Local Open Scope Q_scope.

Lemma Qlt_bool_iff (a b : Q) : JS.Qlt_bool a b = true <-> a < b.
Proof.
  unfold JS.Qlt_bool. rewrite negb_true_iff, <- not_true_iff_false, Qle_bool_iff.
  split; [apply Qnot_le_lt | apply Qlt_not_le].
Qed.

Lemma Qlt_bool_false (a b : Q) : JS.Qlt_bool a b = false <-> b <= a.
Proof.
  unfold JS.Qlt_bool. rewrite negb_false_iff. apply Qle_bool_iff.
Qed.

Lemma Qle_bool_false (a b : Q) : Qle_bool a b = false <-> b < a.
Proof.
  rewrite <- not_true_iff_false, Qle_bool_iff.
  split; [apply Qnot_le_lt | apply Qlt_not_le].
Qed.

Lemma Qeq_bool_false (a b : Q) : Qeq_bool a b = false <-> ~ a == b.
Proof. rewrite <- not_true_iff_false, Qeq_bool_iff. tauto. Qed.

Lemma same_refl (a : JS.num) : a =j= a.
Proof. destruct a; simpl; auto. reflexivity. Qed.

Lemma same_sym (a b : JS.num) : a =j= b -> b =j= a.
Proof. destruct a, b; simpl; auto. intros H; symmetry; exact H. Qed.

Lemma same_trans (a b c : JS.num) : a =j= b -> b =j= c -> a =j= c.
Proof.
  destruct a, b, c; simpl; auto; try tauto.
  intros H1 H2. rewrite H1. exact H2.
Qed.

Lemma is_finite_Fin (a : JS.num) : JS.is_finite a = true -> exists q, a = Fin q.
Proof. destruct a; simpl; try discriminate. eauto. Qed.

End JSFacts.

Example div_by_zero_is_infinite : (Fin 5 / Fin 0)%js = PInf.
Proof. reflexivity. Qed.

Example five_quarters : (Fin 5 / Fin 4)%js =j= Fin 1.25.
Proof. reflexivity. Qed.

(** ** The composite canvas *)
Module ThumbnailFacts.
Import ThumbnailSpec.
Import Gfx Thumbnail JSFacts.

(** [renderThumbnail] writes the context and the surface, nothing else. *)
Lemma renderThumbnail_writes (g : JS.num) (ig : option bool) (ib : bool) (s : State) :
  exists ctx sf,
    renderThumbnail g ig ib s =
    mk (thumbnailCanvas s) ctx sf (thumbnailImage s) (thumbnailOffset s)
       (thumbnailDragging s) (thumbnailDragStart s) (thumbnailScale s)
       (guidesImage s) (showThumbnailGuides s) (newSnapshotData s).
Proof.
  unfold renderThumbnail.
  destruct (thumbnailCanvas s) as [canvas|] eqn:Ec;
    [destruct (thumbnailCtx s) as [ctx|] eqn:Ex;
     [destruct (thumbnailImage s) as [img|] eqn:Ei|]|].
  - destruct ib; destruct (guidesImage s) as [gi|] eqn:Eg;
      try destruct (_ && _); unfold with_drawing;
      rewrite ?Ec, ?Ei, ?Eg; eexists _, _; reflexivity.
  - exists (thumbnailCtx s), (surface s). destruct s; simpl in *; subst; reflexivity.
  - exists (thumbnailCtx s), (surface s). destruct s; simpl in *; subst; reflexivity.
  - exists (thumbnailCtx s), (surface s). destruct s; simpl in *; subst; reflexivity.
Qed.

Ltac render_fields g ig ib s :=
  let ctx := fresh "ctx" in
  let sf := fresh "sf" in
  let E := fresh "E" in
  destruct (renderThumbnail_writes g ig ib s) as (ctx & sf & E); rewrite E; clear E.

Lemma renderThumbnail_scale g ig ib s :
  thumbnailScale (renderThumbnail g ig ib s) = thumbnailScale s.
Proof. render_fields g ig ib s. reflexivity. Qed.

Lemma renderThumbnail_offset g ig ib s :
  thumbnailOffset (renderThumbnail g ig ib s) = thumbnailOffset s.
Proof. render_fields g ig ib s. reflexivity. Qed.

Lemma renderThumbnail_image g ig ib s :
  thumbnailImage (renderThumbnail g ig ib s) = thumbnailImage s.
Proof. render_fields g ig ib s. reflexivity. Qed.

Lemma renderThumbnail_canvas g ig ib s :
  thumbnailCanvas (renderThumbnail g ig ib s) = thumbnailCanvas s.
Proof. render_fields g ig ib s. reflexivity. Qed.

Lemma renderThumbnail_drag g ig ib s :
  thumbnailDragging (renderThumbnail g ig ib s) = thumbnailDragging s
  /\ thumbnailDragStart (renderThumbnail g ig ib s) = thumbnailDragStart s.
Proof. render_fields g ig ib s. split; reflexivity. Qed.

(** *** The guard of [renderThumbnail] *)

(** C10. Called while no snapshot image is set, or while the canvas or its
    context is missing, [renderThumbnail] returns at once, whatever its
    arguments: the state is the one it was given, so the surface is neither
    cleared nor drawn on. *)
Theorem renderThumbnail_guard (g : JS.num) (includeGrid : option bool)
    (includeBackground : bool) (s : State) :
  thumbnailImage s = None \/ thumbnailCanvas s = None \/ thumbnailCtx s = None ->
  renderThumbnail g includeGrid includeBackground s = s
  /\ surface (renderThumbnail g includeGrid includeBackground s) = surface s.
Proof.
  intros H.
  assert (E : renderThumbnail g includeGrid includeBackground s = s).
  { unfold renderThumbnail.
    destruct (thumbnailCanvas s) as [c|]; [|reflexivity].
    destruct (thumbnailCtx s) as [ctx|]; [|reflexivity].
    destruct (thumbnailImage s) as [img|]; [|reflexivity].
    destruct H as [H|[H|H]]; discriminate H. }
  split; [exact E | rewrite E; reflexivity].
Qed.

Lemma renderThumbnail_guard_witness :
  let s := initThumbnailCanvas (Some canvas600) initial in
  thumbnailImage s = None
  /\ surface s <> []
  /\ surface (renderThumbnail (Fin 0.3) (Some false) false s) = surface s.
Proof.
  split; [reflexivity|]. split; [discriminate|].
  apply (renderThumbnail_guard (Fin 0.3) (Some false) false).
  left. reflexivity.
Defined.

(** *** The wheel *)

Local Open Scope Q_scope.

Lemma onThumbnailWheel_scale g e s :
  thumbnailScale (onThumbnailWheel g e s) =
  if JS.ltb (deltaY e) (Fin 0)
  then JS.min (Fin 3.0) (thumbnailScale s + scaleSpeed)%js
  else JS.max (Fin 0.3) (thumbnailScale s - scaleSpeed)%js.
Proof.
  unfold onThumbnailWheel. rewrite renderThumbnail_scale.
  destruct (JS.ltb (deltaY e) (Fin 0)); reflexivity.
Qed.

Lemma onThumbnailWheel_in_range g e s :
  scale_in_range (thumbnailScale s) ->
  scale_in_range (thumbnailScale (onThumbnailWheel g e s)).
Proof.
  intros (q & Eq & Hq). rewrite onThumbnailWheel_scale, Eq.
  destruct (JS.ltb (deltaY e) (Fin 0)); simpl; eexists; (split; [reflexivity|]).
  - destruct (Qle_bool 3.0 (q + 0.025)) eqn:E.
    + lra.
    + apply Qle_bool_false in E. lra.
  - destruct (Qle_bool 0.3 (q - 0.025)) eqn:E.
    + apply Qle_bool_iff in E. lra.
    + lra.
Qed.

(** C6. The scale starts at 1.0, inside [0.3, 3.0], and no run of wheel
    events, whatever their directions and number, takes it out of that
    interval.  A step whose result would leave the interval is not
    rejected: the scale becomes the bound it crossed, and a step that stays
    inside is taken as it is. *)
Theorem wheel_scale_clamped (g : JS.num) :
  thumbnailScale initial = Fin 1.0
  /\ (forall events s,
        scale_in_range (thumbnailScale s) ->
        scale_in_range (thumbnailScale (wheels g events s)))
  /\ (forall e s q,
        thumbnailScale s = Fin q -> 0.3 <= q <= 3.0 ->
        let k := thumbnailScale (onThumbnailWheel g e s) in
        (JS.ltb (deltaY e) (Fin 0) = true ->
           (q + 0.025 <= 3.0 -> k =j= Fin (q + 0.025))
           /\ (3.0 < q + 0.025 -> k =j= Fin 3.0))
        /\ (JS.ltb (deltaY e) (Fin 0) = false ->
           (0.3 <= q - 0.025 -> k =j= Fin (q - 0.025))
           /\ (q - 0.025 < 0.3 -> k =j= Fin 0.3))).
Proof.
  split; [reflexivity|]. split.
  - intros events. induction events as [|e events IH]; intros s Hs; simpl.
    + exact Hs.
    + apply IH. apply onThumbnailWheel_in_range. exact Hs.
  - intros e s q Eq Hq k. subst k. rewrite onThumbnailWheel_scale, Eq.
    split; intros Hd; rewrite Hd; simpl; split; intros Hc.
    + destruct (Qle_bool 3.0 (q + 0.025)) eqn:E; simpl.
      * apply Qle_bool_iff in E. lra.
      * reflexivity.
    + destruct (Qle_bool 3.0 (q + 0.025)) eqn:E; simpl.
      * reflexivity.
      * apply Qle_bool_false in E. lra.
    + destruct (Qle_bool 0.3 (q - 0.025)) eqn:E; simpl.
      * reflexivity.
      * apply Qle_bool_false in E. lra.
    + destruct (Qle_bool 0.3 (q - 0.025)) eqn:E; simpl.
      * apply Qle_bool_iff in E. lra.
      * reflexivity.
Qed.

Lemma wheel_scale_clamped_witness :
  scale_in_range (thumbnailScale initial)
  /\ scale_in_range
       (thumbnailScale (wheels (Fin 0.3) (repeat wheel_up 90 ++ [wheel_down]) initial)).
Proof.
  assert (H : scale_in_range (thumbnailScale initial)).
  { exists 1.0. split; [reflexivity | lra]. }
  split; [exact H|].
  apply (proj1 (proj2 (wheel_scale_clamped (Fin 0.3)))). exact H.
Defined.

(** *** The bake *)

(** A render starts by clearing the surface, so what was drawn before does
    not matter; a render without background and guides leaves the context
    as it was. *)
Lemma renderThumbnail_after_export g ig ib s :
  renderThumbnail g ig ib (renderThumbnail g (Some false) false s)
  = renderThumbnail g ig ib s.
Proof.
  unfold renderThumbnail at 2.
  destruct (thumbnailCanvas s) as [canvas|] eqn:Ec; [|reflexivity].
  destruct (thumbnailCtx s) as [ctx|] eqn:Ex; [|reflexivity].
  destruct (thumbnailImage s) as [img|] eqn:Ei; [|reflexivity].
  destruct (guidesImage s) as [gi|] eqn:Eg; simpl;
    unfold renderThumbnail, with_drawing; simpl; rewrite Ec, Ex, Ei, ?Eg; reflexivity.
Qed.

(** The handler renders twice; the second render is the interactive render
    of the state the handler found. *)
Lemma useSnapshot_unfold g s data canvas ctx :
  newSnapshotData s = Some data -> thumbnailCanvas s = Some canvas ->
  thumbnailCtx s = Some ctx ->
  useSnapshot g s =
  (renderThumbnail g None true s, Some (surface (renderThumbnail g (Some false) false s))).
Proof.
  intros Ed Ec Ex. unfold useSnapshot. rewrite Ed, Ec, Ex.
  rewrite renderThumbnail_after_export. reflexivity.
Qed.

(** What a render draws when the snapshot is decoded and the rectangles
    are finite: the layers asked for, bottom first. *)
Lemma renderThumbnail_export g s canvas ctx img :
  thumbnailCanvas s = Some canvas -> thumbnailCtx s = Some ctx ->
  thumbnailImage s = Some img -> Image.complete img = true ->
  drawable (snapshotLayer canvas img (Fin 0) (thumbnailScale s) (thumbnailOffset s)) = true ->
  renderThumbnail g (Some false) false s =
  with_drawing s ctx
    [snapshotLayer canvas img (globalAlpha ctx) (thumbnailScale s) (thumbnailOffset s)].
Proof.
  intros Ec Ex Ei Hi Hd. unfold renderThumbnail. rewrite Ec, Ex, Ei.
  assert (G : (let '(ctx0, sf) :=
                 match guidesImage s with
                 | Some g0 =>
                     if false && Image.complete g0
                     then (mkContext2D (fillStyle ctx) (Fin 1.0),
                           drawImage (mkContext2D (fillStyle ctx) g) g0 (Fin 0) (Fin 0)
                             (Canvas.width canvas) (Canvas.height canvas) (clearAll (surface s)))
                     else (ctx, clearAll (surface s))
                 | None => (ctx, clearAll (surface s))
                 end in (ctx0, sf)) = (ctx, [])).
  { destruct (guidesImage s); reflexivity. }
  cbv zeta. cbn [negb]. destruct (guidesImage s) as [gi|]; cbn [andb];
    unfold drawImage, clearAll; unfold drawable, snapshotLayer in Hd;
    rewrite Hi, Hd; reflexivity.
Qed.

Lemma renderThumbnail_interactive g s canvas ctx img :
  thumbnailCanvas s = Some canvas -> thumbnailCtx s = Some ctx ->
  thumbnailImage s = Some img -> Image.complete img = true ->
  drawable (backgroundLayer canvas (Fin 0)) = true ->
  drawable (snapshotLayer canvas img (Fin 0) (thumbnailScale s) (thumbnailOffset s)) = true ->
  renderThumbnail g None true s =
  match guidesShown s with
  | Some guides =>
      with_drawing s (mkContext2D "#121212" (Fin 1.0))
        [ backgroundLayer canvas (globalAlpha ctx);
          guidesLayer g canvas guides;
          snapshotLayer canvas img (Fin 1.0) (thumbnailScale s) (thumbnailOffset s) ]
  | None =>
      with_drawing s (mkContext2D "#121212" (globalAlpha ctx))
        [ backgroundLayer canvas (globalAlpha ctx);
          snapshotLayer canvas img (globalAlpha ctx) (thumbnailScale s) (thumbnailOffset s) ]
  end.
Proof.
  intros Ec Ex Ei Hi Hb Hd. unfold renderThumbnail, guidesShown. rewrite Ec, Ex, Ei.
  unfold drawable, backgroundLayer in Hb. unfold drawable, snapshotLayer in Hd.
  cbv zeta. unfold fillRect, clearAll. rewrite Hb.
  destruct (guidesImage s) as [gi|].
  - destruct (showThumbnailGuides s && Image.complete gi) eqn:Eg.
    + apply andb_prop in Eg as [_ Eg]. unfold drawImage. cbn [fillStyle globalAlpha].
      rewrite Eg, Hi, Hb, Hd. reflexivity.
    + unfold drawImage. rewrite Hi, Hd. reflexivity.
  - unfold drawImage. rewrite Hi, Hd. reflexivity.
Qed.

(** An interactive render drawn from a context at full opacity, where
    every handler leaves it, is a fixed point of the interactive render. *)
Lemma renderThumbnail_fixed g s0 fs :
  thumbnailCtx s0 = Some (mkContext2D fs (Fin 1.0)) ->
  let s := renderThumbnail g None true s0 in
  renderThumbnail g None true s = s.
Proof.
  intros Ex s. subst s.
  destruct (thumbnailCanvas s0) as [canvas|] eqn:Ec;
    [|unfold renderThumbnail; rewrite Ec; cbn; rewrite Ec; reflexivity].
  destruct (thumbnailImage s0) as [img|] eqn:Ei;
    [|unfold renderThumbnail; rewrite Ec, Ex, Ei; cbn; rewrite Ec, Ex, Ei; reflexivity].
  destruct (guidesImage s0) as [gi|] eqn:Eg;
    [destruct (showThumbnailGuides s0 && Image.complete gi) eqn:Es|];
    unfold renderThumbnail, with_drawing; rewrite Ec, Ex, Ei, Eg, ?Es;
    cbn; rewrite ?Es; reflexivity.
Qed.

(** C4, as the code has it.  When the snapshot is decoded (and the
    rectangles drawn are made of finite numbers), the click handler of
    "use snapshot" renders the composite without guides and background and
    reads the surface back: the export holds the snapshot alone, at the
    current offset and scale.  It then renders the interactive composite:
    the background, the guides when they are switched on and loaded, and
    the snapshot in the same rectangle.  Nothing but the context and the
    surface is written, so the offset, the scale and the snapshot are those
    before the click.  The state after the click is the interactive render
    of the state before it: it is that very state, surface included,
    whenever the canvas was showing the interactive render, as it does
    after any interactive render from a context at full opacity. *)
Theorem bake_restores_view (g : JS.num) (s : State) (canvas : Canvas.t)
    (ctx : Context2D) (img : Image.t) (data : Picture) :
  newSnapshotData s = Some data ->
  thumbnailCanvas s = Some canvas -> thumbnailCtx s = Some ctx ->
  thumbnailImage s = Some img -> Image.complete img = true ->
  drawable (backgroundLayer canvas (Fin 0)) = true ->
  drawable (snapshotLayer canvas img (Fin 0) (thumbnailScale s) (thumbnailOffset s)) = true ->
  let s' := fst (useSnapshot g s) in
  let snapshot alpha :=
    snapshotLayer canvas img alpha (thumbnailScale s) (thumbnailOffset s) in
  snd (useSnapshot g s) = Some [snapshot (globalAlpha ctx)]
  /\ surface s' =
     match guidesShown s with
     | Some guides =>
         [ backgroundLayer canvas (globalAlpha ctx); guidesLayer g canvas guides;
           snapshot (Fin 1.0) ]
     | None => [ backgroundLayer canvas (globalAlpha ctx); snapshot (globalAlpha ctx) ]
     end
  /\ (exists ctx', s' = with_drawing s ctx' (surface s'))
  /\ thumbnailOffset s' = thumbnailOffset s
  /\ thumbnailScale s' = thumbnailScale s
  /\ thumbnailImage s' = thumbnailImage s
  /\ newSnapshotData s' = newSnapshotData s
  /\ s' = renderThumbnail g None true s
  /\ (renderThumbnail g None true s = s -> s' = s)
  /\ (forall s0 fs,
        thumbnailCtx s0 = Some (mkContext2D fs (Fin 1.0)) ->
        s = renderThumbnail g None true s0 -> s' = s).
Proof.
  intros Ed Ec Ex Ei Hi Hb Hd s' snapshot.
  assert (E : useSnapshot g s =
              (renderThumbnail g None true s,
               Some (surface (renderThumbnail g (Some false) false s))))
    by (apply (useSnapshot_unfold g s data canvas ctx); assumption).
  assert (Es' : s' = renderThumbnail g None true s) by (subst s'; rewrite E; reflexivity).
  pose proof (renderThumbnail_interactive g s canvas ctx img Ec Ex Ei Hi Hb Hd) as R.
  split.
  { rewrite E. cbn [snd].
    rewrite (renderThumbnail_export g s canvas ctx img Ec Ex Ei Hi Hd). reflexivity. }
  split.
  { rewrite Es', R. destruct (guidesShown s); reflexivity. }
  split.
  { rewrite Es', R. destruct (guidesShown s); eexists; reflexivity. }
  rewrite Es'.
  split; [apply renderThumbnail_offset|].
  split; [apply renderThumbnail_scale|].
  split; [apply renderThumbnail_image|].
  split; [render_fields g (@None bool) true s; reflexivity|].
  split; [reflexivity|].
  split; [intros H; exact H|].
  intros s0 fs Ex0 Es. rewrite Es. apply (renderThumbnail_fixed g s0 fs Ex0).
Qed.

Lemma bake_restores_view_witness :
  let s := renderThumbnail (Fin 0.3) None true example_state in
  pictures (surface s) = [SrcFile "Guides.png"; SrcPicture example_picture]
  /\ pictures (surface (fst (useSnapshot (Fin 0.3) s)))
     = [SrcFile "Guides.png"; SrcPicture example_picture]
  /\ fst (useSnapshot (Fin 0.3) s) = s.
Proof.
  intros s.
  destruct (bake_restores_view (Fin 0.3) s canvas600 (mkContext2D "#121212" (Fin 1.0))
              (Image.mk (SrcPicture example_picture) true (Fin 100) (Fin 100))
              example_picture eq_refl eq_refl eq_refl eq_refl eq_refl eq_refl eq_refl)
    as (_ & V & _ & _ & _ & _ & _ & _ & _ & F).
  split; [reflexivity|]. split.
  - rewrite V. reflexivity.
  - apply (F example_state "#121212"%string); reflexivity.
Defined.

(** The export of that state: the snapshot drawn at (-290, -305) with
    size 1200 x 1200. *)
Example bake_example :
  exists a px py w h,
    snd (useSnapshot (Fin 0.3) example_state)
    = Some [DrawImage (SrcPicture example_picture) a px py w h]
    /\ px =j= Fin (-290) /\ py =j= Fin (-305)
    /\ w =j= Fin 1200 /\ h =j= Fin 1200.
Proof.
  eexists _, _, _, _, _. split; [vm_compute; reflexivity|].
  repeat split; vm_compute; reflexivity.
Qed.

End ThumbnailFacts.

(** ** Facts about binary64 numbers *)
Module B64Facts.
Import PrimFloat FloatAxioms SpecFloat FloatOps.
Local Open Scope float_scope.

(** A finite number is a zero or has a mantissa and an exponent. *)
Lemma is_finite_spec (a : B64.num) :
  B64.is_finite a = true ->
  match Prim2SF a with
  | S754_zero _ | S754_finite _ _ _ => True
  | S754_infinity _ | S754_nan => False
  end.
Proof.
  unfold B64.is_finite, is_finite, is_nan, is_infinity.
  rewrite !eqb_spec, abs_spec.
  change (Prim2SF infinity) with (S754_infinity false).
  destruct (Prim2SF a) as [s|[|]| |s m e]; simpl; auto; discriminate.
Qed.

(** [a - 0] is [a], whatever [a] is. *)
Lemma sub_zero (a : B64.num) : B64.sub a 0 = a.
Proof.
  unfold B64.sub. apply Prim2SF_inj. rewrite sub_spec.
  change (Prim2SF 0) with (S754_zero false).
  destruct (Prim2SF a) as [[|]|[|]| |s m e]; reflexivity.
Qed.

(** [a - a] is [+0] for a finite [a]. *)
Lemma sub_diag (a : B64.num) : B64.is_finite a = true -> B64.sub a a = 0.
Proof.
  intros H. apply is_finite_spec in H.
  unfold B64.sub. apply Prim2SF_inj. rewrite sub_spec.
  change (Prim2SF 0) with (S754_zero false).
  destruct (Prim2SF a) as [[|]|s| |s m e]; try contradiction; try reflexivity.
  unfold SF64sub, SFsub. cbv zeta. rewrite Z.sub_diag. reflexivity.
Qed.

End B64Facts.

(** ** The drag, in binary64 *)
Module Thumbnail64Facts.
Import PrimFloat Gfx Gfx64 Thumbnail64 Thumbnail64Spec.
Local Open Scope float_scope.
Local Open Scope b64_scope.

(** [renderThumbnail] writes the context and the surface, nothing else. *)
Lemma renderThumbnail64_writes (g : B64.num) (ig : option bool) (ib : bool) (s : State) :
  exists ctx sf,
    renderThumbnail g ig ib s =
    mk (thumbnailCanvas s) ctx sf (thumbnailImage s) (thumbnailOffset s)
       (thumbnailDragging s) (thumbnailDragStart s) (thumbnailScale s)
       (guidesImage s) (showThumbnailGuides s) (newSnapshotData s).
Proof.
  unfold renderThumbnail.
  destruct (thumbnailCanvas s) as [canvas|] eqn:Ec;
    [destruct (thumbnailCtx s) as [ctx|] eqn:Ex;
     [destruct (thumbnailImage s) as [img|] eqn:Ei|]|].
  - destruct ib; destruct (guidesImage s) as [gi|] eqn:Eg;
      try destruct (_ && _); unfold with_drawing;
      rewrite ?Ec, ?Ei, ?Eg; eexists _, _; reflexivity.
  - exists (thumbnailCtx s), (surface s). destruct s; simpl in *; subst; reflexivity.
  - exists (thumbnailCtx s), (surface s). destruct s; simpl in *; subst; reflexivity.
  - exists (thumbnailCtx s), (surface s). destruct s; simpl in *; subst; reflexivity.
Qed.

(** Pointer-down: [thumbnailDragging = true] and
    [thumbnailDragStart = scaledPointer - thumbnailOffset]. *)
Lemma onThumbnailMouseDown64_spec (A : MouseEvent) (s : State) (canvas : Canvas.t) :
  thumbnailCanvas s = Some canvas ->
  onThumbnailMouseDown A s =
  with_drag s true
    (mkPoint (x (scaledPointer canvas A) - x (thumbnailOffset s))
             (y (scaledPointer canvas A) - y (thumbnailOffset s))).
Proof. intros Hc. unfold onThumbnailMouseDown. rewrite Hc. reflexivity. Qed.

(** Pointer-move during a drag: [thumbnailOffset = scaledPointer -
    thumbnailDragStart]; the canvas, the flag and the start of the drag
    stay. *)
Lemma onThumbnailMouseMove64_dragging (g : B64.num) (e : MouseEvent) (s : State)
    (canvas : Canvas.t) :
  thumbnailCanvas s = Some canvas -> thumbnailDragging s = true ->
  let s' := onThumbnailMouseMove g e s in
  thumbnailOffset s' =
    mkPoint (x (scaledPointer canvas e) - x (thumbnailDragStart s))
            (y (scaledPointer canvas e) - y (thumbnailDragStart s))
  /\ thumbnailCanvas s' = Some canvas
  /\ thumbnailDragging s' = true
  /\ thumbnailDragStart s' = thumbnailDragStart s.
Proof.
  intros Hc Hd s'. subst s'. unfold onThumbnailMouseMove. rewrite Hd, Hc. cbn [negb].
  match goal with |- context [renderThumbnail g None true ?t] =>
    destruct (renderThumbnail64_writes g None true t) as (ctx & sf & E); rewrite E
  end.
  cbn. rewrite Hc, Hd. auto.
Qed.

Lemma moves64_dragging (g : B64.num) (events : list MouseEvent) (s : State)
    (canvas : Canvas.t) :
  thumbnailCanvas s = Some canvas -> thumbnailDragging s = true ->
  let s' := moves g events s in
  thumbnailCanvas s' = Some canvas
  /\ thumbnailDragging s' = true
  /\ thumbnailDragStart s' = thumbnailDragStart s.
Proof.
  revert s. induction events as [|e events IH]; intros s Hc Hd; cbn.
  - auto.
  - destruct (onThumbnailMouseMove64_dragging g e s canvas Hc Hd) as (_ & C & D & S).
    destruct (IH _ C D) as (C' & D' & S'). rewrite <- S. auto.
Qed.

(** C7, as the code has it.  Pointer-down stores
    [dragStart = scaledPointer - offset] and each pointer-move sets
    [offset = scaledPointer - dragStart], both subtractions in binary64.
    A drag that goes down at A, makes any moves, comes back to A and is
    released leaves the offset at [pA - (pA - offset)], where [pA] is the
    pointer at A in canvas coordinates: the value depends neither on the
    positions visited in between nor on their number, so nothing builds
    up over a drag.  It is the starting offset when these two subtractions
    give it back, as they do from the offset (0, 0), where a reset leaves
    it, for every position A of finite coordinates. *)
Theorem drag_round_trip (g : B64.num) (s : State) (canvas : Canvas.t)
    (A : MouseEvent) (events : list MouseEvent) :
  thumbnailCanvas s = Some canvas ->
  let pA := scaledPointer canvas A in
  let o := thumbnailOffset s in
  let s1 := onThumbnailMouseDown A s in
  let s' := drag g A events s in
  thumbnailDragStart s1 = mkPoint (x pA - x o) (y pA - y o)
  /\ (forall B,
        thumbnailOffset (onThumbnailMouseMove g B (moves g events s1)) =
        mkPoint (x (scaledPointer canvas B) - x (thumbnailDragStart s1))
                (y (scaledPointer canvas B) - y (thumbnailDragStart s1)))
  /\ thumbnailOffset s' = mkPoint (x pA - (x pA - x o)) (y pA - (y pA - y o))
  /\ thumbnailDragging s' = false
  /\ (o = mkPoint 0 0 ->
      B64.is_finite (x pA) = true -> B64.is_finite (y pA) = true ->
      thumbnailOffset s' = mkPoint 0 0).
Proof.
  intros Hc pA o s1 s'.
  assert (E1 : s1 = with_drag s true (mkPoint (x pA - x o) (y pA - y o)))
    by (apply onThumbnailMouseDown64_spec; exact Hc).
  assert (C1 : thumbnailCanvas s1 = Some canvas) by (rewrite E1; exact Hc).
  assert (D1 : thumbnailDragging s1 = true) by (rewrite E1; reflexivity).
  destruct (moves64_dragging g events s1 canvas C1 D1) as (C2 & D2 & S2).
  assert (M : forall B,
             thumbnailOffset (onThumbnailMouseMove g B (moves g events s1)) =
             mkPoint (x (scaledPointer canvas B) - x (thumbnailDragStart s1))
                     (y (scaledPointer canvas B) - y (thumbnailDragStart s1))).
  { intros B.
    destruct (onThumbnailMouseMove64_dragging g B _ canvas C2 D2) as (O & _).
    rewrite O, S2. reflexivity. }
  assert (R : thumbnailOffset s' = mkPoint (x pA - (x pA - x o)) (y pA - (y pA - y o))).
  { subst s'. unfold drag. fold s1.
    change (thumbnailOffset (onThumbnailMouseUp ?t)) with (thumbnailOffset t).
    rewrite M, E1. reflexivity. }
  split; [rewrite E1; reflexivity|]. split; [exact M|]. split; [exact R|].
  split; [reflexivity|].
  intros Eo Fx Fy. rewrite R, Eo. cbn [x y].
  rewrite !B64Facts.sub_zero, !B64Facts.sub_diag by assumption. reflexivity.
Qed.

(** The drag gives the offset back when the subtractions are exact: offset
    (10, -5), down at (160, 100) in canvas coordinates. *)
Lemma drag_round_trip_witness :
  thumbnailOffset
    (drag 0.3 pointerA [pointerB; pointerC] (example_state (mkPoint 10 (-5))))
  = mkPoint 10 (-5).
Proof.
  destruct (drag_round_trip 0.3 (example_state (mkPoint 10 (-5))) canvas600 pointerA
              [pointerB; pointerC] eq_refl) as (_ & _ & E & _ & _).
  rewrite E. reflexivity.
Defined.

(** C7 as stated fails: from the offset (0.1, 0), a drag
    that goes down at (160, 100) in canvas coordinates, moves away, comes
    back and is released leaves the offset at 0.099999999999994316, since
    [160 - 0.1] is not a binary64 number. *)
Lemma drag_round_trip_inexact :
  let s := example_state (mkPoint 0.1 0) in
  let s' :=
    onThumbnailMouseUp
      (onThumbnailMouseMove 0.3 pointerA
         (onThumbnailMouseMove 0.3 pointerB (onThumbnailMouseDown pointerA s))) in
  scaledPointer canvas600 pointerA = mkPoint 160 100
  /\ x (thumbnailOffset s') = 0.099999999999994316
  /\ B64.eqb (x (thumbnailOffset s')) (x (thumbnailOffset s)) = false
  /\ thumbnailOffset s' <> thumbnailOffset s.
Proof.
  cbv zeta. split; [reflexivity|]. split; [reflexivity|]. split; [reflexivity|].
  intros H. apply (f_equal (fun p => B64.eqb (x p) 0.1)) in H.
  vm_compute in H. discriminate H.
Qed.

End Thumbnail64Facts.

(** ** app.js: throttle and capture *)
Module AppFacts.
Import AppSpec.
Import Gfx App.
Local Open Scope Z_scope.

Lemma gate_closed_condition (s : State) :
  negb (isLiveUpdating s)
  || negb (bool_decide (is_Some (Thumbnail.thumbnailCanvas (thumb s))))
  || negb (bool_decide (is_Some (Thumbnail.thumbnailCtx (thumb s))))
  = negb (gate_open s).
Proof.
  unfold gate_open.
  destruct (isLiveUpdating s), (bool_decide _), (bool_decide _); reflexivity.
Qed.

Lemma update_dropped (now : Z) (s : State) :
  now - lastThumbnailUpdate s < THUMBNAIL_UPDATE_INTERVAL ->
  updateThumbnailFromViewport now s = s.
Proof.
  intros H. unfold updateThumbnailFromViewport.
  destruct (_ || _); [reflexivity|].
  apply Z.ltb_lt in H. rewrite H. reflexivity.
Qed.

Lemma update_gate_closed (now : Z) (s : State) :
  gate_open s = false -> updateThumbnailFromViewport now s = s.
Proof.
  intros H. unfold updateThumbnailFromViewport.
  rewrite gate_closed_condition, H. reflexivity.
Qed.

Lemma update_executed (now : Z) (s : State) :
  gate_open s = true ->
  THUMBNAIL_UPDATE_INTERVAL <= now - lastThumbnailUpdate s ->
  let s' := updateThumbnailFromViewport now s in
  lastThumbnailUpdate s' = now
  /\ gate_open s' = true
  /\ exists f, captureLog s' = f :: captureLog s.
Proof.
  intros Hg H. unfold updateThumbnailFromViewport.
  rewrite gate_closed_condition, Hg. simpl.
  apply Z.ltb_ge in H. rewrite H.
  unfold gate_open in *.
  destruct s as [bg cc ca [gh|] cam t live last inter log]; simpl in *;
    (split; [reflexivity|]); (split; [exact Hg|]); eexists; reflexivity.
Qed.

(** One request either leaves the state alone or executes one capture at
    its own time. *)
Lemma update_cases (now : Z) (s : State) :
  let s' := updateThumbnailFromViewport now s in
  s' = s
  \/ (lastThumbnailUpdate s' = now /\ exists f, captureLog s' = f :: captureLog s).
Proof.
  destruct (gate_open s) eqn:Hg; [|left; apply update_gate_closed; exact Hg].
  destruct (Z_lt_le_dec (now - lastThumbnailUpdate s) THUMBNAIL_UPDATE_INTERVAL) as [H|H].
  - left. apply update_dropped. exact H.
  - right. destruct (update_executed now s Hg H) as (H1 & _ & H3). auto.
Qed.

Lemma requests_all_dropped (times : list Z) (s : State) :
  (forall t, In t times -> t - lastThumbnailUpdate s < THUMBNAIL_UPDATE_INTERVAL) ->
  requests times s = s.
Proof.
  induction times as [|t times IH]; intros H; simpl; [reflexivity|].
  rewrite update_dropped by (apply H; left; reflexivity).
  apply IH. intros t' Ht'. apply H. right. exact Ht'.
Qed.

Lemma requests_within_interval (times : list Z) (s : State) :
  (forall t t', In t times -> In t' times -> t' - t < THUMBNAIL_UPDATE_INTERVAL) ->
  (executed s (requests times s) <= 1)%nat.
Proof.
  unfold executed.
  induction times as [|t times IH]; intros H; simpl; [lia|].
  destruct (update_cases t s) as [E|(E & f & L)].
  - rewrite E. apply IH. intros a b Ha Hb. apply H; right; assumption.
  - rewrite requests_all_dropped.
    + rewrite L. simpl. lia.
    + intros t' Ht'. rewrite E. apply H; [left; reflexivity | right; exact Ht'].
Qed.

Lemma requests_spaced (times : list Z) (s : State) :
  gate_open s = true -> spaced (lastThumbnailUpdate s) times ->
  length (captureLog (requests times s))
  = (length times + length (captureLog s))%nat.
Proof.
  revert s. induction times as [|t times IH]; intros s Hg H; simpl; [reflexivity|].
  destruct H as [H1 H2].
  destruct (update_executed t s Hg) as (E & G & f & L); [lia|].
  rewrite IH; [rewrite L; simpl; lia | exact G | rewrite E; exact H2].
Qed.

(** C5. Requests whose times all lie within one interval of 100 ms lead to
    at most one executed capture; requests each more than one interval
    after the one before are all executed; and a request that comes too
    early leaves the whole state as it was, so nothing is kept for later. *)
Theorem capture_throttle :
  (forall times s,
      (forall t t', In t times -> In t' times -> t' - t < THUMBNAIL_UPDATE_INTERVAL) ->
      (executed s (requests times s) <= 1)%nat)
  /\ (forall times s,
      gate_open s = true -> spaced (lastThumbnailUpdate s) times ->
      executed s (requests times s) = length times)
  /\ (forall now s,
      now - lastThumbnailUpdate s < THUMBNAIL_UPDATE_INTERVAL ->
      updateThumbnailFromViewport now s = s).
Proof.
  split; [exact requests_within_interval|]. split; [|exact update_dropped].
  intros times s Hg Hs. unfold executed.
  rewrite (requests_spaced times s Hg Hs). lia.
Qed.

Lemma capture_throttle_witness :
  (executed loaded (requests [1000; 1030; 1060; 1099]%Z loaded) <= 1)%nat
  /\ executed loaded (requests [1000; 1101; 1202] loaded) = 3%nat
  /\ updateThumbnailFromViewport 1050 (updateThumbnailFromViewport 1000 loaded)
     = updateThumbnailFromViewport 1000 loaded.
Proof.
  destruct capture_throttle as (H1 & H2 & H3).
  split; [|split].
  - apply H1. intros t t' Ht Ht'. simpl in Ht, Ht'. unfold THUMBNAIL_UPDATE_INTERVAL.
    lia.
  - apply (H2 [1000; 1101; 1202] loaded); [reflexivity|].
    repeat split; reflexivity.
  - apply H3. reflexivity.
Defined.

(** *** The capture restores what it hid *)

Lemma app_capture_restores (now : Z) (s : State) :
  let s' := updateThumbnailFromViewport now s in
  sceneBackground s' = sceneBackground s
  /\ gridHelper s' = gridHelper s
  /\ (s' = s
      \/ (clearColor s' = 0x121212 /\ clearAlpha s' = Fin 1
          /\ exists f, captureLog s' = f :: captureLog s
               /\ picture_background f = None /\ picture_grid f = false
               /\ picture_clearAlpha f = Fin 0)).
Proof.
  unfold updateThumbnailFromViewport.
  destruct (_ || _); [simpl; auto|].
  destruct (_ <? _); [simpl; auto|].
  destruct s as [bg cc ca [[vis]|] cam t live last inter log]; simpl;
    (split; [reflexivity|]); (split; [reflexivity|]); right;
    (split; [reflexivity|]); (split; [reflexivity|]);
    eexists; (split; [reflexivity|]); auto.
Qed.

(** *** The bake on the page *)

(** C4 as stated fails in two ways.  A click on "use
    snapshot" while the picture of a new capture is still being decoded
    exports an empty picture, and the view loses the snapshot it was
    showing.  And the second render follows the guide switch: with the
    guides switched off, none are drawn after the click. *)
Lemma bake_view_not_restored :
  (ThumbnailSpec.pictures (Thumbnail.surface (thumb recaptured))
   = [SrcFile "Guides.png"; SrcPicture first_capture]
   /\ snd (useSnapshot recaptured) = Some []
   /\ ThumbnailSpec.pictures (Thumbnail.surface (thumb (fst (useSnapshot recaptured))))
      = [SrcFile "Guides.png"])
  /\ (ThumbnailSpec.pictures (Thumbnail.surface (thumb (fst (useSnapshot guides_off))))
      = [SrcPicture first_capture]
      /\ ThumbnailSpec.pictures
           (Thumbnail.surface
              (Thumbnail.renderThumbnail guideAlpha (Some true) true (thumb guides_off)))
         = [SrcFile "Guides.png"; SrcPicture first_capture]).
Proof. repeat split; vm_compute; reflexivity. Qed.

End AppFacts.

(** ** main.js: capture through [Viewer] *)
Module MainCapture.
Import MainSpec.
Import Gfx Main.
Local Open Scope Z_scope.

Lemma updateGrid_consistent (v : Viewer.t) :
  grid_consistent v -> grid_consistent (Viewer.updateGrid v).
Proof.
  unfold grid_consistent, Viewer.updateGrid.
  destruct v as [c ca bg bc cc cal sg [gh|] ga cam]; simpl;
    destruct sg; simpl; auto.
Qed.

Lemma main_capture_restores (now : Z) (s : State) (v : Viewer.t) :
  viewer s = Some v -> grid_consistent v ->
  let s' := updateThumbnailFromViewport now s in
  exists v', viewer s' = Some v'
    /\ Viewer.sceneBackground v' = Viewer.sceneBackground v
    /\ Viewer.stateGrid v' = Viewer.stateGrid v
    /\ Viewer.gridHelper v' = Viewer.gridHelper v
    /\ Viewer.gridAttached v' = Viewer.gridAttached v
    /\ (s' = s
        \/ (Viewer.clearColor v' = Viewer.backgroundColor v
            /\ Viewer.clearAlpha v' = Fin 1
            /\ exists f, captureLog s' = f :: captureLog s
                 /\ picture_background f = None /\ picture_grid f = false
                 /\ picture_clearAlpha f = Fin 0)).
Proof.
  intros Hv Hc. unfold updateThumbnailFromViewport. rewrite Hv.
  destruct (_ || _); [exists v; simpl; auto 10|].
  destruct (_ <? _); [exists v; simpl; auto 10|].
  unfold grid_consistent in Hc.
  destruct v as [c ca bg bc cc cal sg [gh|] ga cam]; simpl in *; subst ga.
  - destruct sg; simpl; eexists; (split; [reflexivity|]); simpl;
      repeat (split; [reflexivity|]); right;
      repeat (split; [reflexivity|]); eexists; repeat split; reflexivity.
  - destruct sg; simpl; eexists; (split; [reflexivity|]); simpl;
      repeat (split; [reflexivity|]); right;
      repeat (split; [reflexivity|]); eexists; repeat split; reflexivity.
Qed.

(** C3, in the form that holds. After a capture, in app.js as in main.js, the scene
    background is the reference it was and the grid is as visible as it
    was, whether it was on or off; the picture taken had no background, no
    grid and a transparent clear colour.  The clear colour is not put back
    to what it was: an executed capture leaves the opaque colour of the
    application ([0x121212] in app.js, the viewer's background colour in
    main.js). *)
Theorem capture_restores_background_and_grid :
  (forall now s,
      let s' := App.updateThumbnailFromViewport now s in
      App.sceneBackground s' = App.sceneBackground s
      /\ App.gridHelper s' = App.gridHelper s
      /\ (s' = s
          \/ (App.clearColor s' = 0x121212 /\ App.clearAlpha s' = Fin 1
              /\ exists f, App.captureLog s' = f :: App.captureLog s
                   /\ picture_background f = None /\ picture_grid f = false
                   /\ picture_clearAlpha f = Fin 0)))
  /\ (forall now s v,
      viewer s = Some v -> grid_consistent v ->
      let s' := updateThumbnailFromViewport now s in
      exists v', viewer s' = Some v'
        /\ Viewer.sceneBackground v' = Viewer.sceneBackground v
        /\ Viewer.stateGrid v' = Viewer.stateGrid v
        /\ Viewer.gridHelper v' = Viewer.gridHelper v
        /\ Viewer.gridAttached v' = Viewer.gridAttached v
        /\ (s' = s
            \/ (Viewer.clearColor v' = Viewer.backgroundColor v
                /\ Viewer.clearAlpha v' = Fin 1
                /\ exists f, captureLog s' = f :: captureLog s
                     /\ picture_background f = None /\ picture_grid f = false
                     /\ picture_clearAlpha f = Fin 0))).
Proof.
  split; [exact AppFacts.app_capture_restores | exact main_capture_restores].
Qed.

Lemma capture_restores_background_and_grid_witness :
  (exists v v', viewer grid_on = Some v
     /\ viewer (updateThumbnailFromViewport 1000 grid_on) = Some v'
     /\ Viewer.gridAttached v = true /\ Viewer.gridAttached v' = true
     /\ Viewer.sceneBackground v' = Viewer.sceneBackground v)
  /\ (exists v v', viewer grid_off = Some v
     /\ viewer (updateThumbnailFromViewport 1000 grid_off) = Some v'
     /\ Viewer.gridAttached v = false /\ Viewer.gridAttached v' = false
     /\ Viewer.sceneBackground v' = Viewer.sceneBackground v).
Proof.
  split.
  - destruct (proj2 capture_restores_background_and_grid 1000 grid_on
                (Viewer.setContent Viewer.new FramingExamples.example_object)
                eq_refl eq_refl) as (v' & E & B & _ & _ & A & _).
    eexists _, v'. split; [reflexivity|]. split; [exact E|].
    split; [reflexivity|]. split; [rewrite A; reflexivity | exact B].
  - destruct (proj2 capture_restores_background_and_grid 1000 grid_off
                (Viewer.updateGrid
                   (Viewer.with_stateGrid
                      (Viewer.setContent Viewer.new FramingExamples.example_object) false))
                eq_refl eq_refl) as (v' & E & B & _ & _ & A & _).
    eexists _, v'. split; [reflexivity|]. split; [exact E|].
    split; [reflexivity|]. split; [rewrite A; reflexivity | exact B].
Defined.

(** C3 as stated fails on the clear colour.  [Viewer] is built with the
    clear colour [0xcccccc]; the first capture of main.js, on the first
    animation frame, leaves [0x121212]. *)
Lemma first_capture_changes_clear_color :
  exists v v',
    viewer loaded = Some v
    /\ viewer (updateThumbnailFromViewport 1700000000000 loaded) = Some v'
    /\ captureLog (updateThumbnailFromViewport 1700000000000 loaded)
       <> captureLog loaded
    /\ Viewer.sceneBackground v' = Viewer.sceneBackground v
    /\ Viewer.clearColor v = 0xcccccc
    /\ Viewer.clearColor v' = 0x121212
    /\ Viewer.clearColor v' <> Viewer.clearColor v.
Proof.
  eexists _, _. split; [reflexivity|]. split; [reflexivity|].
  split; [discriminate|]. split; [reflexivity|]. split; [reflexivity|].
  split; [reflexivity | discriminate].
Qed.

End MainCapture.

(** ** viewer.js: the URL modifier and [load] *)
Module LoadingFacts.
Import LoadingSpec.
Import Loading.
Local Open Scope string_scope.

(** *** The string operations *)

Lemma strip_prefix_app (p rest : string) : strip_prefix p (p ++ rest) = Some rest.
Proof.
  induction p as [|c p IH]; simpl; [reflexivity|].
  rewrite Ascii.eqb_refl. exact IH.
Qed.

(** A base URL at the front of the string is what [replace] removes. *)
Lemma replace_first_prefix (base rest : string) : replace_first base (base ++ rest) = rest.
Proof.
  destruct (base ++ rest) as [|c s'] eqn:E; simpl; rewrite <- E, strip_prefix_app;
    reflexivity.
Qed.

Lemma strip_prefix_Some (p s rest : string) :
  strip_prefix p s = Some rest -> s = p ++ rest.
Proof.
  revert s. induction p as [|c p IH]; intros s; simpl.
  - intros [= ->]. reflexivity.
  - destruct s as [|d s]; [discriminate|].
    destruct (Ascii.eqb c d) eqn:E; [|discriminate].
    apply Ascii.eqb_eq in E. subst d. intros H. rewrite (IH s H). reflexivity.
Qed.

Lemma replace_first_absent (pattern s : string) :
  ~ occurs pattern s -> replace_first pattern s = s.
Proof.
  induction s as [|c s IH]; intros H; simpl.
  - destruct (strip_prefix pattern EmptyString) as [rest|] eqn:E; [|reflexivity].
    exfalso. apply H. exists EmptyString, rest. simpl. apply (strip_prefix_Some pattern). exact E.
  - destruct (strip_prefix pattern (String c s)) as [rest|] eqn:E.
    + exfalso. apply H. exists EmptyString, rest. simpl. apply (strip_prefix_Some pattern). exact E.
    + rewrite IH; [reflexivity|].
      intros (before & after & Hs). apply H.
      exists (String c before), after. simpl. rewrite Hs. reflexivity.
Qed.

Lemma strip_leading_dot_slash (rest : string) : strip_leading_slash ("./" ++ rest) = rest.
Proof. reflexivity. Qed.

(** *** The registry of object URLs *)

Lemma createObjectURL_fresh (blob : Blob) (st : BlobStore) :
  store_wf st ->
  let '(id, st') := createObjectURL blob st in
  id = nextId st
  /\ live st !! id = None
  /\ live st' !! id = Some blob
  /\ (forall other, other <> id -> live st' !! other = live st !! other)
  /\ store_wf st'.
Proof.
  intros Hwf. unfold createObjectURL. split; [reflexivity|]. split.
  - destruct (live st !! nextId st) as [b|] eqn:E; [|reflexivity].
    exfalso. assert (H : (nextId st < nextId st)%nat) by (apply Hwf; rewrite E; eauto).
    lia.
  - simpl. split; [apply lookup_insert_eq|]. split.
    + intros other Hne. apply lookup_insert_ne. auto.
    + intros id. simpl. destruct (decide (id = nextId st)) as [->|Hne]; [lia|].
      rewrite lookup_insert_ne by auto. intros H. apply Hwf in H. lia.
Qed.

Lemma revoke_all_keeps (ids : list nat) (st : BlobStore) (id : nat) :
  ~ In id ids -> live (fold_left revokeObjectURL ids st) !! id = live st !! id.
Proof.
  revert st. induction ids as [|i ids IH]; intros st H; simpl; [reflexivity|].
  rewrite IH by (intros Hin; apply H; right; exact Hin).
  simpl. apply lookup_delete_ne. intros ->. apply H. left. reflexivity.
Qed.

Lemma revoke_all_none (ids : list nat) (st : BlobStore) (id : nat) :
  live st !! id = None -> live (fold_left revokeObjectURL ids st) !! id = None.
Proof.
  revert st. induction ids as [|i ids IH]; intros st H; simpl; [exact H|].
  apply IH. simpl. destruct (decide (i = id)) as [->|Hne].
  - apply lookup_delete_eq.
  - rewrite lookup_delete_ne by auto. exact H.
Qed.

Lemma revoke_all_frees (ids : list nat) (st : BlobStore) (id : nat) :
  In id ids -> live (fold_left revokeObjectURL ids st) !! id = None.
Proof.
  revert st. induction ids as [|i ids IH]; intros st H; simpl; [destruct H|].
  destruct H as [->|H]; [|apply IH; exact H].
  apply revoke_all_none. simpl. apply lookup_delete_eq.
Qed.

Section WithBuiltins.

Variable decodeURI : string -> option string.

(** The array [blobURLs] only grows. *)
Lemma resolveAll_keeps_urls (baseURL rootPath : string) (assetMap : gmap string Blob)
    (urls : list string) (st : BlobStore * list nat) (id : nat) :
  In id (snd st) ->
  In id (snd (snd (resolveAll decodeURI baseURL rootPath assetMap urls st))).
Proof.
  revert st. induction urls as [|url urls IH]; intros st Hid; simpl; [exact Hid|].
  unfold resolveURL, urlModifier.
  destruct (normalizedURL decodeURI baseURL rootPath url) as [n|]; [|exact Hid].
  destruct (assetMap !! n) as [blob|]; simpl.
  - specialize (IH (mkBlobStore (S (nextId (fst st))) (<[nextId (fst st):=blob]> (live (fst st))),
                    (snd st ++ [nextId (fst st)])%list)).
    destruct (resolveAll decodeURI baseURL rootPath assetMap urls _) as [rs st'].
    simpl in *. apply IH, in_or_app. left. exact Hid.
  - specialize (IH st Hid).
    destruct (resolveAll decodeURI baseURL rootPath assetMap urls st) as [rs st'].
    exact IH.
Qed.

(** Every object URL registered after a run of the modifier was registered
    before it or is in [blobURLs]. *)
Lemma resolveAll_invariant (baseURL rootPath : string) (assetMap : gmap string Blob)
    (urls : list string) (store : BlobStore) (acc : list nat) :
  store_wf store ->
  store_wf (fst (snd (resolveAll decodeURI baseURL rootPath assetMap urls (store, acc))))
  /\ forall id,
       is_Some (live (fst (snd (resolveAll decodeURI baseURL rootPath assetMap urls
                                  (store, acc)))) !! id) ->
       is_Some (live store !! id)
       \/ In id (snd (snd (resolveAll decodeURI baseURL rootPath assetMap urls (store, acc)))).
Proof.
  revert store acc. induction urls as [|url urls IH]; intros store acc Hwf; simpl.
  - auto.
  - unfold resolveURL, urlModifier.
    destruct (normalizedURL decodeURI baseURL rootPath url) as [n|]; simpl; [|auto].
    destruct (assetMap !! n) as [blob|]; simpl.
    + pose proof (createObjectURL_fresh blob store Hwf) as F.
      unfold createObjectURL in F. destruct F as (_ & _ & _ & Hother & Hwf').
      pose proof (resolveAll_keeps_urls baseURL rootPath assetMap urls
                    (mkBlobStore (S (nextId store)) (<[nextId store:=blob]> (live store)),
                     (acc ++ [nextId store])%list) (nextId store)) as Hkeep.
      specialize (IH (mkBlobStore (S (nextId store)) (<[nextId store:=blob]> (live store)))
                     (acc ++ [nextId store])%list Hwf').
      destruct (resolveAll decodeURI baseURL rootPath assetMap urls _)
        as [rs [store' acc']].
      simpl in *. destruct IH as [IH1 IH2]. split; [exact IH1|].
      intros id Hid. destruct (IH2 id Hid) as [H|H]; [|right; exact H].
      destruct (decide (id = nextId store)) as [->|Hne].
      * right. apply Hkeep, in_or_app. right. left. reflexivity.
      * left. rewrite Hother in H by exact Hne. exact H.
    + specialize (IH store acc Hwf).
      destruct (resolveAll decodeURI baseURL rootPath assetMap urls (store, acc))
        as [rs [store' acc']].
      simpl in *. exact IH.
Qed.

(** After a load that succeeds, no object URL made during the load is still
    registered. *)
Lemma load_revokes (v : Viewer.t) (url rootPath : string) (assetMap : gmap string Blob)
    (run : LoaderRun) (store : BlobStore) (v' : Viewer.t) (store' : BlobStore) (gltf : GLTF) :
  store_wf store ->
  load decodeURI v url rootPath assetMap run store = (v', store', Resolved gltf) ->
  forall id, (nextId store <= id)%nat -> live store' !! id = None.
Proof.
  intros Hwf. unfold load.
  pose proof (resolveAll_invariant (extractUrlBase url) rootPath assetMap (requests run)
                store [] Hwf) as [_ Hinv].
  destruct (resolveAll decodeURI (extractUrlBase url) rootPath assetMap (requests run)
              (store, [])) as [[rs|] [st ids]]; simpl in Hinv; [|discriminate].
  destruct (outcome run) as [e|g]; [discriminate|].
  destruct (match scene g with Some sc => Some sc | None => head (scenes g) end);
    [|discriminate].
  intros [= <- <- <-] id Hid.
  destruct (in_dec Nat.eq_dec id ids) as [Hin|Hnot].
  - apply revoke_all_frees. exact Hin.
  - rewrite revoke_all_keeps by exact Hnot.
    destruct (live st !! id) as [b|] eqn:E; [|reflexivity].
    exfalso. destruct (Hinv id) as [H|H]; [rewrite E; eauto | | contradiction].
    apply Hwf in H. lia.
Qed.

(** C8. For a sub-resource URL, the modifier decodes the percent escapes
    with [decodeURI], removes the base URL in front of the result, removes a
    leading "./", puts the root path in front and looks the outcome up in
    [assetMap].  When the lookup succeeds it returns an object URL that was
    not registered before, now registered for the blob found and recorded in
    [blobURLs]; when it fails it returns the URL it was given, unchanged, and
    changes nothing.  Once a load has succeeded no object URL made during
    the load is registered any more. *)
Theorem url_resolution :
  (forall (baseURL rootPath : string) (assetMap : gmap string Blob) (url decoded : string)
          (store : BlobStore) (blobURLs : list nat),
      decodeURI url = Some decoded ->
      store_wf store ->
      let normalized := rootPath ++ strip_leading_slash (replace_first baseURL decoded) in
      normalizedURL decodeURI baseURL rootPath url = Some normalized
      /\ (forall rest, decoded = baseURL ++ rest ->
            normalized = rootPath ++ strip_leading_slash rest)
      /\ (forall rest, decoded = baseURL ++ "./" ++ rest -> normalized = rootPath ++ rest)
      /\ (forall blob, assetMap !! normalized = Some blob ->
            exists store',
              resolveURL decodeURI baseURL rootPath assetMap url (store, blobURLs)
              = Some (ObjectURL (nextId store), (store', (blobURLs ++ [nextId store])%list))
              /\ live store !! nextId store = None
              /\ live store' !! nextId store = Some blob
              /\ store_wf store')
      /\ (assetMap !! normalized = None ->
            resolveURL decodeURI baseURL rootPath assetMap url (store, blobURLs)
            = Some (Plain url, (store, blobURLs))))
  /\ (forall (v : Viewer.t) (url rootPath : string) (assetMap : gmap string Blob)
             (run : LoaderRun) (store : BlobStore) (v' : Viewer.t) (store' : BlobStore)
             (gltf : GLTF),
      store_wf store ->
      load decodeURI v url rootPath assetMap run store = (v', store', Resolved gltf) ->
      forall id, (nextId store <= id)%nat -> live store' !! id = None).
Proof.
  split; [|exact load_revokes].
  intros baseURL rootPath assetMap url decoded store blobURLs Hd Hwf normalized.
  assert (Hn : normalizedURL decodeURI baseURL rootPath url = Some normalized).
  { unfold normalizedURL. rewrite Hd. reflexivity. }
  split; [exact Hn|]. split.
  { intros rest ->. subst normalized. rewrite replace_first_prefix. reflexivity. }
  split.
  { intros rest ->. subst normalized. rewrite replace_first_prefix. reflexivity. }
  split.
  - intros blob Hb. unfold resolveURL, urlModifier. rewrite Hn, Hb.
    pose proof (createObjectURL_fresh blob store Hwf) as F.
    unfold createObjectURL in *. destruct F as (_ & F1 & F2 & _ & F3).
    eexists. split; [reflexivity|]. auto.
  - intros Hb. unfold resolveURL, urlModifier. rewrite Hn, Hb. reflexivity.
Qed.

End WithBuiltins.

Lemma url_resolution_witness :
  (exists store',
      resolveURL decodeURI_ascii "blob:http://localhost:5172/" EmptyString uploaded
        "blob:http://localhost:5172/./wood%20grain.png" (no_urls, [])
      = Some (ObjectURL 0, (store', [0%nat]))
      /\ live store' !! 0%nat = Some texture)
  /\ resolveURL decodeURI_ascii "blob:http://localhost:5172/" EmptyString uploaded
       "https://example.org/sky.png" (no_urls, [])
     = Some (Plain "https://example.org/sky.png", (no_urls, [])).
Proof.
  assert (Hwf : store_wf no_urls).
  { intros id [b Hb]. unfold no_urls in Hb. simpl in Hb.
    rewrite lookup_empty in Hb. discriminate. }
  split.
  - destruct (proj1 (url_resolution decodeURI_ascii) "blob:http://localhost:5172/"
                EmptyString uploaded "blob:http://localhost:5172/./wood%20grain.png"
                "blob:http://localhost:5172/./wood grain.png" no_urls [] eq_refl Hwf)
      as (_ & _ & _ & H & _).
    destruct (H texture eq_refl) as (store' & E & _ & L & _).
    exists store'. split; [exact E | exact L].
  - apply (proj1 (url_resolution decodeURI_ascii) "blob:http://localhost:5172/"
             EmptyString uploaded "https://example.org/sky.png"
             "https://example.org/sky.png" no_urls [] eq_refl Hwf).
    reflexivity.
Defined.

(** When the load fails, the object URLs made for its sub-resources stay
    registered: only the success path revokes them. *)
Example load_failure_keeps_object_url :
  exists v st,
    load decodeURI_ascii Viewer.new "blob:http://localhost:5172/1f0c" EmptyString uploaded
      (mkLoaderRun ["blob:http://localhost:5172/wood%20grain.png"] (OnError "parse error"))
      no_urls
    = (v, st, Rejected "parse error")
    /\ live st !! 0%nat = Some texture.
Proof. eexists _, _. split; reflexivity. Qed.

(** A malformed escape makes the modifier throw before any lookup. *)
Example malformed_escape_throws :
  resolveURL decodeURI_ascii "./" EmptyString uploaded "100%.png" (no_urls, []) = None.
Proof. reflexivity. Qed.

(** [replace] removes the first occurrence of the base URL even when it is
    not at the front. *)
Example base_url_removed_inside : replace_first "a/" "xa/b.png" = "xb.png".
Proof. reflexivity. Qed.

End LoadingFacts.

(** ** main.js: what a failed load leaves behind *)
Module MainLoading.
Import MainLoadingSpec.
Import Loading Main.
Local Open Scope string_scope.

Section WithBuiltins.

Variable decodeURI : string -> option string.

(** A rejected load hands back the viewer it was given: [setContent] did not
    run. *)
Lemma load_rejected (v : Viewer.t) (url rootPath : string) (assetMap : gmap string Blob)
    (run : LoaderRun) (store : BlobStore) (v' : Viewer.t) (store' : BlobStore)
    (error : string) :
  load decodeURI v url rootPath assetMap run store = (v', store', Rejected error) ->
  v' = v.
Proof.
  unfold load.
  destruct (resolveAll decodeURI (extractUrlBase url) rootPath assetMap (requests run)
              (store, [])) as [[rs|] [st ids]].
  - destruct (outcome run) as [e|g]; [intros [= <- _ _]; reflexivity|].
    destruct (match scene g with Some sc => Some sc | None => head (scenes g) end);
      [discriminate | intros [= <- _ _]; reflexivity].
  - intros [= <- _ _]. reflexivity.
Qed.

(** A resolved load ran [setContent] on the scene of the file, which the
    loader had delivered to [onLoad]. *)
Lemma load_resolved (v : Viewer.t) (url rootPath : string) (assetMap : gmap string Blob)
    (run : LoaderRun) (store : BlobStore) (v' : Viewer.t) (store' : BlobStore)
    (gltf : GLTF) :
  load decodeURI v url rootPath assetMap run store = (v', store', Resolved gltf) ->
  outcome run = OnLoad gltf
  /\ exists sc,
       (scene gltf = Some sc \/ (scene gltf = None /\ head (scenes gltf) = Some sc))
       /\ v' = Viewer.setContent v sc.
Proof.
  unfold load.
  destruct (resolveAll decodeURI (extractUrlBase url) rootPath assetMap (requests run)
              (store, [])) as [[rs|] [st ids]]; [|discriminate].
  destruct (outcome run) as [e|g]; [discriminate|].
  destruct (scene g) as [sc|] eqn:Es.
  - intros [= <- _ <-]. split; [reflexivity|]. exists sc. auto.
  - destruct (head (scenes g)) as [sc|] eqn:Eh; [|discriminate].
    intros [= <- _ <-]. split; [reflexivity|]. exists sc. auto.
Qed.

(** An error of the loader and a file without scene both reject. *)
Lemma load_fails (v : Viewer.t) (url rootPath : string) (assetMap : gmap string Blob)
    (run : LoaderRun) (store : BlobStore) :
  (exists e, outcome run = OnError e)
  \/ (exists g, outcome run = OnLoad g /\ scene g = None /\ scenes g = []) ->
  exists error, snd (load decodeURI v url rootPath assetMap run store) = Rejected error.
Proof.
  intros H. unfold load.
  destruct (resolveAll decodeURI (extractUrlBase url) rootPath assetMap (requests run)
              (store, [])) as [[rs|] [st ids]]; [|eexists; reflexivity].
  destruct H as [[e ->]|(g & -> & Hs & Hl)]; [eexists; reflexivity|].
  rewrite Hs, Hl. eexists. reflexivity.
Qed.

(** How the promise settles does not depend on the viewer. *)
Lemma load_settles_alike (v1 v2 : Viewer.t) (url rootPath : string)
    (assetMap : gmap string Blob) (run : LoaderRun) (store : BlobStore) :
  snd (load decodeURI v1 url rootPath assetMap run store)
  = snd (load decodeURI v2 url rootPath assetMap run store).
Proof.
  unfold load.
  destruct (resolveAll decodeURI (extractUrlBase url) rootPath assetMap (requests run)
              (store, [])) as [[rs|] [st ids]]; [|reflexivity].
  destruct (outcome run) as [e|g]; [reflexivity|].
  destruct (match scene g with Some sc => Some sc | None => head (scenes g) end);
    reflexivity.
Qed.

Lemma setIndicator_none_hidden (u : UI) : hidden (setIndicator "none" u).
Proof. unfold hidden, setIndicator. destruct (loadingIndicator u); simpl; congruence. Qed.

Lemma loadModel_catch_hidden (error : string) (s : State) :
  hidden (ui (loadModel_catch error s)).
Proof. unfold loadModel_catch. simpl. apply setIndicator_none_hidden. Qed.

Lemma loadModel_then_hidden (s : State) : hidden (ui (loadModel_then s)).
Proof.
  unfold loadModel_then. simpl.
  destruct (viewer s) as [v|]; [destruct (Viewer.updateDisplay v)|]; simpl;
    apply setIndicator_none_hidden.
Qed.

Lemma loadModel_start_fields (s : State) (v : Viewer.t) :
  viewer s = Some v ->
  viewer (loadModel_start s) = Some (Viewer.with_stateGrid v true)
  /\ store (loadModel_start s) = store s
  /\ ui (loadModel_start s) = setIndicator "block" (ui s).
Proof. intros Hv. unfold loadModel_start. simpl. rewrite Hv. auto. Qed.

(** C9, in the form that holds. When the load of a model fails (an error of the
    loader, or a file without scene), [loadModel] hides the loading
    indicator, as it does when the load succeeds, and leaves the viewer with
    the content it had: [setContent] runs only for a load that resolved, on
    the scene of the file.  The failure itself is written to the console and
    nowhere else: no dialog is opened, where the handler of an uploaded file
    opens one for the same failure. *)
Theorem loadModel_failure (modelUrl : string) (run : LoaderRun) (s : State)
    (v : Viewer.t) (error : string) :
  viewer s = Some v ->
  snd (load decodeURI (Viewer.with_stateGrid v true) modelUrl EmptyString ∅ run (store s))
  = Rejected error ->
  let s' := loadModel decodeURI modelUrl run s in
  console (ui s') = (console (ui s) ++ [("Error loading model: " ++ error)%string])%list
  /\ alerts (ui s') = alerts (ui s)
  /\ hidden (ui s')
  /\ viewer s' = Some (Viewer.with_stateGrid v true)
  /\ (forall run', hidden (ui (loadModel decodeURI modelUrl run' s)))
  /\ (forall fileURL assetMap e,
        snd (load decodeURI v fileURL EmptyString assetMap run (store s)) = Rejected e ->
        alerts (ui (uploadModel decodeURI fileURL assetMap run s))
        = (alerts (ui s) ++ [("Error loading model: " ++ e)%string])%list)
  /\ (forall v0 url rootPath assetMap run0 st v1 st1 e,
        load decodeURI v0 url rootPath assetMap run0 st = (v1, st1, Rejected e) -> v1 = v0)
  /\ (forall v0 url rootPath assetMap run0 st v1 st1 gltf,
        load decodeURI v0 url rootPath assetMap run0 st = (v1, st1, Resolved gltf) ->
        outcome run0 = OnLoad gltf
        /\ exists sc,
             (scene gltf = Some sc \/ (scene gltf = None /\ head (scenes gltf) = Some sc))
             /\ v1 = Viewer.setContent v0 sc).
Proof.
  intros Hv Hr s'.
  destruct (loadModel_start_fields s v Hv) as (Sv & Ss & Su).
  assert (Hs' : console (ui s') = (console (ui s) ++ [("Error loading model: " ++ error)%string])%list
                /\ alerts (ui s') = alerts (ui s) /\ hidden (ui s')
                /\ viewer s' = Some (Viewer.with_stateGrid v true)).
  { subst s'. unfold loadModel. rewrite Hv, Sv, Ss.
    destruct (load decodeURI (Viewer.with_stateGrid v true) modelUrl EmptyString ∅ run
                (store s)) as [[v1 st1] settled] eqn:E.
    simpl in Hr. subst settled.
    apply load_rejected in E. subst v1. unfold loadModel_catch. simpl. rewrite Su. simpl.
    split; [reflexivity|]. split; [reflexivity|]. split; [|reflexivity].
    unfold hidden. simpl. destruct (loadingIndicator (ui s)); simpl; congruence. }
  destruct Hs' as (H1 & H2 & H3 & H4).
  split; [exact H1|]. split; [exact H2|]. split; [exact H3|]. split; [exact H4|].
  split; [|split; [|split]].
  - intros run'. unfold loadModel. rewrite Hv, Sv, Ss.
    destruct (load decodeURI (Viewer.with_stateGrid v true) modelUrl EmptyString ∅ run'
                (store s)) as [[v1 st1] [g|e]].
    + apply loadModel_then_hidden.
    + apply loadModel_catch_hidden.
  - intros fileURL assetMap e He. unfold uploadModel. rewrite Hv.
    destruct (load decodeURI v fileURL EmptyString assetMap run (store s))
      as [[v1 st1] settled]. simpl in He. subst settled. reflexivity.
  - intros v0 url rootPath assetMap run0 st v1 st1 e. apply load_rejected.
  - intros v0 url rootPath assetMap run0 st v1 st1 gltf. apply load_resolved.
Qed.

End WithBuiltins.

Lemma loadModel_failure_witness :
  let s' := loadModel LoadingSpec.decodeURI_ascii "assets/Empty.gltf" no_scene_run
              MainSpec.loaded in
  console (ui s') = [("Error loading model: " ++ noSceneMessage)%string]
  /\ alerts (ui s') = []
  /\ loadingIndicator (ui s') = Some "none"
  /\ viewer s' = Some (Viewer.with_stateGrid Viewer.new true).
Proof.
  destruct (loadModel_failure LoadingSpec.decodeURI_ascii "assets/Empty.gltf" no_scene_run
              MainSpec.loaded Viewer.new noSceneMessage eq_refl eq_refl)
    as (H1 & H2 & _ & H4 & _).
  split; [exact H1|]. split; [exact H2|]. split; [reflexivity | exact H4].
Defined.

(** The same failure for an uploaded file opens a dialog. *)
Example uploadModel_failure_alerts :
  alerts (ui (uploadModel LoadingSpec.decodeURI_ascii "blob:http://localhost:5172/1f0c"
                ∅ no_scene_run MainSpec.loaded))
  = [("Error loading model: " ++ noSceneMessage)%string].
Proof. reflexivity. Qed.

End MainLoading.

(** ** viewer.js: framing *)
Module FramingFacts.
Import Three Framing JSFacts FramingExamples.
Local Open Scope Q_scope.

(** *** Degenerate scenes *)

(** A bounding box of zero volume makes [frame] divide by zero. *)
Lemma frame_divides_by_zero (o : Object3D) (q : Q) :
  maxDimension (getSize (setFromObject o)) = Fin q -> q == 0 ->
  appliedScale (frame o) = Some PInf
  /\ scale (object (frame o)) = multiplyScalar (scale o) PInf.
Proof.
  intros Hm Hq. unfold frame. rewrite Hm.
  assert (Hn : JS.neqb (Fin q) targetSize = true).
  { unfold JS.neqb, targetSize, gridSize. simpl.
    apply negb_true_iff, Qeq_bool_false. rewrite Hq. intros H. discriminate H. }
  rewrite Hn.
  assert (Hd : (targetSize / Fin q)%js = PInf).
  { unfold targetSize, gridSize. simpl.
    assert (E : Qeq_bool q 0 = true) by (apply Qeq_bool_iff; exact Hq).
    rewrite E. reflexivity. }
  rewrite Hd. simpl. auto.
Qed.

(** C2, in the form that holds. [frame] has no guard on a largest dimension of
    0: for a scene of zero volume the branch of the rescale runs and divides
    by zero.  No exception is raised, the quotient is [Infinity]; the scale
    of the object becomes infinite and its position is lost ([-Infinity] for
    a scene without geometry, [NaN] for a scene of one point).  The loader
    of app.js, which only shrinks, leaves such a scene at scale 1. *)
Theorem frame_zero_volume :
  (forall o q,
      maxDimension (getSize (setFromObject o)) = Fin q -> q == 0 ->
      appliedScale (frame o) = Some PInf
      /\ scale (object (frame o)) = multiplyScalar (scale o) PInf)
  /\ maxDimension (getSize (setFromObject empty_object)) = Fin 0
  /\ appliedScale (frame empty_object) = Some PInf
  /\ scale (object (frame empty_object)) = mkVector3 PInf PInf PInf
  /\ y (position (object (frame empty_object))) = NInf
  /\ appliedScale (frame point_object) = Some PInf
  /\ position (object (frame point_object)) = mkVector3 NaN NaN NaN
  /\ App.autoScale (Fin 0) = Fin 1.
Proof.
  split; [exact frame_divides_by_zero|].
  repeat split; reflexivity.
Qed.

Lemma frame_zero_volume_witness :
  appliedScale (frame empty_object) = Some PInf
  /\ scale (object (frame empty_object)) = mkVector3 PInf PInf PInf.
Proof.
  apply (proj1 frame_zero_volume empty_object 0); reflexivity.
Defined.

End FramingFacts.

(** ** viewer.js: framing, in binary64 *)
Module Framing64Facts.
Import PrimFloat Three64 Framing64 Framing64Examples.
Local Open Scope float_scope.
Local Open Scope b64_scope.




(** A scene of zero volume makes [frame] divide by zero in binary64 as it
    does in [FramingFacts.frame_divides_by_zero]. *)
Example frame64_zero_volume :
  appliedScale (frame empty_scene) = Some infinity
  /\ y (position (object (frame empty_scene))) = neg_infinity
  /\ appliedScale (frame point_scene) = Some infinity
  /\ is_nan (y (position (object (frame point_scene)))) = true.
Proof. repeat split; reflexivity. Qed.

End Framing64Facts.

(** ** app.js: what the page keeps *)
Module AppTraceFacts.
Import ThumbnailSpec AppSpec AppTrace.
Import Gfx App.
Import ThumbnailFacts AppFacts.
Local Open Scope Z_scope.

(** A render draws over whatever the canvas held, and leaves the context
    as [initThumbnailCanvas] made it. *)
Lemma render_overwrites (g : JS.num) (ig ig' : option bool) (ib ib' : bool) (s : Thumbnail.State) :
  Thumbnail.thumbnailCtx s = Some fresh_ctx ->
  Thumbnail.renderThumbnail g ig ib (Thumbnail.renderThumbnail g ig' ib' s)
  = Thumbnail.renderThumbnail g ig ib s
  /\ Thumbnail.thumbnailCtx (Thumbnail.renderThumbnail g ig ib s) = Some fresh_ctx.
Proof.
  intros Ex. split.
  - unfold Thumbnail.renderThumbnail at 2. rewrite Ex.
    destruct (Thumbnail.thumbnailCanvas s) as [canvas|] eqn:Ec; [|reflexivity].
    destruct (Thumbnail.thumbnailImage s) as [img|] eqn:Ei; [|reflexivity].
    destruct ib'; destruct (Thumbnail.guidesImage s) as [gi|] eqn:Eg; simpl;
      try destruct (_ && Image.complete gi); simpl;
      unfold Thumbnail.renderThumbnail, Thumbnail.with_drawing; simpl; rewrite Ec, Ex, Ei, ?Eg; reflexivity.
  - unfold Thumbnail.renderThumbnail. rewrite Ex.
    destruct (Thumbnail.thumbnailCanvas s) as [canvas|] eqn:Ec; [|exact Ex].
    destruct (Thumbnail.thumbnailImage s) as [img|] eqn:Ei; [|exact Ex].
    destruct ib; destruct (Thumbnail.guidesImage s) as [gi|] eqn:Eg; simpl;
      try destruct (_ && Image.complete gi); reflexivity.
Qed.



Lemma thumb_render_ctx g ig ib t :
  Thumbnail.thumbnailCtx t = None \/ Thumbnail.thumbnailCtx t = Some fresh_ctx ->
  Thumbnail.thumbnailCtx (Thumbnail.renderThumbnail g ig ib t) = None
  \/ Thumbnail.thumbnailCtx (Thumbnail.renderThumbnail g ig ib t) = Some fresh_ctx.
Proof.
  intros [H|H].
  - left. unfold Thumbnail.renderThumbnail. rewrite H.
    destruct (Thumbnail.thumbnailCanvas t); exact H.
  - right. apply (render_overwrites g ig ig ib ib t H).
Qed.

Lemma thumb_render_snapshot g ig ib t :
  Thumbnail.newSnapshotData (Thumbnail.renderThumbnail g ig ib t) = Thumbnail.newSnapshotData t.
Proof. render_fields g ig ib t. reflexivity. Qed.

Lemma thumb_render_guides g ig ib t :
  Thumbnail.showThumbnailGuides (Thumbnail.renderThumbnail g ig ib t)
  = Thumbnail.showThumbnailGuides t.
Proof. render_fields g ig ib t. reflexivity. Qed.

(** *** The composite canvas keeps its part *)

Section ThumbInv.
Variables (g : JS.num) (log : list Picture) (vis : bool).

Lemma thumb_inv_render ig ib t :
  thumb_inv log vis t -> thumb_inv log vis (Thumbnail.renderThumbnail g ig ib t).
Proof.
  intros (H1 & H2 & H3 & H4 & H5). unfold thumb_inv.
  rewrite thumb_render_guides, renderThumbnail_scale, thumb_render_snapshot,
    renderThumbnail_image.
  split; [exact H1|]. split; [exact H2|]. split; [apply thumb_render_ctx; exact H3|].
  split; assumption.
Qed.

Lemma thumb_inv_down e t :
  thumb_inv log vis t -> thumb_inv log vis (Thumbnail.onThumbnailMouseDown e t).
Proof.
  intros H. unfold Thumbnail.onThumbnailMouseDown.
  destruct (Thumbnail.thumbnailCanvas t); exact H.
Qed.

Lemma thumb_inv_move e t :
  thumb_inv log vis t -> thumb_inv log vis (Thumbnail.onThumbnailMouseMove g e t).
Proof.
  intros H. unfold Thumbnail.onThumbnailMouseMove.
  destruct (negb _); [exact H|].
  destruct (Thumbnail.thumbnailCanvas t); [|exact H].
  apply thumb_inv_render. exact H.
Qed.

Lemma thumb_inv_up t :
  thumb_inv log vis t -> thumb_inv log vis (Thumbnail.onThumbnailMouseUp t).
Proof. intros H. exact H. Qed.

Lemma thumb_inv_wheel e t :
  thumb_inv log vis t -> thumb_inv log vis (Thumbnail.onThumbnailWheel g e t).
Proof.
  intros H. pose proof H as (H1 & H2 & H3 & H4 & H5).
  pose proof (onThumbnailWheel_in_range g e t H2) as R.
  unfold Thumbnail.onThumbnailWheel in *.
  destruct (JS.ltb _ _).
  - set (t' := Thumbnail.with_scale t _) in *.
    assert (T : thumb_inv log vis t').
    { unfold thumb_inv. rewrite renderThumbnail_scale in R. subst t'. simpl in *. auto. }
    apply thumb_inv_render. exact T.
  - set (t' := Thumbnail.with_scale t _) in *.
    assert (T : thumb_inv log vis t').
    { unfold thumb_inv. rewrite renderThumbnail_scale in R. subst t'. simpl in *. auto. }
    apply thumb_inv_render. exact T.
Qed.

Lemma thumb_inv_clear t :
  thumb_inv log vis t -> thumb_inv log vis (Thumbnail.clearThumbnailPreview t).
Proof.
  intros (H1 & H2 & H3 & H4 & H5). unfold thumb_inv. simpl.
  split; [exact H1|]. split; [|auto].
  exists 1.0%Q. split; [reflexivity | lra].
Qed.

Lemma thumb_inv_bake t :
  thumb_inv log vis t -> thumb_inv log vis (fst (Thumbnail.useSnapshot g t)).
Proof.
  intros H. unfold Thumbnail.useSnapshot.
  destruct (Thumbnail.newSnapshotData t); [|exact H].
  destruct (Thumbnail.thumbnailCanvas t); [|exact H].
  destruct (Thumbnail.thumbnailCtx t); [|exact H].
  simpl. apply thumb_inv_render, thumb_inv_render. exact H.
Qed.

Lemma thumb_inv_guides w h t :
  thumb_inv log vis t -> thumb_inv log vis (Thumbnail.onGuidesLoad g w h t).
Proof.
  intros H. pose proof H as (H1 & H2 & H3 & H4 & H5).
  unfold Thumbnail.onGuidesLoad.
  destruct (Thumbnail.guidesImage t); [|exact H].
  destruct (Thumbnail.thumbnailCanvas t); [|exact H].
  destruct (Thumbnail.thumbnailCtx t) as [ctx|] eqn:Ex; [|exact H].
  destruct H3 as [H3|H3]; [discriminate|]. injection H3 as ->.
  unfold thumb_inv. simpl. auto 10.
Qed.

Lemma thumb_inv_snapshot_loaded w h t :
  thumb_inv log vis t -> thumb_inv log vis (Thumbnail.onSnapshotLoad g w h t).
Proof.
  intros H. pose proof H as (H1 & H2 & H3 & H4 & H5).
  unfold Thumbnail.onSnapshotLoad.
  destruct (Thumbnail.thumbnailImage t) as [img|] eqn:Ei; [|exact H].
  apply thumb_inv_render. unfold thumb_inv. simpl. auto 10.
Qed.

End ThumbInv.

(** A capture puts its picture in front of the log and makes it the
    snapshot. *)
Lemma thumb_inv_capture (log : list Picture) (vis : bool) (f : Picture) (t : Thumbnail.State) :
  thumb_inv log vis t ->
  thumb_inv (f :: log) vis (Thumbnail.with_snapshot t f (Image.loading (SrcPicture f))).
Proof.
  intros (H1 & H2 & H3 & H4 & H5). unfold thumb_inv. simpl. auto 10.
Qed.

(** *** The page keeps the invariant *)

Lemma Inv_loaded (element : option Thumbnail.Canvas.t) : Inv (onDOMContentLoaded element).
Proof.
  constructor; simpl; auto.
  exists (mkGridHelper true). split; [reflexivity|].
  unfold thumb_inv. destruct element as [canvas|]; simpl.
  - split; [reflexivity|]. split; [exists 1.0%Q; split; [reflexivity|lra]|]. auto.
  - split; [reflexivity|]. split; [exists 1.0%Q; split; [reflexivity|lra]|]. auto.
Qed.

Lemma Inv_with_thumb (s : State) (t : Thumbnail.State) :
  Inv s ->
  (forall vis, thumb_inv (captureLog s) vis (thumb s) -> thumb_inv (captureLog s) vis t) ->
  Inv (with_thumb s t).
Proof.
  intros [(gh & Eg & Ht) Hb Hc Hl Hv] H.
  constructor; simpl; auto. exists gh. auto.
Qed.

Lemma Inv_capture (now : Z) (s : State) : Inv s -> Inv (updateThumbnailFromViewport now s).
Proof.
  intros I. pose proof I as [(gh & Eg & Ht) Hb [Hc Ha] Hl Hv].
  unfold updateThumbnailFromViewport.
  destruct (_ || _); [exact I|]. destruct (_ <? _); [exact I|].
  destruct s as [bg cc ca gr cam t live last inter log]; simpl in *. subst gr.
  destruct gh as [vis]. simpl in *.
  constructor; simpl; auto.
  - exists (mkGridHelper vis). split; [reflexivity|]. apply thumb_inv_capture. exact Ht.
  - constructor; [|exact Hl]. repeat split.
Qed.

Lemma Inv_step (e : Event) (s : State) : Inv s -> Inv (step e s).
Proof.
  intros I. destruct e; simpl.
  - apply Inv_capture. exact I.
  - unfold forceThumbnailUpdate. apply Inv_capture.
    destruct I as [(gh & Eg & Ht) Hb Hc Hl Hv]. constructor; simpl; auto. exists gh. auto.
  - destruct I as [(gh & Eg & Ht) Hb Hc Hl Hv]. constructor; simpl; auto. exists gh. auto.
  - unfold enableLiveUpdating. destruct (negb _); [|exact I].
    destruct I as [(gh & Eg & Ht) Hb Hc Hl Hv]. constructor; simpl; auto. exists gh. auto.
  - unfold toggleGrid.
    destruct I as [(gh & Eg & Ht) Hb Hc Hl Hv]. rewrite Eg.
    constructor; simpl; auto.
    exists (mkGridHelper (negb (visible gh))). split; [reflexivity|]. simpl.
    assert (T : thumb_inv (captureLog s) (negb (visible gh))
                  (Thumbnail.with_guides (thumb s) (Thumbnail.guidesImage (thumb s))
                     (negb (visible gh)))).
    { destruct Ht as (H1 & H2 & H3 & H4 & H5). unfold thumb_inv. simpl. auto. }
    destruct (_ && _); [apply thumb_inv_render|]; exact T.
  - apply Inv_with_thumb; [exact I|]. intros vis. apply thumb_inv_down.
  - apply Inv_with_thumb; [exact I|]. intros vis. apply thumb_inv_move.
  - apply Inv_with_thumb; [exact I|]. intros vis. apply thumb_inv_up.
  - apply Inv_with_thumb; [exact I|]. intros vis. apply thumb_inv_wheel.
  - apply Inv_with_thumb; [exact I|]. intros vis. apply thumb_inv_clear.
  - unfold useSnapshot.
    pose proof (fun vis => thumb_inv_bake guideAlpha (captureLog s) vis (thumb s)) as B.
    destruct (Thumbnail.useSnapshot guideAlpha (thumb s)) as [t out]. simpl in *.
    apply Inv_with_thumb; [exact I | exact B].
  - apply Inv_with_thumb; [exact I|]. intros vis. apply thumb_inv_guides.
  - apply Inv_with_thumb; [exact I|]. intros vis. apply thumb_inv_snapshot_loaded.
  - apply Inv_with_thumb; [exact I|]. intros vis. apply thumb_inv_render.
Qed.

(** X1. From [DOMContentLoaded] on, whatever events follow (animation
    frames, timers, camera moves, clicks on the grid button, gestures on
    the composite canvas, resets, bakes and the [onload] of pictures, in any
    order and number), the page of app.js keeps what [Inv] says: the grid
    helper exists and the guide switch of the composite equals its
    visibility; the scale of the composite is inside [0.3, 3.0]; the 2D
    context, once made, has the fill style #121212 and the opacity 1; the
    snapshot data and the snapshot image are those of the latest capture;
    the scene background is the colour object and the renderer clears to
    opaque 0x121212, a capture putting back what it changes; every picture
    captured has no background, no grid and a transparent clear colour; and
    live updating is on. *)
Theorem page_invariant (element : option Thumbnail.Canvas.t) (events : list Event) :
  Inv (run events (onDOMContentLoaded element)).
Proof.
  unfold run. generalize (Inv_loaded element).
  generalize (onDOMContentLoaded element) as s.
  induction events as [|e events IH]; intros s I; simpl; [exact I|].
  apply IH, Inv_step, I.
Qed.

(** X2. Only a pointer move and a reset change the offset of the
    composite, and only a wheel step and a reset change its scale: every
    other event, a capture of the viewport included, leaves the snapshot
    where the user has put it. *)
Theorem positioning_kept (e : Event) (s : State) :
  (moves_snapshot e = false ->
     Thumbnail.thumbnailOffset (thumb (step e s)) = Thumbnail.thumbnailOffset (thumb s))
  /\ (rescales_snapshot e = false ->
     Thumbnail.thumbnailScale (thumb (step e s)) = Thumbnail.thumbnailScale (thumb s)).
Proof.
  assert (U : forall now s0,
             Thumbnail.thumbnailOffset (thumb (updateThumbnailFromViewport now s0))
             = Thumbnail.thumbnailOffset (thumb s0)
             /\ Thumbnail.thumbnailScale (thumb (updateThumbnailFromViewport now s0))
                = Thumbnail.thumbnailScale (thumb s0)).
  { intros now s0. unfold updateThumbnailFromViewport.
    destruct (_ || _); [auto|]. destruct (_ <? _); [auto|].
    destruct s0 as [bg cc ca [gh|] cam t live last inter log]; simpl; auto. }
  destruct e; simpl; split; intros H; try discriminate H;
    try reflexivity; try apply U;
    rewrite ?renderThumbnail_offset, ?renderThumbnail_scale; try reflexivity.
  all: try (unfold forceThumbnailUpdate; rewrite (proj1 (U _ _)) || rewrite (proj2 (U _ _));
            reflexivity).
  all: try (unfold enableLiveUpdating; destruct (negb _); reflexivity).
  all: try (unfold toggleGrid; destruct (gridHelper s); [|reflexivity]; simpl;
            destruct (_ && _); rewrite ?renderThumbnail_offset, ?renderThumbnail_scale;
            reflexivity).
  all: try (unfold Thumbnail.onThumbnailMouseDown; destruct (Thumbnail.thumbnailCanvas _);
            reflexivity).
  all: try (unfold Thumbnail.onThumbnailMouseMove; destruct (negb _); [reflexivity|];
            destruct (Thumbnail.thumbnailCanvas _); [|reflexivity];
            rewrite renderThumbnail_scale; reflexivity).
  all: try (unfold Thumbnail.onThumbnailWheel; rewrite renderThumbnail_offset;
            destruct (JS.ltb _ _); reflexivity).
  all: try (unfold useSnapshot, Thumbnail.useSnapshot;
            destruct (Thumbnail.newSnapshotData _); [|reflexivity];
            destruct (Thumbnail.thumbnailCanvas _); [|reflexivity];
            destruct (Thumbnail.thumbnailCtx _); [|reflexivity]; simpl;
            rewrite ?renderThumbnail_offset, ?renderThumbnail_scale; reflexivity).
  all: try (unfold Thumbnail.onGuidesLoad;
            destruct (Thumbnail.guidesImage _); [|reflexivity];
            destruct (Thumbnail.thumbnailCanvas _); [|reflexivity];
            destruct (Thumbnail.thumbnailCtx _); reflexivity).
  all: try (unfold Thumbnail.onSnapshotLoad;
            destruct (Thumbnail.thumbnailImage _); [|reflexivity];
            rewrite ?renderThumbnail_offset, ?renderThumbnail_scale; reflexivity).
Qed.

Lemma positioning_kept_witness :
  let s := run [MouseDown (Thumbnail.mkMouseEvent (Fin 120.5) (Fin 80));
                MouseMove (Thumbnail.mkMouseEvent (Fin 260) (Fin 33.25));
                Wheel wheel_up] loaded in
  Thumbnail.thumbnailOffset (thumb (step (Frame 1700000000000) s))
  = Thumbnail.thumbnailOffset (thumb s)
  /\ Thumbnail.thumbnailScale (thumb (step (Frame 1700000000000) s))
     = Thumbnail.thumbnailScale (thumb s)
  /\ captureLog (step (Frame 1700000000000) s) <> captureLog s.
Proof.
  intros s.
  split; [apply (proj1 (positioning_kept (Frame 1700000000000) s)); reflexivity|].
  split; [apply (proj2 (positioning_kept (Frame 1700000000000) s)); reflexivity|].
  vm_compute. discriminate.
Defined.

End AppTraceFacts.

(** ** viewer.js: what a load leaves alone *)
Module LoadingFrame.
Import LoadingSpec.
Import Loading LoadingFacts.
Local Open Scope string_scope.

Lemma revoke_all_nextId (ids : list nat) (st : BlobStore) :
  nextId (fold_left revokeObjectURL ids st) = nextId st.
Proof.
  revert st. induction ids as [|i ids IH]; intros st; simpl; [reflexivity|].
  rewrite IH. reflexivity.
Qed.

Lemma revoke_all_wf (ids : list nat) (st : BlobStore) :
  store_wf st -> store_wf (fold_left revokeObjectURL ids st).
Proof.
  intros Hwf id [b Hb]. rewrite revoke_all_nextId.
  destruct (in_dec Nat.eq_dec id ids) as [Hin|Hnot].
  - rewrite revoke_all_frees in Hb by exact Hin. discriminate.
  - rewrite revoke_all_keeps in Hb by exact Hnot. apply Hwf. rewrite Hb. eauto.
Qed.

Section WithBuiltins.

Variable decodeURI : string -> option string.

(** The modifier registers new object URLs above the ones it found, and
    touches none of those. *)
Lemma resolveAll_frame (baseURL rootPath : string) (assetMap : gmap string Blob)
    (urls : list string) (store : BlobStore) (acc : list nat) :
  let r := snd (resolveAll decodeURI baseURL rootPath assetMap urls (store, acc)) in
  (nextId store <= nextId (fst r))%nat
  /\ (forall id, (id < nextId store)%nat -> live (fst r) !! id = live store !! id)
  /\ (forall id, In id (snd r) -> In id acc \/ (nextId store <= id)%nat).
Proof.
  revert store acc. induction urls as [|url urls IH]; intros store acc; simpl.
  - split; [lia|]. split; auto.
  - unfold resolveURL, urlModifier.
    destruct (normalizedURL decodeURI baseURL rootPath url) as [n|]; simpl;
      [|split; [lia|]; split; auto].
    destruct (assetMap !! n) as [blob|]; simpl.
    + specialize (IH (mkBlobStore (S (nextId store)) (<[nextId store:=blob]> (live store)))
                     (acc ++ [nextId store])%list).
      destruct (resolveAll decodeURI baseURL rootPath assetMap urls _)
        as [rs [store' acc']].
      simpl in *. destruct IH as (I1 & I2 & I3).
      split; [lia|]. split.
      * intros id Hid. rewrite I2 by lia. apply lookup_insert_ne. lia.
      * intros id Hid. destruct (I3 id Hid) as [H|H]; [|right; lia].
        apply in_app_or in H as [H|[<-|[]]]; [left; exact H | right; lia].
    + specialize (IH store acc).
      destruct (resolveAll decodeURI baseURL rootPath assetMap urls (store, acc))
        as [rs [store' acc']].
      exact IH.
Qed.

Lemma load_frame (v : Viewer.t) (url rootPath : string) (assetMap : gmap string Blob)
    (run : LoaderRun) (store : BlobStore) :
  store_wf store ->
  let store' := snd (fst (load decodeURI v url rootPath assetMap run store)) in
  store_wf store'
  /\ (nextId store <= nextId store')%nat
  /\ (forall id, (id < nextId store)%nat -> live store' !! id = live store !! id).
Proof.
  intros Hwf. unfold load.
  pose proof (resolveAll_invariant decodeURI (extractUrlBase url) rootPath assetMap
                (requests run) store [] Hwf) as [Hwf' _].
  pose proof (resolveAll_frame (extractUrlBase url) rootPath assetMap (requests run)
                store []) as (F1 & F2 & F3).
  destruct (resolveAll decodeURI (extractUrlBase url) rootPath assetMap (requests run)
              (store, [])) as [[rs|] [st ids]]; simpl in *; [|auto].
  destruct (outcome run) as [e|gltf]; simpl; [auto|].
  destruct (match scene gltf with Some sc => Some sc | None => head (scenes gltf) end);
    simpl; [|auto].
  split; [apply revoke_all_wf; exact Hwf'|]. split; [rewrite revoke_all_nextId; exact F1|].
  intros id Hid. rewrite revoke_all_keeps; [apply F2; exact Hid|].
  intros Hin. destruct (F3 id Hin) as [[]|H]. lia.
Qed.

(** X3. [Viewer.load] leaves the object URLs made before it alone:
    whatever the outcome of the load, the registry is well formed
    afterwards, no serial number is handed out twice, and every URL
    registered before the load still maps to what it mapped to (the URLs
    revoked after a successful load are those the load itself made). *)
Theorem load_keeps_earlier_urls (v : Viewer.t) (url rootPath : string)
    (assetMap : gmap string Blob) (run : LoaderRun) (store : BlobStore) :
  store_wf store ->
  let store' := snd (fst (load decodeURI v url rootPath assetMap run store)) in
  store_wf store'
  /\ (nextId store <= nextId store')%nat
  /\ (forall id, (id < nextId store)%nat -> live store' !! id = live store !! id).
Proof. exact (load_frame v url rootPath assetMap run store). Qed.

End WithBuiltins.

Lemma load_keeps_earlier_urls_witness :
  let before := mkBlobStore 1 (<[0%nat := mkBlob "GLTF"]> ∅) in
  let after :=
    snd (fst (load decodeURI_ascii Viewer.new "blob:http://localhost:5172/1f0c" EmptyString
                uploaded
                (mkLoaderRun ["blob:http://localhost:5172/wood%20grain.png"]
                   (OnLoad (mkGLTF (Some FramingExamples.example_object) [])))
                before)) in
  live after !! 0%nat = Some (mkBlob "GLTF") /\ nextId after = 2%nat
  /\ live after !! 1%nat = None.
Proof.
  intros before after.
  assert (Hwf : store_wf before).
  { intros id [b Hb]. unfold before in *. simpl in *.
    destruct (decide (id = 0%nat)) as [->|Hne]; [lia|].
    rewrite lookup_insert_ne in Hb by auto. rewrite lookup_empty in Hb. discriminate. }
  destruct (load_keeps_earlier_urls decodeURI_ascii Viewer.new
              "blob:http://localhost:5172/1f0c" EmptyString uploaded
              (mkLoaderRun ["blob:http://localhost:5172/wood%20grain.png"]
                 (OnLoad (mkGLTF (Some FramingExamples.example_object) [])))
              before Hwf) as (_ & _ & K).
  split; [|split; reflexivity].
  fold after in K. rewrite (K 0%nat) by (simpl; lia). reflexivity.
Defined.

End LoadingFrame.

(** ** main.js: uploads *)
Module UploadFacts.
Import LoadingSpec MainLoadingSpec Upload.
Import Loading Main LoadingFacts LoadingFrame.
Local Open Scope string_scope.

(** Once the main file is found, every further file is an asset. *)
Lemma classify_found (files : list File) (m : File) (a : gmap string Blob) :
  fold_left classifyStep files (Some m, a)
  = (Some m, fold_left (fun a f => <[name f := content f]> a) files a).
Proof.
  revert a. induction files as [|f files IH]; intros a; simpl; [reflexivity|].
  rewrite andb_false_r. apply IH.
Qed.

Lemma classify_general (files : list File) (a : gmap string Blob) :
  match fold_left classifyStep files (None, a) with
  | (Some m, assets) =>
      exists before after,
        files = (before ++ m :: after)%list
        /\ isModelFile m = true
        /\ Forall (fun f => isModelFile f = false) before
        /\ assets = fold_left (fun a f => <[name f := content f]> a) (before ++ after)%list a
  | (None, assets) =>
      Forall (fun f => isModelFile f = false) files
      /\ assets = fold_left (fun a f => <[name f := content f]> a) files a
  end.
Proof.
  revert a. induction files as [|f files IH]; intros a; simpl.
  - split; [constructor | reflexivity].
  - destruct (isModelFile f) eqn:Ef; simpl.
    + rewrite classify_found. exists [], files. simpl. auto.
    + specialize (IH (<[name f := content f]> a)).
      destruct (fold_left classifyStep files (None, <[name f := content f]> a))
        as [[m|] assets].
      * destruct IH as (before & after & -> & Hm & Hb & ->).
        exists (f :: before), after. simpl. auto.
      * destruct IH as [Hf ->]. split; [constructor; assumption | reflexivity].
Qed.

(** X4. [handleFileUpload] takes as main file the first file whose name
    ends, case apart, in .gltf or .glb; every other file, a later model
    file included, goes to the asset map under its own name, a later file
    replacing an earlier one of that name.  Without such a file the handler
    shows one alert and does nothing else; without any file it does
    nothing. *)
Theorem upload_classification (files : list File) :
  match classify files with
  | (Some m, assets) =>
      exists before after,
        files = (before ++ m :: after)%list
        /\ isModelFile m = true
        /\ Forall (fun f => isModelFile f = false) before
        /\ assets = assetsOf (before ++ after)
  | (None, assets) =>
      Forall (fun f => isModelFile f = false) files /\ assets = assetsOf files
  end
  /\ (forall decodeURI objectURL run s,
        files <> [] -> fst (classify files) = None ->
        handleFileUpload decodeURI objectURL files run s
        = with_ui s (alert noModelMessage (ui s)))
  /\ (forall decodeURI objectURL run s, handleFileUpload decodeURI objectURL [] run s = s)
  /\ isModelFile (mkFile "Scene.GLTF" (mkBlob "a")) = true
  /\ isModelFile (mkFile "scene.glb" (mkBlob "a")) = true
  /\ isModelFile (mkFile "scene.gltf.bak" (mkBlob "a")) = false.
Proof.
  split; [exact (classify_general files ∅)|]. split; [|repeat split; reflexivity].
  intros decodeURI objectURL run s Hne Hc. unfold handleFileUpload.
  destruct files as [|f files]; [contradiction|].
  destruct (classify (f :: files)) as [[m|] assets]; [discriminate | reflexivity].
Qed.

Lemma upload_classification_witness :
  let files := [mkFile "wood grain.png" texture; mkFile "notes.txt" (mkBlob "text")] in
  alerts (ui (handleFileUpload decodeURI_ascii (fun _ => "blob:http://localhost:5172/1f0c")
                files no_scene_run MainSpec.loaded))
  = [noModelMessage].
Proof.
  intros files.
  rewrite (proj1 (proj2 (upload_classification files)) decodeURI_ascii
             (fun _ => "blob:http://localhost:5172/1f0c") no_scene_run MainSpec.loaded);
    [reflexivity | discriminate | reflexivity].
Defined.

Section WithBuiltins.

Variable decodeURI : string -> option string.
Variable objectURL : nat -> string.

(** X5. The object URL that [handleFileUpload] makes for the main file
    is never revoked: after the handler and the load it starts, whatever
    the outcome of the load, that URL still maps to the file, and the URLs
    registered before are untouched.  ([Viewer.load] revokes the URLs it
    made for the assets; this one it did not make.) *)
Theorem upload_keeps_main_url (files : list File) (run : LoaderRun) (s : State)
    (v : Viewer.t) (m : File) (assets : gmap string Blob) :
  viewer s = Some v -> store_wf (store s) -> classify files = (Some m, assets) ->
  let s' := handleFileUpload decodeURI objectURL files run s in
  live (store s') !! nextId (store s) = Some (content m)
  /\ (nextId (store s) < nextId (store s'))%nat
  /\ (forall id, (id < nextId (store s))%nat ->
        live (store s') !! id = live (store s) !! id)
  /\ store_wf (store s').
Proof.
  intros Hv Hwf Hc s'. subst s'. unfold handleFileUpload.
  destruct files as [|f files]; [discriminate Hc|]. rewrite Hc.
  pose proof (createObjectURL_fresh (content m) (store s) Hwf) as F.
  unfold createObjectURL in *. destruct F as (_ & F1 & F2 & F3 & F4).
  set (st := mkBlobStore (S (nextId (store s)))
               (<[nextId (store s) := content m]> (live (store s)))) in *.
  unfold uploadModel. simpl. rewrite Hv.
  pose proof (load_frame decodeURI v (objectURL (nextId (store s))) EmptyString assets run
                st F4) as (L1 & L2 & L3).
  destruct (load decodeURI v (objectURL (nextId (store s))) EmptyString assets run st)
    as [[v1 st1] settled]. simpl in L1, L2, L3.
  assert (K : live st1 !! nextId (store s) = Some (content m)
              /\ (nextId (store s) < nextId st1)%nat
              /\ (forall id, (id < nextId (store s))%nat ->
                    live st1 !! id = live (store s) !! id)
              /\ store_wf st1).
  { split; [rewrite L3 by (simpl; lia); exact F2|]. split; [simpl in L2; lia|].
    split; [|exact L1].
    intros id Hid. rewrite L3 by (simpl; lia). apply F3. lia. }
  destruct settled; simpl; exact K.
Qed.

End WithBuiltins.

Lemma upload_keeps_main_url_witness :
  let files := [mkFile "wood grain.png" texture; mkFile "Chair.gltf" (mkBlob "GLTF");
                mkFile "Old.gltf" (mkBlob "GLTF2")] in
  let run := mkLoaderRun ["blob:http://localhost:5172/wood%20grain.png"]
               (OnLoad (mkGLTF (Some FramingExamples.example_object) [])) in
  let s' := handleFileUpload decodeURI_ascii (fun _ => "blob:http://localhost:5172/1f0c")
              files run MainSpec.loaded in
  live (store s') !! 0%nat = Some (mkBlob "GLTF") /\ live (store s') !! 1%nat = None.
Proof.
  intros files run s'.
  assert (Hwf : store_wf (store MainSpec.loaded)).
  { intros id [b Hb]. simpl in Hb. rewrite lookup_empty in Hb. discriminate. }
  split; [|reflexivity].
  apply (upload_keeps_main_url decodeURI_ascii (fun _ => "blob:http://localhost:5172/1f0c")
           files run MainSpec.loaded (Viewer.with_stateGrid Viewer.new true)
           (mkFile "Chair.gltf" (mkBlob "GLTF"))
           (<["Old.gltf" := mkBlob "GLTF2"]> (<["wood grain.png" := texture]> ∅))
           eq_refl Hwf eq_refl).
Defined.

End UploadFacts.

(** ** main.js: what the page keeps *)
Module MainPageFacts.
Import ThumbnailSpec MainSpec AppTrace MainPage.
Import Gfx Main.
Import ThumbnailFacts AppTraceFacts.
Local Open Scope Z_scope.

(** *** [Viewer] keeps its grid in order *)








(** *** The page keeps the invariant *)








Section WithBuiltins.

Variable decodeURI : string -> option string.
Variable objectURL : nat -> string.










(** A load is its start followed by the settling of its promise. *)
Lemma loadModel_two_steps (modelUrl : string) (run : Loading.LoaderRun) (s : State) :
  is_Some (viewer s) ->
  loadModel decodeURI modelUrl run s
  = loadModel_settle decodeURI modelUrl run (loadModel_start s).
Proof.
  intros [v Ev]. unfold loadModel, loadModel_settle. rewrite Ev.
  destruct (viewer (loadModel_start s)); reflexivity.
Qed.

End WithBuiltins.

End MainPageFacts.
